(** * Verification of the network command module (custom.py)

    A shallow embedding of the list upsert helper, the sub-resource
    commands built on it, the selective update commands, the express-route
    peering guard and the DNS zone import/export transform, followed by
    the properties established about them. *)

From Stdlib Require Import List String Ascii ZArith Bool Arith Lia Permutation.
From Stdlib Require Import DecimalString.
From Equations Require Import Equations.
Import ListNotations.

Set Warnings "-register-all".
Local Open Scope string_scope.
Local Open Scope list_scope.

(** ** Python values, exceptions and results *)

Module Py.

(** The dynamic values the commands manipulate.  An SDK model object is its
    class name together with its [__dict__], kept in attribute order. *)
Inductive pyval : Type :=
| PNone
| PBool (b : bool)
| PInt (n : Z)
| PStr (s : string)
| PList (l : list pyval)
| PObj (cls : string) (d : list (string * pyval)).

(** Equality of values, which stands for Python's [==]: SDK models compare
    by class and attribute values, lists element by element. *)
Definition pyval_eq_dec : forall a b : pyval, {a = b} + {a <> b}.
Proof.
  fix IH 1.
  intros a b; destruct a, b; try (right; discriminate).
  - left; reflexivity.
  - destruct (bool_dec b0 b); [left; congruence | right; congruence].
  - destruct (Z.eq_dec n n0); [left; congruence | right; congruence].
  - destruct (string_dec s s0); [left; congruence | right; congruence].
  - destruct (list_eq_dec IH l l0); [left; congruence | right; congruence].
  - destruct (string_dec cls cls0); [| right; congruence].
    assert (Hp : forall p q : string * pyval, {p = q} + {p <> q}).
    { intros [k1 v1] [k2 v2].
      destruct (string_dec k1 k2); [| right; congruence].
      destruct (IH v1 v2); [left; congruence | right; congruence]. }
    destruct (list_eq_dec Hp d d0); [left; congruence | right; congruence].
Defined.

Definition py_eqb (a b : pyval) : bool :=
  if pyval_eq_dec a b then true else false.

(** The exceptions the commands can raise.  A [CLIError] carries its message
    as the format string and the arguments substituted into it. *)
Inductive exn : Type :=
| CLIError (fmt : string) (args : list pyval)
| AttributeError
| TypeError
| KeyError (k : string)
| IndexError
| ValueError
| StopIteration
| AssertionError.

Inductive result (A : Type) : Type :=
| Ok (a : A)
| Raise (e : exn).
Arguments Ok {A} a.
Arguments Raise {A} e.

Definition bind {A B} (m : result A) (k : A -> result B) : result B :=
  match m with
  | Ok a => k a
  | Raise e => Raise e
  end.

(** Truth value of a value in a condition ([if x:], [not x]). *)
Definition truthy (v : pyval) : bool :=
  match v with
  | PNone => false
  | PBool b => b
  | PInt n => negb (Z.eqb n 0)
  | PStr s => negb (String.eqb s "")
  | PList l => match l with [] => false | _ => true end
  | PObj _ _ => true
  end.

Definition is_obj (v : pyval) : Prop :=
  match v with PObj _ _ => True | _ => False end.

Fixpoint lookup (k : string) (d : list (string * pyval)) : option pyval :=
  match d with
  | [] => None
  | (k', v) :: d' => if String.eqb k k' then Some v else lookup k d'
  end.

Fixpoint store (k : string) (v : pyval) (d : list (string * pyval))
  : list (string * pyval) :=
  match d with
  | [] => [(k, v)]
  | (k', v') :: d' =>
      if String.eqb k k' then (k, v) :: d' else (k', v') :: store k v d'
  end.

(** [getattr(x, name, default)] *)
Definition getattr_default (x : pyval) (name : string) (default : pyval) : pyval :=
  match x with
  | PObj _ d => match lookup name d with Some v => v | None => default end
  | _ => default
  end.

(** [x.name] *)
Definition getattr (x : pyval) (name : string) : result pyval :=
  match x with
  | PObj _ d => match lookup name d with Some v => Ok v | None => Raise AttributeError end
  | _ => Raise AttributeError
  end.

(** [x.name = v] *)
Definition setattr (x : pyval) (name : string) (v : pyval) : result pyval :=
  match x with
  | PObj c d => Ok (PObj c (store name v d))
  | _ => Raise AttributeError
  end.

(** [iter(x)] for the values the commands iterate over. *)
Definition iter (x : pyval) : result (list pyval) :=
  match x with
  | PList l => Ok l
  | _ => Raise TypeError
  end.

(** [next((x for x in l if p(x)), None)] *)
Fixpoint next_or_none (p : pyval -> bool) (l : list pyval) : pyval :=
  match l with
  | [] => PNone
  | x :: l' => if p x then x else next_or_none p l'
  end.

(** The generator [(x for x in l if p(x))] run to its first element, where
    the condition may itself raise: the elements skipped, the element
    found and the elements after it. *)
Fixpoint first_where (p : pyval -> result bool) (l : list pyval)
  : result (option (list pyval * pyval * list pyval)) :=
  match l with
  | [] => Ok None
  | x :: l' =>
      match p x with
      | Raise e => Raise e
      | Ok true => Ok (Some ([], x, l'))
      | Ok false =>
          match first_where p l' with
          | Ok (Some (before, y, after)) => Ok (Some (x :: before, y, after))
          | other => other
          end
      end
  end.

(** [x.name == v] *)
Definition attr_equals (name : string) (v : pyval) (x : pyval) : result bool :=
  match getattr x name with
  | Ok a => Ok (py_eqb a v)
  | Raise e => Raise e
  end.

(** [try: m  except (caught...): handler] *)
Definition try_except {A} (m : result A) (caught : exn -> bool)
    (handler : result A) : result A :=
  match m with
  | Ok a => Ok a
  | Raise e => if caught e then handler else Raise e
  end.

(** [l.remove(x)]: drops the first element equal to [x]. *)
Fixpoint list_remove (x : pyval) (l : list pyval) : result (list pyval) :=
  match l with
  | [] => Raise ValueError
  | y :: l' =>
      if py_eqb y x then Ok l'
      else match list_remove x l' with
           | Ok r => Ok (y :: r)
           | Raise e => Raise e
           end
  end.

End Py.
Export Py.

Notation "x <- m ;; k" := (bind m (fun x => k))
  (at level 61, m at next level, right associativity).

(** ** The generic upsert helper *)

(** A warning emitted through the module logger: format string and argument. *)
Inductive log_event : Type :=
| Warning (fmt : string) (arg : pyval).

(** [_upsert(collection, obj, key_name, key_value)].  The list is mutated in
    place in the source; the new contents and the emitted warnings are
    returned here. *)
Definition _upsert (collection : list pyval) (obj : pyval)
    (key_name : string) (key_value : pyval)
  : result (list pyval * list log_event) :=
  let match_ :=
    next_or_none (fun x => py_eqb (getattr_default x key_name PNone) key_value)
                 collection in
  if truthy match_ then
    rest <- list_remove match_ collection ;;
    Ok (rest ++ [obj],
        [Warning "Item '%s' already exists. Replacing with new values." key_value])
  else
    Ok (collection ++ [obj], []).

(** ** Sub-resource commands of the network module

    Every command takes the parent resource fetched from the service and
    returns the parent object it submits with [create_or_update], together
    with the warnings logged on the way.  A model object is built with the
    attributes its constructor call names, in that order. *)

Definition submitted : Type := (pyval * list log_event)%type.

(** [_upsert(parent.attr, obj, key_name, key_value)]: the list held by the
    parent is changed in place. *)
Definition upsert_attr (parent : pyval) (attr : string) (obj : pyval)
    (key_name : string) (key_value : pyval) : result submitted :=
  coll <- getattr parent attr ;;
  l <- iter coll ;;
  r <- _upsert l obj key_name key_value ;;
  parent' <- setattr parent attr (PList (fst r)) ;;
  Ok (parent', snd r).

Definition dquote : string := String (ascii_of_nat 34) EmptyString.

Definition SubResource (id : pyval) : pyval := PObj "SubResource" [("id", id)].

(** Modelled from the spec: the property getter [_get_property] of the
    module's [_util] helpers, which "looks up a named element in a collection
    by attribute match, raising a client error when absent".  The text of
    the error is not specified and is left empty. *)
Definition _get_property (items : pyval) (name : pyval) : result pyval :=
  l <- iter items ;;
  found <- first_where (attr_equals "name" name) l ;;
  match found with
  | Some (_, x, _) => Ok x
  | None => Raise (CLIError "" [name])
  end.

Definition ApplicationGatewayHttpListener
    (item_name frontend_ip frontend_port host_name ssl_cert : pyval) : pyval :=
  PObj "ApplicationGatewayHttpListener"
    [("name", item_name);
     ("frontend_ip_configuration", SubResource frontend_ip);
     ("frontend_port", SubResource frontend_port);
     ("host_name", host_name);
     ("require_server_name_indication",
        if truthy ssl_cert && truthy host_name then PBool true else PNone);
     ("protocol", if truthy ssl_cert then PStr "https" else PStr "http");
     ("ssl_certificate", if truthy ssl_cert then SubResource ssl_cert else PNone)].

Definition create_ag_http_listener (ag : pyval)
    (item_name frontend_ip frontend_port host_name ssl_cert : pyval)
  : result submitted :=
  let new_listener :=
    ApplicationGatewayHttpListener item_name frontend_ip frontend_port
                                   host_name ssl_cert in
  upsert_attr ag "http_listeners" new_listener "name" item_name.

Definition LoadBalancingRule
    (item_name protocol frontend_port backend_port fip pool probe
     load_distribution floating_ip idle_timeout : pyval) : pyval :=
  PObj "LoadBalancingRule"
    [("name", item_name);
     ("protocol", protocol);
     ("frontend_port", frontend_port);
     ("backend_port", backend_port);
     ("frontend_ip_configuration", fip);
     ("backend_address_pool", pool);
     ("probe", probe);
     ("load_distribution", load_distribution);
     ("enable_floating_ip", PBool (py_eqb floating_ip (PStr "true")));
     ("idle_timeout_in_minutes", idle_timeout)].

(** [_get_property(lb.probes, probe_name) if probe_name else None] *)
Definition lookup_probe (lb probe_name : pyval) : result pyval :=
  if truthy probe_name
  then (probes <- getattr lb "probes" ;; _get_property probes probe_name)
  else Ok PNone.

Definition create_lb_rule (lb : pyval)
    (item_name protocol frontend_port backend_port frontend_ip_name
     backend_address_pool_name probe_name load_distribution floating_ip
     idle_timeout : pyval) : result submitted :=
  fips <- getattr lb "frontend_ip_configurations" ;;
  fip <- _get_property fips frontend_ip_name ;;
  pools <- getattr lb "backend_address_pools" ;;
  pool <- _get_property pools backend_address_pool_name ;;
  probe <- lookup_probe lb probe_name ;;
  let new_rule :=
    LoadBalancingRule item_name protocol frontend_port backend_port fip pool
                      probe load_distribution floating_ip idle_timeout in
  upsert_attr lb "load_balancing_rules" new_rule "name" item_name.

(** [for config in configs: config.primary = False] *)
Fixpoint clear_primary (configs : list pyval) : result (list pyval) :=
  match configs with
  | [] => Ok []
  | c :: rest =>
      c' <- setattr c "primary" (PBool false) ;;
      rest' <- clear_primary rest ;;
      Ok (c' :: rest')
  end.

Definition Subnet (id : pyval) : pyval := PObj "Subnet" [("id", id)].
Definition PublicIPAddress (id : pyval) : pyval := PObj "PublicIPAddress" [("id", id)].

Definition NetworkInterfaceIPConfiguration
    (ip_config_name subnet public_ip_address pool_ids nat_rule_ids
     private_ip_address allocation version make_primary : pyval) : pyval :=
  PObj "NetworkInterfaceIPConfiguration"
    [("name", ip_config_name);
     ("subnet", if truthy subnet then Subnet subnet else PNone);
     ("public_ip_address",
        if truthy public_ip_address then PublicIPAddress public_ip_address else PNone);
     ("load_balancer_backend_address_pools", pool_ids);
     ("load_balancer_inbound_nat_rules", nat_rule_ids);
     ("private_ip_address", private_ip_address);
     ("private_ip_allocation_method", allocation);
     ("private_ip_address_version", version);
     ("primary", make_primary)].

(** The subnet of the new configuration: the one given or, for an IPv4
    configuration without one, the subnet of the primary configuration. *)
Definition default_subnet (nic version subnet : pyval) : result pyval :=
  if py_eqb version (PStr "ipv4") && negb (truthy subnet) then
    configs <- getattr nic "ip_configurations" ;;
    l <- iter configs ;;
    found <- first_where (fun x => p <- getattr x "primary" ;; Ok (truthy p)) l ;;
    match found with
    | None => Raise StopIteration
    | Some (_, primary_config, _) =>
        s <- getattr primary_config "subnet" ;;
        getattr s "id"
    end
  else Ok subnet.

Definition create_nic_ip_config (nic : pyval)
    (ip_config_name subnet public_ip_address pool_ids nat_rule_ids
     private_ip_address allocation version make_primary : pyval)
  : result submitted :=
  subnet <- default_subnet nic version subnet ;;
  nic <- (if truthy make_primary then
            configs <- getattr nic "ip_configurations" ;;
            l <- iter configs ;;
            l' <- clear_primary l ;;
            setattr nic "ip_configurations" (PList l')
          else Ok nic) ;;
  let new_config :=
    NetworkInterfaceIPConfiguration ip_config_name subnet public_ip_address
      pool_ids nat_rule_ids private_ip_address allocation version make_primary in
  upsert_attr nic "ip_configurations" new_config "name" ip_config_name.

Definition VpnClientRootCertificate (cert_name public_cert_data : pyval) : pyval :=
  PObj "VpnClientRootCertificate"
    [("name", cert_name); ("public_cert_data", public_cert_data)].

Definition create_vnet_gateway_root_cert (gateway : pyval)
    (gateway_name public_cert_data cert_name : pyval) : result submitted :=
  config <- getattr gateway "vpn_client_configuration" ;;
  if negb (truthy config) then
    Raise (CLIError
      "Must add address prefixes to gateway '{}' prior to adding a root cert."
      [gateway_name])
  else
    certs <- getattr config "vpn_client_root_certificates" ;;
    config <- (if py_eqb certs PNone
               then setattr config "vpn_client_root_certificates" (PList [])
               else Ok config) ;;
    let cert := VpnClientRootCertificate cert_name public_cert_data in
    r <- upsert_attr config "vpn_client_root_certificates" cert "name" cert_name ;;
    gateway' <- setattr gateway "vpn_client_configuration" (fst r) ;;
    Ok (gateway', snd r).

Definition caught_missing (e : exn) : bool :=
  match e with
  | AttributeError | StopIteration => true
  | _ => false
  end.

Definition delete_vnet_gateway_root_cert (gateway : pyval)
    (gateway_name cert_name : pyval) : result pyval :=
  config <- getattr gateway "vpn_client_configuration" ;;
  cert <- try_except
            (certs <- getattr config "vpn_client_root_certificates" ;;
             l <- iter certs ;;
             found <- first_where (attr_equals "name" cert_name) l ;;
             match found with
             | Some (_, c, _) => Ok c
             | None => Raise StopIteration
             end)
            caught_missing
            (Raise (CLIError
                      ("Certificate " ++ dquote ++ "{}" ++ dquote ++
                       " not found in gateway " ++ dquote ++ "{}" ++ dquote)
                      [cert_name; gateway_name])) ;;
  certs <- getattr config "vpn_client_root_certificates" ;;
  l <- iter certs ;;
  l' <- list_remove cert l ;;
  config' <- setattr config "vpn_client_root_certificates" (PList l') ;;
  setattr gateway "vpn_client_configuration" config'.

Definition ApplicationGatewayPathRule
    (item_name paths pool settings : pyval) : pyval :=
  PObj "ApplicationGatewayPathRule"
    [("name", item_name);
     ("paths", paths);
     ("backend_address_pool", pool);
     ("backend_http_settings", settings)].

Definition create_ag_url_path_map_rule (ag : pyval)
    (url_path_map_name item_name paths address_pool http_settings : pyval)
  : result submitted :=
  maps <- getattr ag "url_path_maps" ;;
  l <- iter maps ;;
  found <- first_where (attr_equals "name" url_path_map_name) l ;;
  match found with
  | None =>
      Raise (CLIError ("URL path map " ++ dquote ++ "{}" ++ dquote ++ " not found.")
                      [url_path_map_name])
  | Some (before, url_map, after) =>
      pool <- (if truthy address_pool then Ok (SubResource address_pool)
               else (d <- getattr url_map "default_backend_address_pool" ;;
                     i <- getattr d "id" ;;
                     Ok (SubResource i))) ;;
      settings <- (if truthy http_settings then Ok (SubResource http_settings)
                   else (d <- getattr url_map "default_backend_http_settings" ;;
                         i <- getattr d "id" ;;
                         Ok (SubResource i))) ;;
      let new_rule := ApplicationGatewayPathRule item_name paths pool settings in
      r <- upsert_attr url_map "path_rules" new_rule "name" item_name ;;
      ag' <- setattr ag "url_path_maps" (PList (before ++ fst r :: after)) ;;
      Ok (ag', snd r)
  end.

(** ** Selective update commands *)

(** [instance.name = arg if arg is not None else instance.name] *)
Definition assign_unless_none (instance : pyval) (name : string) (arg : pyval)
  : result pyval :=
  v <- (if py_eqb arg PNone then getattr instance name else Ok arg) ;;
  setattr instance name v.

Definition update_nsg_rule (instance : pyval)
    (protocol source_address_prefix destination_address_prefix access direction
     description source_port_range destination_port_range priority : pyval)
  : result pyval :=
  instance <- assign_unless_none instance "protocol" protocol ;;
  instance <- assign_unless_none instance "source_address_prefix"
                                 source_address_prefix ;;
  instance <- assign_unless_none instance "destination_address_prefix"
                                 destination_address_prefix ;;
  instance <- assign_unless_none instance "access" access ;;
  instance <- assign_unless_none instance "direction" direction ;;
  instance <- assign_unless_none instance "description" description ;;
  instance <- assign_unless_none instance "source_port_range" source_port_range ;;
  instance <- assign_unless_none instance "destination_port_range"
                                 destination_port_range ;;
  instance <- assign_unless_none instance "priority" priority ;;
  Ok instance.

(** [if arg is not None: instance.name = arg] *)
Definition assign_if_given (instance : pyval) (name : string) (arg : pyval)
  : result pyval :=
  if py_eqb arg PNone then Ok instance else setattr instance name arg.

Definition update_route (instance : pyval)
    (address_prefix next_hop_type next_hop_ip_address : pyval) : result pyval :=
  instance <- assign_if_given instance "address_prefix" address_prefix ;;
  instance <- assign_if_given instance "next_hop_type" next_hop_type ;;
  instance <- assign_if_given instance "next_hop_ip_address" next_hop_ip_address ;;
  Ok instance.

(** ** Express-route peering *)

(** Values of the SDK enumerations [ExpressRouteCircuitPeeringType] and
    [ExpressRouteCircuitSkuTier] the command compares against. *)
Definition microsoft_peering : pyval := PStr "MicrosoftPeering".
Definition sku_standard : pyval := PStr "Standard".

(** [for peering in peerings: if peering.vlan_id == vlan_id: raise ...] *)
Fixpoint check_vlan_free (vlan_id : pyval) (peerings : list pyval) : result unit :=
  match peerings with
  | [] => Ok tt
  | peering :: rest =>
      v <- getattr peering "vlan_id" ;;
      if py_eqb v vlan_id then
        n <- getattr peering "name" ;;
        Raise (CLIError "VLAN ID '{}' already in use by peering '{}'" [vlan_id; n])
      else check_vlan_free vlan_id rest
  end.

Definition ExpressRouteCircuitPeeringConfig
    (advertised_public_prefixes customer_asn routing_registry_name : pyval) : pyval :=
  PObj "ExpressRouteCircuitPeeringConfig"
    [("advertised_public_prefixes", advertised_public_prefixes);
     ("customer_asn", customer_asn);
     ("routing_registry_name", routing_registry_name)].

Definition ExpressRouteCircuitPeering
    (peering_type peer_asn vlan_id primary_prefix secondary_prefix shared_key
     peering_config : pyval) : pyval :=
  PObj "ExpressRouteCircuitPeering"
    [("peering_type", peering_type);
     ("peer_asn", peer_asn);
     ("vlan_id", vlan_id);
     ("primary_peer_address_prefix", primary_prefix);
     ("secondary_peer_address_prefix", secondary_prefix);
     ("shared_key", shared_key);
     ("microsoft_peering_config", peering_config)].

(** The command on the fetched [circuit]; the result is the peering handed
    to [client.create_or_update]. *)
Definition create_express_route_peering (circuit : pyval)
    (peering_type peer_asn vlan_id primary_peer_address_prefix
     secondary_peer_address_prefix shared_key advertised_public_prefixes
     customer_asn routing_registry_name : pyval) : result pyval :=
  blocked <- (if py_eqb peering_type microsoft_peering then
                sku <- getattr circuit "sku" ;;
                tier <- getattr sku "tier" ;;
                Ok (py_eqb tier sku_standard)
              else Ok false) ;;
  if blocked then
    Raise (CLIError "MicrosoftPeering cannot be created on a 'Standard' SKU circuit" [])
  else
    peerings <- getattr circuit "peerings" ;;
    l <- iter peerings ;;
    _ <- check_vlan_free vlan_id l ;;
    let peering_config :=
      if py_eqb peering_type microsoft_peering
      then ExpressRouteCircuitPeeringConfig advertised_public_prefixes customer_asn
                                            routing_registry_name
      else PNone in
    Ok (ExpressRouteCircuitPeering peering_type peer_asn vlan_id
          primary_peer_address_prefix secondary_peer_address_prefix shared_key
          peering_config).

(** ** Strings *)

Fixpoint str_take (n : nat) (s : string) : string :=
  match n, s with
  | S n', String c s' => String c (str_take n' s')
  | _, _ => EmptyString
  end.

Fixpoint str_drop (n : nat) (s : string) : string :=
  match n, s with
  | S n', String _ s' => str_drop n' s'
  | _, _ => s
  end.

(** [''.join(parts)] *)
Fixpoint str_join (parts : list string) : string :=
  match parts with
  | [] => EmptyString
  | p :: rest => p ++ str_join rest
  end.

(** [sep.join(parts)] *)
Fixpoint str_join_sep (sep : string) (parts : list string) : string :=
  match parts with
  | [] => EmptyString
  | [p] => p
  | p :: rest => p ++ sep ++ str_join_sep sep rest
  end.

Definition backslash : ascii := ascii_of_nat 92.

(** [s.replace('\\', '')] *)
Fixpoint strip_backslashes (s : string) : string :=
  match s with
  | EmptyString => EmptyString
  | String c s' =>
      if Ascii.eqb c backslash then strip_backslashes s'
      else String c (strip_backslashes s')
  end.

(** [s.rstrip('.')] *)
Fixpoint rstrip_dot (s : string) : string :=
  match s with
  | EmptyString => EmptyString
  | String c s' =>
      match rstrip_dot s' with
      | EmptyString => if Ascii.eqb c "." then EmptyString else String c EmptyString
      | r => String c r
      end
  end.

Definition lower_char (c : ascii) : ascii :=
  let n := nat_of_ascii c in
  if (65 <=? n)%nat && (n <=? 90)%nat then ascii_of_nat (n + 32) else c.

(** [s.lower()] on ASCII text. *)
Fixpoint lower (s : string) : string :=
  match s with
  | EmptyString => EmptyString
  | String c s' => String (lower_char c) (lower s')
  end.

(** [sub in s] for strings. *)
Fixpoint str_contains (sub s : string) : bool :=
  if String.prefix sub s then true
  else match s with
       | EmptyString => false
       | String _ s' => str_contains sub s'
       end.

(** [s.rsplit('/', 1)[1]]: the text after the last slash. *)
Fixpoint after_last_slash (s : string) : option string :=
  match s with
  | EmptyString => None
  | String c s' =>
      match after_last_slash s' with
      | Some t => Some t
      | None => if Ascii.eqb c "/" then Some s' else None
      end
  end.

Definition rsplit_slash_1 (s : string) : result string :=
  match after_last_slash s with
  | Some t => Ok t
  | None => Raise IndexError
  end.

(** ** Splitting TXT record text *)

(** The loop
    [while len(long_text) > 255: value.append(long_text[:255]); long_text = long_text[255:]]
    followed by the final [value.append(long_text)], for a chunk length of
    [S n] characters; the command uses 255. *)
Equations? split_every (n : nat) (long_text : string) : list string
  by wf (String.length long_text) lt :=
  split_every n long_text with lt_dec (S n) (String.length long_text) => {
    | left _ => str_take (S n) long_text :: split_every n (str_drop (S n) long_text);
    | right _ => [long_text] }.
Proof.
  destruct long_text as [|c s]; simpl in *; [lia |].
  clear. revert s. induction n; intros [|d s]; simpl; try lia.
  specialize (IHn s). lia.
Qed.

Definition split_255 (long_text : string) : list string :=
  split_every 254 long_text.

Definition TxtRecord (value : pyval) : pyval := PObj "TxtRecord" [("value", value)].

(** [add_dns_txt_record] up to the record handed to [_add_save_record]. *)
Definition add_dns_txt_record (value : list string) : result pyval :=
  let long_text := str_join value in
  let long_text := strip_backslashes long_text in
  let original_len := String.length long_text in
  let chunks := split_255 long_text in
  let final_str := str_join chunks in
  let final_len := String.length final_str in
  if Nat.eqb original_len final_len
  then Ok (TxtRecord (PList (map PStr chunks)))
  else Raise AssertionError.

(** ** DNS records and record sets *)

(** [v.lower()], [v.rstrip()], [v.rsplit()]: only strings have these methods. *)
Definition as_str (v : pyval) : result string :=
  match v with
  | PStr s => Ok s
  | _ => Raise AttributeError
  end.

(** A Python [dict] with string keys, in insertion order. *)
Definition dict : Type := list (string * pyval).

(** [d[k]] *)
Definition dict_item (d : dict) (k : string) : result pyval :=
  match lookup k d with
  | Some v => Ok v
  | None => Raise (KeyError k)
  end.

Definition type_dict : list (string * string) :=
  [("a", "arecords");
   ("aaaa", "aaaa_records");
   ("cname", "cname_record");
   ("mx", "mx_records");
   ("ns", "ns_records");
   ("ptr", "ptr_records");
   ("soa", "soa_record");
   ("spf", "txt_records");
   ("srv", "srv_records");
   ("txt", "txt_records")].

Fixpoint assoc (k : string) (d : list (string * string)) : option string :=
  match d with
  | [] => None
  | (k', v) :: d' => if String.eqb k k' then Some v else assoc k d'
  end.

Definition _type_to_property_name (key : pyval) : result string :=
  k <- as_str key ;;
  match assoc (lower k) type_dict with
  | Some p => Ok p
  | None => Raise (KeyError (lower k))
  end.

(** The record models of the DNS SDK, with the attributes the module reads
    and the positional order it constructs them in. *)
Definition AaaaRecord (ipv6_address : pyval) : pyval :=
  PObj "AaaaRecord" [("ipv6_address", ipv6_address)].
Definition ARecord (ipv4_address : pyval) : pyval :=
  PObj "ARecord" [("ipv4_address", ipv4_address)].
Definition CnameRecord (cname : pyval) : pyval :=
  PObj "CnameRecord" [("cname", cname)].
Definition MxRecord (preference exchange : pyval) : pyval :=
  PObj "MxRecord" [("preference", preference); ("exchange", exchange)].
Definition NsRecord (nsdname : pyval) : pyval :=
  PObj "NsRecord" [("nsdname", nsdname)].
Definition PtrRecord (ptrdname : pyval) : pyval :=
  PObj "PtrRecord" [("ptrdname", ptrdname)].
Definition SoaRecord
    (host email serial_number refresh_time retry_time expire_time minimum_ttl : pyval)
  : pyval :=
  PObj "SoaRecord"
    [("host", host); ("email", email); ("serial_number", serial_number);
     ("refresh_time", refresh_time); ("retry_time", retry_time);
     ("expire_time", expire_time); ("minimum_ttl", minimum_ttl)].
Definition SrvRecord (priority weight port target : pyval) : pyval :=
  PObj "SrvRecord"
    [("priority", priority); ("weight", weight); ("port", port); ("target", target)].

(** [RecordSet(name=..., type=..., ttl=...)]: the record properties start
    out as [None]. *)
Definition RecordSet (name type ttl : pyval) : pyval :=
  PObj "RecordSet"
    [("id", PNone); ("name", name); ("type", type); ("etag", PNone); ("ttl", ttl);
     ("arecords", PNone); ("aaaa_records", PNone); ("mx_records", PNone);
     ("ns_records", PNone); ("ptr_records", PNone); ("srv_records", PNone);
     ("txt_records", PNone); ("cname_record", PNone); ("soa_record", PNone)].

(** ** Zone export *)

(** The zone object handed to [make_zone_file]: an ordered dictionary whose
    values are either plain values (['$origin'], ['$ttl'], ...) or, for a
    record-set name, an ordered dictionary from record type to the list of
    field dictionaries. *)
Inductive zone_entry : Type :=
| ZScalar (v : pyval)
| ZRecords (by_type : list (string * list dict)).

Definition zone_obj : Type := list (pyval * zone_entry).

Definition hashable (v : pyval) : bool :=
  match v with
  | PList _ | PObj _ _ => false
  | _ => true
  end.

Fixpoint zone_get (zone : zone_obj) (k : pyval) : option zone_entry :=
  match zone with
  | [] => None
  | (k', e) :: zone' => if py_eqb k k' then Some e else zone_get zone' k
  end.

(** [zone_obj[k] = e] *)
Fixpoint zone_set (zone : zone_obj) (k : pyval) (e : zone_entry) : zone_obj :=
  match zone with
  | [] => [(k, e)]
  | (k', e') :: zone' =>
      if py_eqb k k' then (k, e) :: zone' else (k', e') :: zone_set zone' k e
  end.

Fixpoint types_get (by_type : list (string * list dict)) (t : string)
  : option (list dict) :=
  match by_type with
  | [] => None
  | (t', l) :: rest => if String.eqb t t' then Some l else types_get rest t
  end.

Fixpoint types_set (by_type : list (string * list dict)) (t : string)
    (l : list dict) : list (string * list dict) :=
  match by_type with
  | [] => [(t, l)]
  | (t', l') :: rest =>
      if String.eqb t t' then (t, l) :: rest else (t', l') :: types_set rest t l
  end.

(** [record_type in zone_obj[name]] *)
Definition entry_contains (e : zone_entry) (record_type : string) : result bool :=
  match e with
  | ZRecords by_type =>
      Ok (match types_get by_type record_type with Some _ => true | None => false end)
  | ZScalar (PStr s) => Ok (str_contains record_type s)
  | ZScalar (PList l) => Ok (existsb (py_eqb (PStr record_type)) l)
  | ZScalar _ => Raise TypeError
  end.

(** [zone_obj[name][record_type] = []]: only a dictionary accepts it. *)
Definition entry_init (e : zone_entry) (record_type : string) : result zone_entry :=
  match e with
  | ZRecords by_type => Ok (ZRecords (types_set by_type record_type []))
  | ZScalar _ => Raise TypeError
  end.

(** [zone_obj[name][record_type].append(record_obj)] *)
Definition entry_append (e : zone_entry) (record_type : string) (record_obj : dict)
  : result zone_entry :=
  match e with
  | ZRecords by_type =>
      match types_get by_type record_type with
      | Some l => Ok (ZRecords (types_set by_type record_type (l ++ [record_obj])))
      | None => Raise (KeyError record_type)
      end
  | ZScalar _ => Raise TypeError
  end.

Definition zone_item (zone : zone_obj) (k : pyval) : result zone_entry :=
  match zone_get zone k with
  | Some e => Ok e
  | None => Raise (KeyError "")
  end.

(** [s.rstrip('.') + '.'] *)
Definition dotted (v : pyval) : result pyval :=
  s <- as_str v ;;
  Ok (PStr (rstrip_dot s ++ ".")).

Fixpoint all_strings (l : list pyval) : result (list string) :=
  match l with
  | [] => Ok []
  | PStr s :: rest => r <- all_strings rest ;; Ok (s :: r)
  | _ => Raise TypeError
  end.

(** The items [sep.join(v)] joins: the strings of a list, or the characters
    of a string. *)
Definition join_items (v : pyval) : result (list string) :=
  match v with
  | PList l => all_strings l
  | PStr s => Ok (map (fun c => String c EmptyString) (list_ascii_of_string s))
  | _ => Raise TypeError
  end.

(** The type-specific fields added to [record_obj], and the new ['$ttl']
    of the zone when the record is an SOA record. *)
Definition record_fields (record_type : string) (record : pyval)
  : result (dict * option pyval) :=
  if String.eqb record_type "aaaa" then
    ip <- getattr record "ipv6_address" ;; Ok ([("ip", ip)], None)
  else if String.eqb record_type "a" then
    ip <- getattr record "ipv4_address" ;; Ok ([("ip", ip)], None)
  else if String.eqb record_type "cname" then
    c <- getattr record "cname" ;; Ok ([("alias", c)], None)
  else if String.eqb record_type "mx" then
    p <- getattr record "preference" ;;
    h <- getattr record "exchange" ;;
    Ok ([("preference", p); ("host", h)], None)
  else if String.eqb record_type "ns" then
    h <- getattr record "nsdname" ;; Ok ([("host", h)], None)
  else if String.eqb record_type "ptr" then
    h <- getattr record "ptrdname" ;; Ok ([("host", h)], None)
  else if String.eqb record_type "soa" then
    host <- getattr record "host" ;;
    mname <- dotted host ;;
    email <- getattr record "email" ;;
    rname <- dotted email ;;
    serial <- getattr record "serial_number" ;;
    refresh <- getattr record "refresh_time" ;;
    retry <- getattr record "retry_time" ;;
    expire <- getattr record "expire_time" ;;
    minimum <- getattr record "minimum_ttl" ;;
    Ok ([("mname", mname); ("rname", rname); ("serial", serial);
         ("refresh", refresh); ("retry", retry); ("expire", expire);
         ("minimum", minimum)], Some minimum)
  else if String.eqb record_type "srv" then
    p <- getattr record "priority" ;;
    w <- getattr record "weight" ;;
    po <- getattr record "port" ;;
    t <- getattr record "target" ;;
    Ok ([("priority", p); ("weight", w); ("port", po); ("target", t)], None)
  else if String.eqb record_type "txt" then
    v <- getattr record "value" ;;
    parts <- join_items v ;;
    Ok ([("txt", PStr (str_join_sep " " parts))], None)
  else Ok ([], None).

(** The body of [for record in record_data]. *)
Definition export_record (record_set : pyval) (record_set_name : pyval)
    (record_type : string) (zone : zone_obj) (record : pyval) : result zone_obj :=
  ttl <- getattr record_set "ttl" ;;
  let record_obj := [("ttl", ttl)] in
  e <- zone_item zone record_set_name ;;
  present <- entry_contains e record_type ;;
  zone <- (if present then Ok zone
           else (e' <- entry_init e record_type ;;
                 Ok (zone_set zone record_set_name e'))) ;;
  fields <- record_fields record_type record ;;
  let record_obj := record_obj ++ fst fields in
  let zone := match snd fields with
              | Some minimum => zone_set zone (PStr "$ttl") (ZScalar minimum)
              | None => zone
              end in
  e <- zone_item zone record_set_name ;;
  e' <- entry_append e record_type record_obj ;;
  Ok (zone_set zone record_set_name e').

Fixpoint export_records (record_set : pyval) (record_set_name : pyval)
    (record_type : string) (zone : zone_obj) (records : list pyval)
  : result zone_obj :=
  match records with
  | [] => Ok zone
  | record :: rest =>
      zone <- export_record record_set record_set_name record_type zone record ;;
      export_records record_set record_set_name record_type zone rest
  end.

(** The body of [for record_set in record_sets]. *)
Definition export_record_set (zone : zone_obj) (record_set : pyval)
  : result zone_obj :=
  t <- getattr record_set "type" ;;
  ts <- as_str t ;;
  tail <- rsplit_slash_1 ts ;;
  let record_type := lower tail in
  record_set_name <- getattr record_set "name" ;;
  prop <- _type_to_property_name (PStr record_type) ;;
  let record_data := getattr_default record_set prop PNone in
  if negb (truthy record_data) then Ok zone
  else
    let record_data := match record_data with
                       | PList l => l
                       | single => [single]
                       end in
    if negb (hashable record_set_name) then Raise TypeError
    else
      let zone := match zone_get zone record_set_name with
                  | Some _ => zone
                  | None => zone ++ [(record_set_name, ZRecords [])]
                  end in
      export_records record_set record_set_name record_type zone record_data.

Fixpoint export_record_sets (zone : zone_obj) (record_sets : list pyval)
  : result zone_obj :=
  match record_sets with
  | [] => Ok zone
  | record_set :: rest =>
      zone <- export_record_set zone record_set ;;
      export_record_sets zone rest
  end.

(** [export_zone] up to the zone object handed to [make_zone_file];
    [datetime] is the formatted local time and [record_sets] what the
    service lists for the zone. *)
Definition export_zone (resource_group_name zone_name datetime : string)
    (record_sets : list pyval) : result zone_obj :=
  let zone :=
    [(PStr "$origin", ZScalar (PStr (rstrip_dot zone_name ++ ".")));
     (PStr "resource-group", ZScalar (PStr resource_group_name));
     (PStr "zone-name", ZScalar (PStr (rstrip_dot zone_name)));
     (PStr "datetime", ZScalar (PStr datetime))] in
  export_record_sets zone record_sets.

(** ** Zone import *)

(** What [parse_zone_file] returns: per record-set name, per record type,
    one entry dictionary or a list of them. *)
Inductive parsed_set : Type :=
| PMany (entries : list dict)
| POne (entry : dict).

Definition parsed_zone : Type := list (string * list (string * parsed_set)).

Definition _build_record (data : dict) : result pyval :=
  t <- dict_item data "type" ;;
  ts <- as_str t ;;
  let record_type := lower ts in
  let built :=
    if String.eqb record_type "aaaa" then
      ip <- dict_item data "ip" ;; Ok (AaaaRecord ip)
    else if String.eqb record_type "a" then
      ip <- dict_item data "ip" ;; Ok (ARecord ip)
    else if String.eqb record_type "cname" then
      a <- dict_item data "alias" ;; Ok (CnameRecord a)
    else if String.eqb record_type "mx" then
      p <- dict_item data "preference" ;;
      h <- dict_item data "host" ;;
      Ok (MxRecord p h)
    else if String.eqb record_type "ns" then
      h <- dict_item data "host" ;; Ok (NsRecord h)
    else if String.eqb record_type "ptr" then
      h <- dict_item data "host" ;; Ok (PtrRecord h)
    else if String.eqb record_type "soa" then
      host <- dict_item data "host" ;;
      email <- dict_item data "email" ;;
      serial <- dict_item data "serial" ;;
      refresh <- dict_item data "refresh" ;;
      retry <- dict_item data "retry" ;;
      expire <- dict_item data "expire" ;;
      minimum <- dict_item data "minimum" ;;
      Ok (SoaRecord host email serial refresh retry expire minimum)
    else if String.eqb record_type "srv" then
      p <- dict_item data "priority" ;;
      w <- dict_item data "weight" ;;
      po <- dict_item data "port" ;;
      tg <- dict_item data "target" ;;
      Ok (SrvRecord p w po tg)
    else if String.eqb record_type "txt" || String.eqb record_type "spf" then
      text_data <- dict_item data "txt" ;;
      match text_data with
      | PList _ => Ok (TxtRecord text_data)
      | _ => Ok (TxtRecord (PList [text_data]))
      end
    else Ok PNone in
  match built with
  | Raise (KeyError k) =>
      name <- dict_item data "name" ;;
      Raise (CLIError "The {} record '{}' is missing a property.  {}"
                      [PStr record_type; name; PStr k])
  | other => other
  end.

Definition _add_record (record_set record record_type : pyval) (is_list : bool)
  : result pyval :=
  record_property <- _type_to_property_name record_type ;;
  if is_list then
    record_list <- getattr record_set record_property ;;
    record_set <- (if py_eqb record_list PNone
                   then setattr record_set record_property (PList [])
                   else Ok record_set) ;;
    record_list <- getattr record_set record_property ;;
    match record_list with
    | PList l => setattr record_set record_property (PList (l ++ [record]))
    | _ => Raise AttributeError
    end
  else
    setattr record_set record_property record.

(** The [record_sets] dictionary of [import_zone], keyed by
    ['{}{}'.format(name.lower(), type)]. *)
Definition record_set_dict : Type := list (string * pyval).

Definition is_list_type (record_set_type : string) : bool :=
  negb (String.eqb (lower record_set_type) "soa"
        || String.eqb (lower record_set_type) "cname").

(** The body of [for entry in record_set_obj]. *)
Definition import_entry (record_set_name record_set_type : string)
    (record_sets : record_set_dict) (entry : dict) : result record_set_dict :=
  record_set_ttl <- dict_item entry "ttl" ;;
  let record_set_key := (lower record_set_name ++ record_set_type)%string in
  record <- _build_record entry ;;
  let record_set :=
    match lookup record_set_key record_sets with
    | Some rs => rs
    | None => PNone
    end in
  let record_set :=
    if negb (truthy record_set)
    then RecordSet (PStr (rstrip_dot record_set_name)) (PStr record_set_type)
                   record_set_ttl
    else record_set in
  record_set <- _add_record record_set record (PStr record_set_type)
                            (is_list_type record_set_type) ;;
  Ok (store record_set_key record_set record_sets).

Fixpoint import_entries (record_set_name record_set_type : string)
    (record_sets : record_set_dict) (entries : list dict) : result record_set_dict :=
  match entries with
  | [] => Ok record_sets
  | entry :: rest =>
      record_sets <- import_entry record_set_name record_set_type record_sets entry ;;
      import_entries record_set_name record_set_type record_sets rest
  end.

(** The body of [for record_set_type in zone_obj[record_set_name]], on the
    pair of the current origin and the record sets built so far. *)
Fixpoint import_types (record_set_name : string)
    (state : string * record_set_dict) (types : list (string * parsed_set))
  : result (string * record_set_dict) :=
  match types with
  | [] => Ok state
  | (record_set_type, record_set_obj) :: rest =>
      let origin := if String.eqb record_set_type "soa"
                    then rstrip_dot record_set_name else fst state in
      let entries := match record_set_obj with
                     | PMany l => l
                     | POne e => [e]
                     end in
      record_sets <- import_entries record_set_name record_set_type
                                    (snd state) entries ;;
      import_types record_set_name (origin, record_sets) rest
  end.

Fixpoint import_names (state : string * record_set_dict) (zone : parsed_zone)
  : result (string * record_set_dict) :=
  match zone with
  | [] => Ok state
  | (record_set_name, types) :: rest =>
      state <- import_types record_set_name state types ;;
      import_names state rest
  end.

(** The first loop of [import_zone]: the origin and the record sets built
    from the parsed zone object. *)
Definition build_record_sets (zone_name : string) (zone : parsed_zone)
  : result (string * record_set_dict) :=
  import_names (zone_name, []) zone.

(** The body of the submission loop: the record set handed to
    [client.record_sets.create_or_update] under [rs.name] and [rs.type].
    [root_soa] and [root_ns] are the root record sets the service holds. *)
Definition prepare_record_set (origin : string) (root_soa root_ns rs : pyval)
  : result pyval :=
  t <- getattr rs "type" ;;
  ts <- as_str t ;;
  rs <- setattr rs "type" (PStr (lower ts)) ;;
  n <- getattr rs "name" ;;
  rs <- setattr rs "name" (if py_eqb n (PStr origin) then PStr "@" else n) ;;
  t <- getattr rs "type" ;;
  _ <- _type_to_property_name t ;;
  n <- getattr rs "name" ;;
  if py_eqb n (PStr "@") && py_eqb t (PStr "soa") then
    root_record <- getattr root_soa "soa_record" ;;
    host <- getattr root_record "host" ;;
    soa <- getattr rs "soa_record" ;;
    soa <- setattr soa "host" host ;;
    rs <- setattr rs "soa_record" soa ;;
    setattr rs "name" (PStr "@")
  else if py_eqb n (PStr "@") && py_eqb t (PStr "ns") then
    ttl <- getattr rs "ttl" ;;
    root_ns <- setattr root_ns "ttl" ttl ;;
    t <- getattr root_ns "type" ;;
    ts <- as_str t ;;
    tail <- rsplit_slash_1 ts ;;
    setattr root_ns "type" (PStr tail)
  else Ok rs.

Fixpoint prepare_record_sets (origin : string) (root_soa root_ns : pyval)
    (record_sets : list pyval) : result (list pyval) :=
  match record_sets with
  | [] => Ok []
  | rs :: rest =>
      rs' <- prepare_record_set origin root_soa root_ns rs ;;
      rest' <- prepare_record_sets origin root_soa root_ns rest ;;
      Ok (rs' :: rest')
  end.

(** [import_zone] on the parsed zone object: the record sets submitted to
    the service, in order. *)
Definition import_zone (zone_name : string) (root_soa root_ns : pyval)
    (zone : parsed_zone) : result (list pyval) :=
  state <- build_record_sets zone_name zone ;;
  prepare_record_sets (fst state) root_soa root_ns (map snd (snd state)).

(** ** Removing DNS records *)

Section RemoveRecord.

(** [str()] of lists and model objects, and of the [object()] sentinel,
    as rendered by the interpreter. *)
Variable py_repr : pyval -> string.
Variable sentinel_str : string.

Definition py_str (v : pyval) : string :=
  match v with
  | PNone => "None"
  | PBool true => "True"
  | PBool false => "False"
  | PInt n => NilZero.string_of_int (Z.to_int n)
  | PStr s => s
  | PList _ | PObj _ _ => py_repr v
  end.

(** The elements [Counter(v)] counts. *)
Definition counter_items (v : pyval) : result (list pyval) :=
  match v with
  | PNone => Ok []
  | PStr s => Ok (map (fun c => PStr (String c EmptyString)) (list_ascii_of_string s))
  | PList l => if forallb hashable l then Ok l else Raise TypeError
  | PBool _ | PInt _ | PObj _ _ => Raise TypeError
  end.

Definition count_of (x : pyval) (l : list pyval) : nat :=
  List.length (filter (py_eqb x) l).

(** [Counter(l1) == Counter(l2)] on the counted elements. *)
Definition counter_eqb (l1 l2 : list pyval) : bool :=
  forallb (fun x => Nat.eqb (count_of x l1) (count_of x l2)) (l1 ++ l2).

Definition lists_match (l1 l2 : pyval) : bool :=
  match counter_items l1, counter_items l2 with
  | Ok c1, Ok c2 => counter_eqb c1 c2
  | _, _ => false
  end.

Definition dict_matches_filter (d filter_dict : dict) : bool :=
  forallb
    (fun kv : string * pyval =>
       let key := fst kv in
       let wanted := match lookup key filter_dict with Some v => v | None => PNone end in
       py_eqb wanted PNone
       || String.eqb (py_str wanted)
                     (match lookup key d with Some v => py_str v | None => sentinel_str end)
       || lists_match wanted (match lookup key d with Some v => v | None => PList [] end))
    filter_dict.

(** [r.__dict__] *)
Definition dunder_dict (r : pyval) : result dict :=
  match r with
  | PObj _ d => Ok d
  | _ => Raise AttributeError
  end.

(** [[r for r in record_list if not dict_matches_filter(r.__dict__, record.__dict__)]] *)
Fixpoint keep_unmatched (record : pyval) (record_list : list pyval)
  : result (list pyval) :=
  match record_list with
  | [] => Ok []
  | r :: rest =>
      d <- dunder_dict r ;;
      f <- dunder_dict record ;;
      rest' <- keep_unmatched record rest ;;
      Ok (if dict_matches_filter d f then rest' else r :: rest')
  end.

(** What [_remove_record] asks of the service. *)
Inductive removal : Type :=
| Deleted
| Updated (record_set : pyval).

(** [len(v)] *)
Definition py_len (v : pyval) : result nat :=
  match v with
  | PList l => Ok (List.length l)
  | PStr s => Ok (String.length s)
  | _ => Raise TypeError
  end.

(** [_remove_record] on the record set fetched from the service. *)
Definition _remove_record (record_set record record_type : pyval)
    (keep_empty_record_set is_list : bool) : result removal :=
  record_property <- _type_to_property_name record_type ;;
  record_set <-
    (if is_list then
       record_list <- getattr record_set record_property ;;
       if negb (py_eqb record_list PNone) then
         l <- iter record_list ;;
         keep_list <- keep_unmatched record l ;;
         if Nat.eqb (List.length keep_list) (List.length l) then
           Raise (CLIError "Record {} not found." [record])
         else setattr record_set record_property (PList keep_list)
       else Ok record_set
     else setattr record_set record_property PNone) ;;
  records_remaining <-
    (if is_list then
       v <- getattr record_set record_property ;;
       py_len v
     else
       v <- getattr record_set record_property ;;
       Ok (if negb (py_eqb v PNone) then 1 else 0)%nat) ;;
  if Nat.eqb records_remaining 0 && negb keep_empty_record_set
  then Ok Deleted
  else Ok (Updated record_set).

End RemoveRecord.

(** ** Predicates used in the statements *)

(** The entry's value for [key_name] is [key_value], as [_upsert] tests it. *)
Definition shares_key (key_name : string) (key_value : pyval) (x : pyval) : Prop :=
  getattr_default x key_name PNone = key_value.

(** [x.name == n], with a missing name read as [None]. *)
Definition named (n : pyval) (x : pyval) : bool :=
  py_eqb (getattr_default x "name" PNone) n.

(** At most one entry per name. *)
Definition names_unique (l : list pyval) : Prop :=
  NoDup (map (fun x => getattr_default x "name" PNone) l).

(** The value of attribute [k] after a selective update with the given
    (attribute, argument) pairs: the argument when one is given for [k]
    and is not [None], the previous value otherwise. *)
Definition updated_attr (args : list (string * pyval)) (instance : pyval)
    (k : string) : result pyval :=
  match lookup k args with
  | Some a => if py_eqb a PNone then getattr instance k else Ok a
  | None => getattr instance k
  end.

Definition nsg_rule_args
    (protocol source_address_prefix destination_address_prefix access direction
     description source_port_range destination_port_range priority : pyval)
  : list (string * pyval) :=
  [("protocol", protocol);
   ("source_address_prefix", source_address_prefix);
   ("destination_address_prefix", destination_address_prefix);
   ("access", access);
   ("direction", direction);
   ("description", description);
   ("source_port_range", source_port_range);
   ("destination_port_range", destination_port_range);
   ("priority", priority)].

Definition route_args (address_prefix next_hop_type next_hop_ip_address : pyval)
  : list (string * pyval) :=
  [("address_prefix", address_prefix);
   ("next_hop_type", next_hop_type);
   ("next_hop_ip_address", next_hop_ip_address)].

(** A run of assignments [assign] over (attribute, argument) pairs. *)
Fixpoint assign_all (assign : pyval -> string -> pyval -> result pyval)
    (args : list (string * pyval)) (instance : pyval) : result pyval :=
  match args with
  | [] => Ok instance
  | (name, arg) :: rest =>
      instance <- assign instance name arg ;;
      assign_all assign rest instance
  end.

(** The element has the attributes [vlan_id] and [name] of a peering. *)
Definition is_peering (p : pyval) : Prop :=
  exists v n, getattr p "vlan_id" = Ok v /\ getattr p "name" = Ok n.

Definition has_name (x : pyval) : Prop :=
  exists n, getattr x "name" = Ok n.

(** The result is not a raised client error. *)
Definition no_cli {A} (r : result A) : Prop :=
  match r with
  | Raise (CLIError _ _) => False
  | _ => True
  end.

(** ** The export/import round trip *)

Definition record_properties : list string :=
  ["arecords"; "aaaa_records"; "cname_record"; "mx_records"; "ns_records";
   "ptr_records"; "soa_record"; "srv_records"; "txt_records"].







(** ** Further commands of the module *)

(** The list comprehension [[x for x in l if p(x)]], where the condition may
    raise. *)
Fixpoint keep_where (p : pyval -> result bool) (l : list pyval) : result (list pyval) :=
  match l with
  | [] => Ok []
  | x :: rest =>
      b <- p x ;;
      rest' <- keep_where p rest ;;
      Ok (if b then x :: rest' else rest')
  end.

(** [x.name.lower() == n.lower()] *)
Definition name_lower_equals (n : pyval) (x : pyval) : result bool :=
  a <- getattr x "name" ;;
  s <- as_str a ;;
  t <- as_str n ;;
  Ok (String.eqb (lower s) (lower t)).

(** [x.name.lower() != n.lower()] *)
Definition name_lower_differs (n : pyval) (x : pyval) : result bool :=
  b <- name_lower_equals n x ;;
  Ok (negb b).

(** [x.id != v] *)
Definition id_differs (v : pyval) (x : pyval) : result bool :=
  i <- getattr x "id" ;;
  Ok (negb (py_eqb i v)).

Definition delete_ag_url_path_map_rule (ag url_path_map_name item_name : pyval)
  : result pyval :=
  maps <- getattr ag "url_path_maps" ;;
  l <- iter maps ;;
  found <- first_where (attr_equals "name" url_path_map_name) l ;;
  match found with
  | None =>
      Raise (CLIError ("URL path map " ++ dquote ++ "{}" ++ dquote ++ " not found.")
                      [url_path_map_name])
  | Some (before, url_map, after) =>
      rules <- getattr url_map "path_rules" ;;
      rl <- iter rules ;;
      keep <- keep_where (name_lower_differs item_name) rl ;;
      url_map' <- setattr url_map "path_rules" (PList keep) ;;
      setattr ag "url_path_maps" (PList (before ++ url_map' :: after))
  end.

(** [BackendAddressPool(v)] and [InboundNatRule(v)]: the positional argument
    of these sub-resource models is the resource id. *)
Definition BackendAddressPool (id : pyval) : pyval :=
  PObj "BackendAddressPool" [("id", id)].
Definition InboundNatRule (id : pyval) : pyval :=
  PObj "InboundNatRule" [("id", id)].

Definition is_attribute_error (e : exn) : bool :=
  match e with
  | AttributeError => true
  | _ => false
  end.

(** The shared body of [add_nic_ip_config_address_pool] and
    [add_nic_ip_config_inbound_nat_rule]: upsert [obj] into the list held
    under [attr] by the named IP configuration, or start the list when the
    attribute access fails. *)
Definition add_to_nic_ip_config (attr : string) (obj : pyval)
    (nic ip_config_name key_value : pyval) : result submitted :=
  configs <- getattr nic "ip_configurations" ;;
  l <- iter configs ;;
  found <- first_where (name_lower_equals ip_config_name) l ;;
  let ip_config := match found with
                   | Some (_, c, _) => c
                   | None => PNone
                   end in
  r <- try_except (upsert_attr ip_config attr obj "name" key_value)
                  is_attribute_error
                  (c <- setattr ip_config attr (PList [obj]) ;; Ok (c, [])) ;;
  match found with
  | Some (before, _, after) =>
      nic' <- setattr nic "ip_configurations" (PList (before ++ fst r :: after)) ;;
      Ok (nic', snd r)
  | None => Ok (nic, snd r)
  end.

Definition add_nic_ip_config_address_pool
    (nic ip_config_name backend_address_pool : pyval) : result submitted :=
  add_to_nic_ip_config "load_balancer_backend_address_pools"
    (BackendAddressPool backend_address_pool) nic ip_config_name backend_address_pool.

Definition add_nic_ip_config_inbound_nat_rule
    (nic ip_config_name inbound_nat_rule : pyval) : result submitted :=
  add_to_nic_ip_config "load_balancer_inbound_nat_rules"
    (InboundNatRule inbound_nat_rule) nic ip_config_name inbound_nat_rule.

(** [x or []] *)
Definition or_empty (x : pyval) : pyval :=
  if truthy x then x else PList [].

Definition remove_nic_ip_config_address_pool
    (nic ip_config_name backend_address_pool : pyval) : result pyval :=
  configs <- getattr nic "ip_configurations" ;;
  l <- iter configs ;;
  found <- first_where (name_lower_equals ip_config_name) l ;;
  match found with
  | None => Raise (CLIError "IP configuration {} not found." [ip_config_name])
  | Some (before, ip_config, after) =>
      pools <- getattr ip_config "load_balancer_backend_address_pools" ;;
      items <- iter (or_empty pools) ;;
      keep_items <- keep_where (id_differs backend_address_pool) items ;;
      ip_config' <- setattr ip_config "load_balancer_backend_address_pools"
                            (PList keep_items) ;;
      setattr nic "ip_configurations" (PList (before ++ ip_config' :: after))
  end.

Definition remove_nic_ip_config_inbound_nat_rule
    (nic ip_config_name inbound_nat_rule : pyval) : result pyval :=
  configs <- getattr nic "ip_configurations" ;;
  l <- iter (or_empty configs) ;;
  found <- first_where (name_lower_equals ip_config_name) l ;;
  match found with
  | None => Raise (CLIError "IP configuration {} not found." [ip_config_name])
  | Some (before, ip_config, after) =>
      rules <- getattr ip_config "load_balancer_inbound_nat_rules" ;;
      items <- iter rules ;;
      keep_items <- keep_where (id_differs inbound_nat_rule) items ;;
      ip_config' <- setattr ip_config "load_balancer_inbound_nat_rules"
                            (PList keep_items) ;;
      setattr nic "ip_configurations" (PList (before ++ ip_config' :: after))
  end.

(** ** BGP settings and peering updates *)

(** [BgpSettings(asn, bgp_peering_address, peer_weight)] *)
Definition BgpSettings (asn bgp_peering_address peer_weight : pyval) : pyval :=
  PObj "BgpSettings"
    [("asn", asn); ("bgp_peering_address", bgp_peering_address);
     ("peer_weight", peer_weight)].

(** [if arg is not None: instance.outer.name = arg] *)
Definition assign_nested_if_given (instance : pyval) (outer name : string)
    (arg : pyval) : result pyval :=
  if py_eqb arg PNone then Ok instance
  else
    o <- getattr instance outer ;;
    o' <- setattr o name arg ;;
    setattr instance outer o'.

Definition _validate_bgp_peering (instance asn bgp_peering_address peer_weight : pyval)
  : result pyval :=
  if truthy asn || truthy bgp_peering_address || truthy peer_weight then
    settings <- getattr instance "bgp_settings" ;;
    if negb (py_eqb settings PNone) then
      instance <- assign_nested_if_given instance "bgp_settings" "asn" asn ;;
      instance <- assign_nested_if_given instance "bgp_settings" "peer_weight"
                                         peer_weight ;;
      assign_nested_if_given instance "bgp_settings" "bgp_peering_address"
                             bgp_peering_address
    else if truthy asn then
      setattr instance "bgp_settings" (BgpSettings asn bgp_peering_address peer_weight)
    else
      Raise (CLIError
        "incorrect usage: --asn ASN [--peer-weight WEIGHT --bgp-peering-address IP]" [])
  else Ok instance.

Definition update_express_route_peering
    (instance peer_asn primary_peer_address_prefix secondary_peer_address_prefix
     vlan_id shared_key advertised_public_prefixes customer_asn
     routing_registry_name : pyval) : result pyval :=
  instance <- assign_if_given instance "peer_asn" peer_asn ;;
  instance <- assign_if_given instance "primary_peer_address_prefix"
                              primary_peer_address_prefix ;;
  instance <- assign_if_given instance "secondary_peer_address_prefix"
                              secondary_peer_address_prefix ;;
  instance <- assign_if_given instance "vlan_id" vlan_id ;;
  instance <- assign_if_given instance "shared_key" shared_key ;;
  try_except
    (instance <- assign_nested_if_given instance "microsoft_peering_config"
                   "advertised_public_prefixes" advertised_public_prefixes ;;
     instance <- assign_nested_if_given instance "microsoft_peering_config"
                   "customer_asn" customer_asn ;;
     assign_if_given instance "routing_registry_name" routing_registry_name)
    is_attribute_error
    (Raise (CLIError
       ("--advertised-public-prefixes, --customer-asn and " ++
        "--routing-registry-name are only applicable for 'MicrosoftPeering'") [])).

(** ** Revoked certificates of a gateway *)

(** [VpnClientConfiguration()] *)
Definition VpnClientConfiguration : pyval :=
  PObj "VpnClientConfiguration"
    [("vpn_client_address_pool", PNone);
     ("vpn_client_root_certificates", PNone);
     ("vpn_client_revoked_certificates", PNone)].

Definition VpnClientRevokedCertificate (cert_name thumbprint : pyval) : pyval :=
  PObj "VpnClientRevokedCertificate"
    [("name", cert_name); ("thumbprint", thumbprint)].

(** [_prep_cert_create] on the fetched gateway: the client configuration,
    which the gateway keeps holding, and the gateway. *)
Definition _prep_cert_create (gateway : pyval) : result (pyval * pyval) :=
  c <- getattr gateway "vpn_client_configuration" ;;
  gateway <- (if negb (truthy c)
              then setattr gateway "vpn_client_configuration" VpnClientConfiguration
              else Ok gateway) ;;
  config <- getattr gateway "vpn_client_configuration" ;;
  pool <- getattr config "vpn_client_address_pool" ;;
  unset <- (if negb (truthy pool) then Ok true
            else (prefixes <- getattr pool "address_prefixes" ;;
                  Ok (negb (truthy prefixes)))) ;;
  if unset then
    Raise (CLIError
      ("Address prefixes must be set on VPN gateways before adding" ++
       " certificates.  Please use " ++ dquote ++ "update" ++ dquote ++
       " with --address-prefixes first.") [])
  else
    revoked <- getattr config "vpn_client_revoked_certificates" ;;
    config <- (if py_eqb revoked PNone
               then setattr config "vpn_client_revoked_certificates" (PList [])
               else Ok config) ;;
    root <- getattr config "vpn_client_root_certificates" ;;
    config <- (if py_eqb root PNone
               then setattr config "vpn_client_root_certificates" (PList [])
               else Ok config) ;;
    gateway <- setattr gateway "vpn_client_configuration" config ;;
    Ok (config, gateway).

Definition create_vnet_gateway_revoked_cert (gateway thumbprint cert_name : pyval)
  : result submitted :=
  prepared <- _prep_cert_create gateway ;;
  let cert := VpnClientRevokedCertificate cert_name thumbprint in
  r <- upsert_attr (fst prepared) "vpn_client_revoked_certificates" cert
                   "name" cert_name ;;
  gateway' <- setattr (snd prepared) "vpn_client_configuration" (fst r) ;;
  Ok (gateway', snd r).

(** ** Adding DNS records and updating the SOA record *)

(** [_add_save_record]: [fetched] is the record set the service returns, or
    [None] when the lookup ends in a [CloudError]; the result is the record
    set handed to [create_or_update]. *)
Definition fetched_or_new (fetched : option pyval)
    (record_type record_set_name : pyval) : pyval :=
  match fetched with
  | Some rs => rs
  | None => RecordSet record_set_name record_type (PInt 3600)
  end.

Definition _add_save_record (fetched : option pyval)
    (record record_type record_set_name : pyval) (is_list : bool) : result pyval :=
  let record_set := fetched_or_new fetched record_type record_set_name in
  _add_record record_set record record_type is_list.

(** [record.name = arg or record.name] *)
Definition assign_or_keep (record : pyval) (name : string) (arg : pyval)
  : result pyval :=
  v <- (if truthy arg then Ok arg else getattr record name) ;;
  setattr record name v.

Definition soa_args
    (host email serial_number refresh_time retry_time expire_time minimum_ttl : pyval)
  : list (string * pyval) :=
  [("host", host); ("email", email); ("serial_number", serial_number);
   ("refresh_time", refresh_time); ("retry_time", retry_time);
   ("expire_time", expire_time); ("minimum_ttl", minimum_ttl)].

(** [update_dns_soa_record]: [record_set] is the root SOA record set fetched
    first and [fetched] what [_add_save_record] is given by its own lookup. *)
Definition update_dns_soa_record (record_set : pyval) (fetched : option pyval)
    (host email serial_number refresh_time retry_time expire_time minimum_ttl : pyval)
  : result pyval :=
  record <- getattr record_set "soa_record" ;;
  record <- assign_or_keep record "host" host ;;
  record <- assign_or_keep record "email" email ;;
  record <- assign_or_keep record "serial_number" serial_number ;;
  record <- assign_or_keep record "refresh_time" refresh_time ;;
  record <- assign_or_keep record "retry_time" retry_time ;;
  record <- assign_or_keep record "expire_time" expire_time ;;
  record <- assign_or_keep record "minimum_ttl" minimum_ttl ;;
  _add_save_record fetched record (PStr "soa") (PStr "@") false.

(** The value of attribute [k] after assignments of the form
    [record.k = arg or record.k]. *)
Definition kept_or_given (args : list (string * pyval)) (record : pyval)
    (k : string) : result pyval :=
  match lookup k args with
  | Some a => if truthy a then Ok a else getattr record k
  | None => getattr record k
  end.

(** ** Predicates used in the further statements *)

(** The stored record [r] is taken for the given [record] by
    [dict_matches_filter] on their attribute dictionaries. *)
Definition record_matches (py_repr : pyval -> string) (sentinel_str : string)
    (record r : pyval) : bool :=
  match r, record with
  | PObj _ d, PObj _ f => dict_matches_filter py_repr sentinel_str d f
  | _, _ => false
  end.

Definition has_id (x : pyval) : Prop :=
  exists i, getattr x "id" = Ok i.

Definition has_text_name (x : pyval) : Prop :=
  exists s, getattr x "name" = Ok (PStr s).

(** The record types whose exported fields [_build_record] reads back under
    the same keys. *)
Definition plain_record (record_type : string) (record : pyval) : Prop :=
  (record_type = "a" /\ exists ip, record = ARecord ip) \/
  (record_type = "aaaa" /\ exists ip, record = AaaaRecord ip) \/
  (record_type = "cname" /\ exists c, record = CnameRecord c) \/
  (record_type = "mx" /\ exists p h, record = MxRecord p h) \/
  (record_type = "ns" /\ exists h, record = NsRecord h) \/
  (record_type = "ptr" /\ exists h, record = PtrRecord h) \/
  (record_type = "srv" /\ exists p w po t, record = SrvRecord p w po t).

(** * Properties *)

(** ** Basic facts about values and attribute tables *)

Lemma py_eqb_eq (a b : pyval) : py_eqb a b = true <-> a = b.
Proof.
  unfold py_eqb. destruct (pyval_eq_dec a b); split; congruence.
Qed.

Lemma py_eqb_neq (a b : pyval) : py_eqb a b = false <-> a <> b.
Proof.
  unfold py_eqb. destruct (pyval_eq_dec a b); split; congruence.
Qed.

Lemma py_eqb_refl (a : pyval) : py_eqb a a = true.
Proof. apply py_eqb_eq. reflexivity. Qed.

Lemma lookup_store (k k' : string) (v : pyval) (d : list (string * pyval)) :
  lookup k (store k' v d) = if String.eqb k k' then Some v else lookup k d.
Proof.
  induction d as [|[k0 v0] d IH]; simpl.
  - destruct (String.eqb k k'); reflexivity.
  - destruct (String.eqb k' k0) eqn:E0; simpl.
    + apply String.eqb_eq in E0. subst k0.
      destruct (String.eqb k k'); reflexivity.
    + destruct (String.eqb k k0) eqn:E1.
      * apply String.eqb_eq in E1. subst k0.
        rewrite String.eqb_sym, E0. reflexivity.
      * exact IH.
Qed.

Lemma truthy_obj (v : pyval) : is_obj v -> truthy v = true.
Proof. destruct v; simpl; intros H; try contradiction; reflexivity. Qed.

Lemma getattr_setattr (x x' : pyval) (k k' : string) (v : pyval) :
  setattr x k' v = Ok x' ->
  getattr x' k = if String.eqb k k' then Ok v else getattr x k.
Proof.
  destruct x; simpl; try discriminate.
  intros H. injection H as <-. simpl. rewrite lookup_store.
  destruct (String.eqb k k'); reflexivity.
Qed.

Lemma getattr_default_setattr (x x' : pyval) (k k' : string) (v dflt : pyval) :
  setattr x k' v = Ok x' ->
  getattr_default x' k dflt = if String.eqb k k' then v else getattr_default x k dflt.
Proof.
  destruct x; simpl; try discriminate.
  intros H. injection H as <-. simpl. rewrite lookup_store.
  destruct (String.eqb k k'); reflexivity.
Qed.

Lemma getattr_is_obj (x v : pyval) (k : string) : getattr x k = Ok v -> is_obj x.
Proof. destruct x; simpl; try discriminate. trivial. Qed.

Lemma setattr_obj (x : pyval) (k : string) (v : pyval) :
  is_obj x -> exists x', setattr x k v = Ok x' /\ is_obj x'.
Proof.
  destruct x; simpl; try contradiction. intros _. eexists; split; [reflexivity | exact I].
Qed.

(** ** The upsert helper *)

Section Upsert.

Variable key_name : string.
Variable key_value : pyval.

Let hit (x : pyval) : bool := py_eqb (getattr_default x key_name PNone) key_value.

Lemma hit_shares (x : pyval) : hit x = true <-> shares_key key_name key_value x.
Proof. unfold hit, shares_key. apply py_eqb_eq. Qed.

Lemma hit_not_shares (x : pyval) : hit x = false <-> ~ shares_key key_name key_value x.
Proof. unfold hit, shares_key. apply py_eqb_neq. Qed.

(** Either no entry shares the key or the collection splits at the first
    entry that does. *)
Lemma first_hit_split (l : list pyval) :
  Forall (fun x => hit x = false) l \/
  exists before m after,
    l = before ++ m :: after /\ Forall (fun x => hit x = false) before /\ hit m = true.
Proof.
  induction l as [|x l IH].
  - left. constructor.
  - destruct (hit x) eqn:E.
    + right. exists [], x, l. repeat split; auto.
    + destruct IH as [IH | (before & m & after & -> & Hb & Hm)].
      * left. constructor; assumption.
      * right. exists (x :: before), m, after. repeat split; auto.
Qed.

Lemma next_or_none_miss (l : list pyval) :
  Forall (fun x => hit x = false) l -> next_or_none hit l = PNone.
Proof.
  induction 1 as [|x l Hx _ IH]; simpl; [reflexivity |].
  rewrite Hx. exact IH.
Qed.

Lemma next_or_none_hit (before after : list pyval) (m : pyval) :
  Forall (fun x => hit x = false) before -> hit m = true ->
  next_or_none hit (before ++ m :: after) = m.
Proof.
  intros Hb Hm. induction Hb as [|x l Hx _ IH]; simpl.
  - rewrite Hm. reflexivity.
  - rewrite Hx. exact IH.
Qed.

Lemma list_remove_first_hit (before after : list pyval) (m : pyval) :
  Forall (fun x => hit x = false) before -> hit m = true ->
  list_remove m (before ++ m :: after) = Ok (before ++ after).
Proof.
  intros Hb Hm. induction Hb as [|x l Hx _ IH]; simpl.
  - rewrite py_eqb_refl. reflexivity.
  - destruct (py_eqb x m) eqn:E.
    + apply py_eqb_eq in E. subst x. congruence.
    + rewrite IH. reflexivity.
Qed.

Lemma upsert_miss (l : list pyval) (obj : pyval) :
  Forall (fun x => hit x = false) l ->
  _upsert l obj key_name key_value = Ok (l ++ [obj], []).
Proof.
  intros H. unfold _upsert. fold hit.
  rewrite (next_or_none_miss l H). reflexivity.
Qed.

Lemma upsert_hit (before after : list pyval) (m obj : pyval) :
  is_obj m -> Forall (fun x => hit x = false) before -> hit m = true ->
  _upsert (before ++ m :: after) obj key_name key_value =
  Ok (before ++ after ++ [obj],
      [Warning "Item '%s' already exists. Replacing with new values." key_value]).
Proof.
  intros Ho Hb Hm. unfold _upsert. fold hit.
  rewrite (next_or_none_hit before after m Hb Hm).
  rewrite (truthy_obj m Ho).
  rewrite (list_remove_first_hit before after m Hb Hm).
  simpl. rewrite <- app_assoc. reflexivity.
Qed.

End Upsert.

(** C1, as stated, fails: with two entries sharing the key only the first
    is removed, so an existing entry with that key is still in the
    collection after the call. *)
Lemma upsert_keeps_second_duplicate :
  let a := PObj "Probe" [("name", PStr "p"); ("port", PInt 80)] in
  let b := PObj "Probe" [("name", PStr "p"); ("port", PInt 81)] in
  let obj := PObj "Probe" [("name", PStr "p"); ("port", PInt 82)] in
  _upsert [a; b] obj "name" (PStr "p") =
    Ok ([b; obj],
        [Warning "Item '%s' already exists. Replacing with new values." (PStr "p")])
  /\ In b [a; b]
  /\ b <> obj
  /\ shares_key "name" (PStr "p") b.
Proof.
  cbv zeta. split; [vm_compute; reflexivity |].
  split; [right; left; reflexivity |].
  split; [discriminate | reflexivity].
Qed.

(** C1 (amended): on a collection of objects [_upsert] always returns; it
    either finds no entry sharing the key and appends [obj] to the unchanged
    collection without a warning, or it removes the first entry sharing the
    key, appends [obj] at the end and emits the replacement warning.  When
    that first entry was the only one sharing the key, no earlier entry with
    the key remains. *)
Theorem upsert_replaces_first_or_appends
    (collection : list pyval) (obj : pyval) (key_name : string) (key_value : pyval) :
  Forall is_obj collection ->
  (Forall (fun x => ~ shares_key key_name key_value x) collection /\
   _upsert collection obj key_name key_value = Ok (collection ++ [obj], []))
  \/
  (exists before m after,
      collection = before ++ m :: after /\
      Forall (fun x => ~ shares_key key_name key_value x) before /\
      shares_key key_name key_value m /\
      _upsert collection obj key_name key_value =
        Ok (before ++ after ++ [obj],
            [Warning "Item '%s' already exists. Replacing with new values." key_value]) /\
      (Forall (fun x => ~ shares_key key_name key_value x) after ->
       Forall (fun x => ~ shares_key key_name key_value x) (before ++ after))).
Proof.
  intros Hobj.
  destruct (first_hit_split key_name key_value collection)
    as [Hmiss | (before & m & after & -> & Hb & Hm)].
  - left. split.
    + eapply Forall_impl; [| exact Hmiss].
      intros x Hx. apply hit_not_shares. exact Hx.
    + apply upsert_miss. exact Hmiss.
  - right. exists before, m, after.
    assert (Hb' : Forall (fun x => ~ shares_key key_name key_value x) before).
    { eapply Forall_impl; [| exact Hb]. intros x Hx. apply hit_not_shares. exact Hx. }
    split; [reflexivity |]. split; [exact Hb' |].
    split; [apply hit_shares; exact Hm |].
    split.
    + apply upsert_hit; auto.
      apply Forall_app in Hobj. destruct Hobj as [_ Hobj].
      inversion Hobj; assumption.
    + intros Ha. apply Forall_app. split; assumption.
Qed.

Lemma upsert_replaces_first_or_appends_witness :
  let a := PObj "Probe" [("name", PStr "p"); ("port", PInt 80)] in
  let c := PObj "Probe" [("name", PStr "q"); ("port", PInt 81)] in
  let obj := PObj "Probe" [("name", PStr "p"); ("port", PInt 82)] in
  Forall is_obj [c; a] /\
  ((Forall (fun x => ~ shares_key "name" (PStr "p") x) [c; a] /\
    _upsert [c; a] obj "name" (PStr "p") = Ok ([c; a] ++ [obj], []))
   \/
   (exists before m after,
      [c; a] = before ++ m :: after /\
      Forall (fun x => ~ shares_key "name" (PStr "p") x) before /\
      shares_key "name" (PStr "p") m /\
      _upsert [c; a] obj "name" (PStr "p") =
        Ok (before ++ after ++ [obj],
            [Warning "Item '%s' already exists. Replacing with new values." (PStr "p")]) /\
      (Forall (fun x => ~ shares_key "name" (PStr "p") x) after ->
       Forall (fun x => ~ shares_key "name" (PStr "p") x) (before ++ after)))).
Proof.
  cbv zeta.
  assert (H : Forall is_obj
                [PObj "Probe" [("name", PStr "q"); ("port", PInt 81)];
                 PObj "Probe" [("name", PStr "p"); ("port", PInt 80)]]).
  { repeat constructor. }
  split; [exact H |].
  exact (upsert_replaces_first_or_appends _ _ "name" (PStr "p") H).
Defined.

(** ** Create commands keep one entry per name *)

Lemma named_true (n x : pyval) : named n x = true <-> getattr_default x "name" PNone = n.
Proof. unfold named. apply py_eqb_eq. Qed.

Lemma filter_named_absent (n : pyval) (l : list pyval) :
  ~ In n (map (fun x => getattr_default x "name" PNone) l) ->
  filter (named n) l = [].
Proof.
  induction l as [|x l IH]; simpl; intros H; [reflexivity |].
  destruct (named n x) eqn:E.
  - apply named_true in E. exfalso. apply H. left. exact E.
  - apply IH. intros Hin. apply H. right. exact Hin.
Qed.

(** What [_upsert] keyed by ['name'] guarantees on a collection with at
    most one entry per name. *)
Lemma upsert_unique (l : list pyval) (obj n : pyval) :
  Forall is_obj l -> names_unique l ->
  getattr_default obj "name" PNone = n ->
  exists l' log,
    _upsert l obj "name" n = Ok (l', log) /\
    filter (named n) l' = [obj] /\
    names_unique l' /\
    (is_obj obj -> Forall is_obj l').
Proof.
  intros Hobj Huniq Hn.
  assert (Hself : named n obj = true) by (apply named_true; exact Hn).
  destruct (first_hit_split "name" n l)
    as [Hmiss | (before & m & after & -> & Hb & Hm)].
  - exists (l ++ [obj]), []. split; [apply upsert_miss; exact Hmiss |].
    assert (Hnot : ~ In n (map (fun x => getattr_default x "name" PNone) l)).
    { intros Hin. apply in_map_iff in Hin. destruct Hin as (x & Hx & Hin).
      rewrite Forall_forall in Hmiss. specialize (Hmiss x Hin).
      apply py_eqb_neq in Hmiss. contradiction. }
    split.
    + rewrite filter_app, (filter_named_absent n l Hnot). simpl.
      rewrite Hself. reflexivity.
    + split.
      * unfold names_unique in *. rewrite map_app. simpl. rewrite Hn.
        apply (Permutation_NoDup (l := n :: map (fun x => getattr_default x "name" PNone) l)).
        -- apply Permutation_cons_append.
        -- constructor; assumption.
      * intros Ho. apply Forall_app. split; [assumption | repeat constructor; exact Ho].
  - apply py_eqb_eq in Hm.
    assert (Hm_obj : is_obj m).
    { apply Forall_app in Hobj. destruct Hobj as [_ H]. inversion H; assumption. }
    exists (before ++ after ++ [obj]); eexists.
    split; [apply upsert_hit; auto; apply py_eqb_eq; exact Hm |].
    unfold names_unique in Huniq. rewrite map_app in Huniq. simpl in Huniq.
    rewrite Hm in Huniq.
    pose proof (NoDup_remove_2 _ _ _ Huniq) as Hfresh.
    pose proof (NoDup_remove_1 _ _ _ Huniq) as Hrest.
    split.
    + rewrite !filter_app.
      rewrite (filter_named_absent n before), (filter_named_absent n after).
      * simpl. rewrite Hself. reflexivity.
      * intros Hin. apply Hfresh. apply in_or_app. right. exact Hin.
      * intros Hin. apply Hfresh. apply in_or_app. left. exact Hin.
    + split.
      * unfold names_unique. rewrite app_assoc, map_app. simpl. rewrite Hn.
        rewrite map_app.
        apply (Permutation_NoDup
                 (l := n :: (map (fun x => getattr_default x "name" PNone) before ++
                             map (fun x => getattr_default x "name" PNone) after))).
        -- apply Permutation_cons_append.
        -- constructor; assumption.
      * intros Ho. apply Forall_app in Hobj. destruct Hobj as [H1 H2].
        inversion H2; subst.
        apply Forall_app. split; [assumption |].
        apply Forall_app. split; [assumption | repeat constructor; exact Ho].
Qed.

(** The same guarantee for the list held under [attr] by a parent object. *)
Lemma upsert_attr_unique (parent : pyval) (attr : string) (l : list pyval)
    (obj n : pyval) :
  getattr parent attr = Ok (PList l) ->
  Forall is_obj l -> names_unique l ->
  getattr_default obj "name" PNone = n ->
  exists parent' log l',
    upsert_attr parent attr obj "name" n = Ok (parent', log) /\
    getattr parent' attr = Ok (PList l') /\
    (forall k, k <> attr -> getattr parent' k = getattr parent k) /\
    filter (named n) l' = [obj] /\
    names_unique l'.
Proof.
  intros Hget Hobj Huniq Hn.
  destruct (upsert_unique l obj n Hobj Huniq Hn) as (l' & log & Hup & Hfil & Hu & _).
  destruct (setattr_obj parent attr (PList l') (getattr_is_obj _ _ _ Hget))
    as (parent' & Hset & _).
  exists parent', log, l'.
  split.
  - unfold upsert_attr. rewrite Hget. simpl. rewrite Hup. simpl.
    rewrite Hset. reflexivity.
  - split.
    + rewrite (getattr_setattr _ _ attr attr _ Hset), String.eqb_refl. reflexivity.
    + split; [| split; assumption].
      intros k Hk. rewrite (getattr_setattr _ _ k attr _ Hset).
      apply String.eqb_neq in Hk. rewrite Hk. reflexivity.
Qed.

Lemma clear_primary_names (l : list pyval) :
  Forall is_obj l ->
  exists l',
    clear_primary l = Ok l' /\ Forall is_obj l' /\
    map (fun x => getattr_default x "name" PNone) l' =
    map (fun x => getattr_default x "name" PNone) l.
Proof.
  induction 1 as [|x l Hx _ (l' & IH1 & IH2 & IH3)].
  - exists []. repeat split; constructor.
  - destruct (setattr_obj x "primary" (PBool false) Hx) as (x' & Hset & Hx').
    exists (x' :: l'). simpl. rewrite Hset. simpl. rewrite IH1. simpl.
    split; [reflexivity |]. split; [constructor; assumption |].
    rewrite IH3. f_equal.
    rewrite (getattr_default_setattr _ _ "name" "primary" _ _ Hset). reflexivity.
Qed.

(** C6: each create command that inserts a named object into a collection
    of its parent, called on a collection holding at most one entry per
    name, submits a parent whose collection holds exactly one entry named
    [item_name], the newly constructed object, and still at most one entry
    per name.  Shown for [create_ag_http_listener], [create_lb_rule],
    [create_nic_ip_config] and [create_vnet_gateway_root_cert], which all
    go through [_upsert]. *)
Theorem create_commands_keep_names_unique :
  (forall ag l item_name frontend_ip frontend_port host_name ssl_cert,
      getattr ag "http_listeners" = Ok (PList l) ->
      Forall is_obj l -> names_unique l ->
      exists ag' log l',
        create_ag_http_listener ag item_name frontend_ip frontend_port
                                host_name ssl_cert = Ok (ag', log) /\
        getattr ag' "http_listeners" = Ok (PList l') /\
        filter (named item_name) l' =
          [ApplicationGatewayHttpListener item_name frontend_ip frontend_port
                                          host_name ssl_cert] /\
        names_unique l')
  /\
  (forall lb l item_name protocol frontend_port backend_port frontend_ip_name
          backend_address_pool_name probe_name load_distribution floating_ip
          idle_timeout fips fip pools pool probe,
      getattr lb "frontend_ip_configurations" = Ok fips ->
      _get_property fips frontend_ip_name = Ok fip ->
      getattr lb "backend_address_pools" = Ok pools ->
      _get_property pools backend_address_pool_name = Ok pool ->
      lookup_probe lb probe_name = Ok probe ->
      getattr lb "load_balancing_rules" = Ok (PList l) ->
      Forall is_obj l -> names_unique l ->
      exists lb' log l',
        create_lb_rule lb item_name protocol frontend_port backend_port
                       frontend_ip_name backend_address_pool_name probe_name
                       load_distribution floating_ip idle_timeout = Ok (lb', log) /\
        getattr lb' "load_balancing_rules" = Ok (PList l') /\
        filter (named item_name) l' =
          [LoadBalancingRule item_name protocol frontend_port backend_port fip
                             pool probe load_distribution floating_ip idle_timeout] /\
        names_unique l')
  /\
  (forall nic l ip_config_name subnet0 subnet public_ip_address pool_ids
          nat_rule_ids private_ip_address allocation version make_primary,
      getattr nic "ip_configurations" = Ok (PList l) ->
      Forall is_obj l -> names_unique l ->
      default_subnet nic version subnet0 = Ok subnet ->
      exists nic' log l',
        create_nic_ip_config nic ip_config_name subnet0 public_ip_address
                             pool_ids nat_rule_ids private_ip_address allocation
                             version make_primary = Ok (nic', log) /\
        getattr nic' "ip_configurations" = Ok (PList l') /\
        filter (named ip_config_name) l' =
          [NetworkInterfaceIPConfiguration ip_config_name subnet public_ip_address
             pool_ids nat_rule_ids private_ip_address allocation version
             make_primary] /\
        names_unique l')
  /\
  (forall gateway config certs l gateway_name public_cert_data cert_name,
      getattr gateway "vpn_client_configuration" = Ok config ->
      getattr config "vpn_client_root_certificates" = Ok certs ->
      (certs = PNone /\ l = []) \/ certs = PList l ->
      Forall is_obj l -> names_unique l ->
      exists gateway' log config' l',
        create_vnet_gateway_root_cert gateway gateway_name public_cert_data
                                      cert_name = Ok (gateway', log) /\
        getattr gateway' "vpn_client_configuration" = Ok config' /\
        getattr config' "vpn_client_root_certificates" = Ok (PList l') /\
        filter (named cert_name) l' =
          [VpnClientRootCertificate cert_name public_cert_data] /\
        names_unique l').
Proof.
  split; [| split; [| split]].
  - intros ag l item_name frontend_ip frontend_port host_name ssl_cert Hget Hobj Hu.
    destruct (upsert_attr_unique ag "http_listeners" l
                (ApplicationGatewayHttpListener item_name frontend_ip frontend_port
                                                host_name ssl_cert)
                item_name Hget Hobj Hu eq_refl)
      as (ag' & log & l' & H1 & H2 & _ & H3 & H4).
    exists ag', log, l'. unfold create_ag_http_listener. auto.
  - intros lb l item_name protocol frontend_port backend_port frontend_ip_name
           backend_address_pool_name probe_name load_distribution floating_ip
           idle_timeout fips fip pools pool probe Hf Hfip Hp Hpool Hprobe Hget Hobj Hu.
    destruct (upsert_attr_unique lb "load_balancing_rules" l
                (LoadBalancingRule item_name protocol frontend_port backend_port fip
                   pool probe load_distribution floating_ip idle_timeout)
                item_name Hget Hobj Hu eq_refl)
      as (lb' & log & l' & H1 & H2 & _ & H3 & H4).
    exists lb', log, l'. unfold create_lb_rule.
    rewrite Hf. simpl. rewrite Hfip. simpl. rewrite Hp. simpl. rewrite Hpool. simpl.
    rewrite Hprobe. simpl. auto.
  - intros nic l ip_config_name subnet0 subnet public_ip_address pool_ids
           nat_rule_ids private_ip_address allocation version make_primary
           Hget Hobj Hu Hsub.
    unfold create_nic_ip_config. rewrite Hsub. simpl.
    destruct (truthy make_primary) eqn:Hmp.
    + rewrite Hget. simpl.
      destruct (clear_primary_names l Hobj) as (l1 & Hc & Hobj1 & Hnames).
      rewrite Hc. simpl.
      destruct (setattr_obj nic "ip_configurations" (PList l1)
                  (getattr_is_obj _ _ _ Hget)) as (nic1 & Hset & _).
      rewrite Hset. simpl.
      assert (Hget1 : getattr nic1 "ip_configurations" = Ok (PList l1)).
      { rewrite (getattr_setattr _ _ _ _ _ Hset). reflexivity. }
      assert (Hu1 : names_unique l1) by (unfold names_unique; rewrite Hnames; exact Hu).
      destruct (upsert_attr_unique nic1 "ip_configurations" l1
                  (NetworkInterfaceIPConfiguration ip_config_name subnet
                     public_ip_address pool_ids nat_rule_ids private_ip_address
                     allocation version make_primary)
                  ip_config_name Hget1 Hobj1 Hu1 eq_refl)
        as (nic' & log & l' & H1 & H2 & _ & H3 & H4).
      exists nic', log, l'. auto.
    + simpl.
      destruct (upsert_attr_unique nic "ip_configurations" l
                  (NetworkInterfaceIPConfiguration ip_config_name subnet
                     public_ip_address pool_ids nat_rule_ids private_ip_address
                     allocation version make_primary)
                  ip_config_name Hget Hobj Hu eq_refl)
        as (nic' & log & l' & H1 & H2 & _ & H3 & H4).
      exists nic', log, l'. auto.
  - intros gateway config certs l gateway_name public_cert_data cert_name
           Hcfg Hcerts Hshape Hobj Hu.
    pose proof (getattr_is_obj _ _ _ Hcerts) as Hcobj.
    unfold create_vnet_gateway_root_cert. rewrite Hcfg. simpl.
    rewrite (truthy_obj config Hcobj). simpl. rewrite Hcerts. simpl.
    assert (Hprep : exists config1,
               (if py_eqb certs PNone
                then setattr config "vpn_client_root_certificates" (PList [])
                else Ok config) = Ok config1 /\
               getattr config1 "vpn_client_root_certificates" = Ok (PList l)).
    { destruct Hshape as [[-> ->] | ->].
      - destruct (setattr_obj config "vpn_client_root_certificates" (PList []) Hcobj)
          as (c1 & Hs & _).
        exists c1. rewrite py_eqb_refl. split; [exact Hs |].
        rewrite (getattr_setattr _ _ _ _ _ Hs). reflexivity.
      - exists config. split; [| exact Hcerts].
        destruct (py_eqb (PList l) PNone) eqn:E; [| reflexivity].
        apply py_eqb_eq in E. discriminate. }
    destruct Hprep as (config1 & Hprep & Hget1). rewrite Hprep. simpl.
    destruct (upsert_attr_unique config1 "vpn_client_root_certificates" l
                (VpnClientRootCertificate cert_name public_cert_data)
                cert_name Hget1 Hobj Hu eq_refl)
      as (config' & log & l' & H1 & H2 & _ & H3 & H4).
    rewrite H1. simpl.
    destruct (setattr_obj gateway "vpn_client_configuration" config'
                (getattr_is_obj _ _ _ Hcfg)) as (gateway' & Hs & _).
    rewrite Hs. exists gateway', log, config', l'.
    split; [reflexivity |]. split; [| auto].
    rewrite (getattr_setattr _ _ _ _ _ Hs). reflexivity.
Qed.

Lemma create_commands_keep_names_unique_witness :
  let old := PObj "ApplicationGatewayHttpListener"
               [("name", PStr "listener1"); ("protocol", PStr "http")] in
  let other := PObj "ApplicationGatewayHttpListener"
                 [("name", PStr "listener2"); ("protocol", PStr "https")] in
  let ag := PObj "ApplicationGateway"
              [("name", PStr "ag1"); ("http_listeners", PList [old; other])] in
  exists ag' log l',
    create_ag_http_listener ag (PStr "listener1") (PStr "fip") (PStr "port")
                            PNone PNone = Ok (ag', log) /\
    getattr ag' "http_listeners" = Ok (PList l') /\
    filter (named (PStr "listener1")) l' =
      [ApplicationGatewayHttpListener (PStr "listener1") (PStr "fip") (PStr "port")
                                      PNone PNone] /\
    names_unique l'.
Proof.
  cbv zeta.
  destruct create_commands_keep_names_unique as [H _].
  apply (H _ [PObj "ApplicationGatewayHttpListener"
                [("name", PStr "listener1"); ("protocol", PStr "http")];
              PObj "ApplicationGatewayHttpListener"
                [("name", PStr "listener2"); ("protocol", PStr "https")]]).
  - reflexivity.
  - repeat constructor.
  - unfold names_unique. simpl.
    constructor.
    + simpl. intros [E | []]. discriminate E.
    + constructor; [intros [] | constructor].
Defined.

(** ** Selective updates *)

Lemma update_nsg_rule_unfold
    (instance protocol source_address_prefix destination_address_prefix access
     direction description source_port_range destination_port_range priority : pyval) :
  update_nsg_rule instance protocol source_address_prefix
    destination_address_prefix access direction description source_port_range
    destination_port_range priority =
  assign_all assign_unless_none
    (nsg_rule_args protocol source_address_prefix destination_address_prefix
       access direction description source_port_range destination_port_range
       priority) instance.
Proof. reflexivity. Qed.

Lemma update_route_unfold
    (instance address_prefix next_hop_type next_hop_ip_address : pyval) :
  update_route instance address_prefix next_hop_type next_hop_ip_address =
  assign_all assign_if_given
    (route_args address_prefix next_hop_type next_hop_ip_address) instance.
Proof. reflexivity. Qed.

Lemma lookup_absent (k : string) (args : list (string * pyval)) :
  ~ In k (map fst args) -> lookup k args = None.
Proof.
  induction args as [|[k' v] args IH]; simpl; intros H; [reflexivity |].
  destruct (String.eqb k k') eqn:E.
  - apply String.eqb_eq in E. exfalso. apply H. left. symmetry. exact E.
  - apply IH. intros Hin. apply H. right. exact Hin.
Qed.

Lemma assign_unless_none_attr (instance : pyval) (name : string) (arg v0 : pyval) :
  getattr instance name = Ok v0 ->
  exists instance',
    assign_unless_none instance name arg = Ok instance' /\
    forall k, getattr instance' k =
              if String.eqb k name
              then (if py_eqb arg PNone then Ok v0 else Ok arg)
              else getattr instance k.
Proof.
  intros Hget. unfold assign_unless_none.
  destruct (setattr_obj instance name (if py_eqb arg PNone then v0 else arg)
              (getattr_is_obj _ _ _ Hget)) as (i' & Hset & _).
  exists i'. split.
  - destruct (py_eqb arg PNone); [rewrite Hget |]; simpl; exact Hset.
  - intros k. rewrite (getattr_setattr _ _ k name _ Hset).
    destruct (String.eqb k name); [| reflexivity].
    destruct (py_eqb arg PNone); reflexivity.
Qed.

Lemma assign_if_given_attr (instance : pyval) (name : string) (arg : pyval) :
  is_obj instance ->
  exists instance',
    assign_if_given instance name arg = Ok instance' /\ is_obj instance' /\
    forall k, getattr instance' k =
              if String.eqb k name
              then (if py_eqb arg PNone then getattr instance k else Ok arg)
              else getattr instance k.
Proof.
  intros Hobj. unfold assign_if_given.
  destruct (py_eqb arg PNone).
  - exists instance. split; [reflexivity |]. split; [exact Hobj |].
    intros k. destruct (String.eqb k name); reflexivity.
  - destruct (setattr_obj instance name arg Hobj) as (i' & Hset & Hobj').
    exists i'. split; [exact Hset |]. split; [exact Hobj' |].
    intros k. apply (getattr_setattr _ _ k name _ Hset).
Qed.

Lemma assign_all_unless_none (args : list (string * pyval)) :
  NoDup (map fst args) ->
  forall instance,
    (forall n, In n (map fst args) -> exists v, getattr instance n = Ok v) ->
    exists instance',
      assign_all assign_unless_none args instance = Ok instance' /\
      forall k, getattr instance' k = updated_attr args instance k.
Proof.
  induction args as [|[n a] args IH]; intros Hnd instance Hattrs.
  - exists instance. split; [reflexivity |]. intros k. reflexivity.
  - simpl in Hnd. inversion Hnd as [|? ? Hfresh Hnd']; subst.
    destruct (Hattrs n (or_introl eq_refl)) as (v0 & Hv0).
    destruct (assign_unless_none_attr instance n a v0 Hv0) as (i1 & Hassign & Hi1).
    destruct (IH Hnd' i1) as (i' & Hrun & Hi').
    { intros m Hm. rewrite Hi1.
      destruct (String.eqb m n) eqn:E.
      - apply String.eqb_eq in E. subst m. contradiction.
      - apply Hattrs. right. exact Hm. }
    exists i'. split.
    + simpl. rewrite Hassign. simpl. exact Hrun.
    + intros k. rewrite Hi'. unfold updated_attr. simpl.
      destruct (String.eqb k n) eqn:E.
      * apply String.eqb_eq in E. subst k.
        rewrite (lookup_absent n args Hfresh), Hi1, String.eqb_refl, Hv0.
        destruct (py_eqb a PNone); reflexivity.
      * destruct (lookup k args) as [a' |]; rewrite ?Hi1, ?E; reflexivity.
Qed.

Lemma assign_all_if_given (args : list (string * pyval)) :
  NoDup (map fst args) ->
  forall instance,
    is_obj instance ->
    exists instance',
      assign_all assign_if_given args instance = Ok instance' /\
      forall k, getattr instance' k = updated_attr args instance k.
Proof.
  induction args as [|[n a] args IH]; intros Hnd instance Hobj.
  - exists instance. split; [reflexivity |]. intros k. reflexivity.
  - simpl in Hnd. inversion Hnd as [|? ? Hfresh Hnd']; subst.
    destruct (assign_if_given_attr instance n a Hobj) as (i1 & Hassign & Hobj1 & Hi1).
    destruct (IH Hnd' i1 Hobj1) as (i' & Hrun & Hi').
    exists i'. split.
    + simpl. rewrite Hassign. simpl. exact Hrun.
    + intros k. rewrite Hi'. unfold updated_attr. simpl.
      destruct (String.eqb k n) eqn:E.
      * apply String.eqb_eq in E. subst k.
        rewrite (lookup_absent n args Hfresh), Hi1, String.eqb_refl.
        reflexivity.
      * destruct (lookup k args) as [a' |]; rewrite ?Hi1, ?E; reflexivity.
Qed.

Lemma distinct_names_nodup (l : list string) :
  (if list_eq_dec string_dec (nodup string_dec l) l then true else false) = true ->
  NoDup l.
Proof.
  destruct (list_eq_dec string_dec (nodup string_dec l) l) as [E |]; [| discriminate].
  intros _. rewrite <- E. apply NoDup_nodup.
Qed.

(** C7: [update_nsg_rule] on a security rule and [update_route] on a route
    always return the instance; afterwards every attribute whose argument
    is [None] has its previous value, every attribute whose argument is not
    [None] holds exactly that argument, whatever it is, and every other
    attribute of the instance is unchanged. *)
Theorem selective_updates_frame :
  (forall instance protocol source_address_prefix destination_address_prefix
          access direction description source_port_range destination_port_range
          priority,
      (forall n,
          In n ["protocol"; "source_address_prefix"; "destination_address_prefix";
                "access"; "direction"; "description"; "source_port_range";
                "destination_port_range"; "priority"] ->
          exists v, getattr instance n = Ok v) ->
      exists instance',
        update_nsg_rule instance protocol source_address_prefix
          destination_address_prefix access direction description
          source_port_range destination_port_range priority = Ok instance' /\
        forall k,
          getattr instance' k =
          updated_attr
            (nsg_rule_args protocol source_address_prefix
               destination_address_prefix access direction description
               source_port_range destination_port_range priority)
            instance k)
  /\
  (forall instance address_prefix next_hop_type next_hop_ip_address,
      is_obj instance ->
      exists instance',
        update_route instance address_prefix next_hop_type next_hop_ip_address
          = Ok instance' /\
        forall k,
          getattr instance' k =
          updated_attr (route_args address_prefix next_hop_type next_hop_ip_address)
                       instance k).
Proof.
  split.
  - intros instance protocol source_address_prefix destination_address_prefix
           access direction description source_port_range destination_port_range
           priority Hattrs.
    rewrite update_nsg_rule_unfold.
    apply assign_all_unless_none.
    + apply distinct_names_nodup. vm_compute. reflexivity.
    + exact Hattrs.
  - intros instance address_prefix next_hop_type next_hop_ip_address Hobj.
    rewrite update_route_unfold.
    apply assign_all_if_given.
    + apply distinct_names_nodup. vm_compute. reflexivity.
    + exact Hobj.
Qed.

Lemma selective_updates_frame_witness :
  let rule := PObj "SecurityRule"
                [("name", PStr "allow-ssh"); ("description", PNone);
                 ("protocol", PStr "Tcp"); ("source_port_range", PStr "*");
                 ("destination_port_range", PStr "22");
                 ("source_address_prefix", PStr "*");
                 ("destination_address_prefix", PStr "*");
                 ("access", PStr "Allow"); ("priority", PInt 100);
                 ("direction", PStr "Inbound")] in
  let route := PObj "Route"
                 [("name", PStr "r1"); ("address_prefix", PStr "10.0.0.0/16");
                  ("next_hop_type", PStr "VnetLocal");
                  ("next_hop_ip_address", PNone)] in
  (exists instance',
      update_nsg_rule rule PNone PNone PNone (PStr "Deny") PNone PNone PNone PNone
                      (PStr "not a number") = Ok instance' /\
      forall k,
        getattr instance' k =
        updated_attr (nsg_rule_args PNone PNone PNone (PStr "Deny") PNone PNone PNone
                                    PNone (PStr "not a number")) rule k)
  /\
  (exists instance',
      update_route route PNone (PStr "Internet") PNone = Ok instance' /\
      forall k,
        getattr instance' k =
        updated_attr (route_args PNone (PStr "Internet") PNone) route k).
Proof.
  cbv zeta.
  destruct selective_updates_frame as [Hnsg Hroute].
  split.
  - apply Hnsg. intros n Hn. simpl in Hn.
    repeat (destruct Hn as [<- | Hn]; [eexists; reflexivity |]).
    contradiction.
  - apply Hroute. exact I.
Defined.

(** ** Looking up a named element *)

(** On elements that all carry a name, the generator either runs out, and
    then no element has the name, or stops at the first element that has. *)
Lemma first_where_name (n : pyval) (l : list pyval) :
  Forall has_name l ->
  (first_where (attr_equals "name" n) l = Ok None /\
   Forall (fun x => getattr x "name" <> Ok n) l)
  \/
  (exists before x after,
      l = before ++ x :: after /\
      getattr x "name" = Ok n /\
      Forall (fun y => getattr y "name" <> Ok n) before /\
      first_where (attr_equals "name" n) l = Ok (Some (before, x, after))).
Proof.
  induction 1 as [|x l (v & Hv) _ IH].
  - left. split; [reflexivity | constructor].
  - assert (Hp : attr_equals "name" n x = Ok (py_eqb v n)).
    { unfold attr_equals. rewrite Hv. reflexivity. }
    simpl. rewrite !Hp.
    destruct (py_eqb v n) eqn:E.
    + apply py_eqb_eq in E. subst v.
      right. exists [], x, l.
      split; [reflexivity |]. split; [exact Hv |].
      split; [apply Forall_nil | reflexivity].
    + apply py_eqb_neq in E.
      assert (Hx : getattr x "name" <> Ok n) by (rewrite Hv; congruence).
      destruct IH as [[IH1 IH2] | (before & y & after & -> & Hy & Hb & IH)].
      * left. rewrite IH1. split; [reflexivity | constructor; assumption].
      * right. exists (x :: before), y, after. rewrite IH.
        split; [reflexivity |]. split; [exact Hy |].
        split; [apply Forall_cons; assumption | reflexivity].
Qed.

Lemma list_remove_first_named (n : pyval) (before after : list pyval) (x : pyval) :
  getattr x "name" = Ok n ->
  Forall (fun y => getattr y "name" <> Ok n) before ->
  list_remove x (before ++ x :: after) = Ok (before ++ after).
Proof.
  intros Hx Hb. induction Hb as [|y l Hy _ IH]; simpl.
  - rewrite py_eqb_refl. reflexivity.
  - destruct (py_eqb y x) eqn:E.
    + apply py_eqb_eq in E. subst y. contradiction.
    + rewrite IH. reflexivity.
Qed.

(** X3: With a list of root certificates, [delete_vnet_gateway_root_cert]
    raises the client error exactly when no certificate has the name and
    otherwise submits the gateway without the first certificate that has. *)
Lemma delete_root_cert_from_list
    (gateway config gateway_name cert_name : pyval) (l : list pyval) :
  getattr gateway "vpn_client_configuration" = Ok config ->
  getattr config "vpn_client_root_certificates" = Ok (PList l) ->
  Forall has_name l ->
  (Forall (fun x => getattr x "name" <> Ok cert_name) l /\
   exists fmt, delete_vnet_gateway_root_cert gateway gateway_name cert_name =
               Raise (CLIError fmt [cert_name; gateway_name]))
  \/
  (exists before cert after gateway' config',
      l = before ++ cert :: after /\
      getattr cert "name" = Ok cert_name /\
      Forall (fun y => getattr y "name" <> Ok cert_name) before /\
      delete_vnet_gateway_root_cert gateway gateway_name cert_name = Ok gateway' /\
      getattr gateway' "vpn_client_configuration" = Ok config' /\
      getattr config' "vpn_client_root_certificates" = Ok (PList (before ++ after))).
Proof.
  intros Hcfg Hcerts Hnames.
  unfold delete_vnet_gateway_root_cert. rewrite Hcfg. simpl. rewrite Hcerts. simpl.
  destruct (first_where_name cert_name l Hnames)
    as [[Hnone Hall] | (before & cert & after & -> & Hc & Hb & Hfound)].
  - left. split; [exact Hall |]. rewrite Hnone. simpl. eexists. reflexivity.
  - right. rewrite Hfound. simpl.
    rewrite (list_remove_first_named cert_name before after cert Hc Hb). simpl.
    destruct (setattr_obj config "vpn_client_root_certificates"
                (PList (before ++ after)) (getattr_is_obj _ _ _ Hcerts))
      as (config' & Hs1 & _).
    rewrite Hs1. simpl.
    destruct (setattr_obj gateway "vpn_client_configuration" config'
                (getattr_is_obj _ _ _ Hcfg)) as (gateway' & Hs2 & _).
    exists before, cert, after, gateway', config'.
    repeat split; auto.
    + rewrite (getattr_setattr _ _ _ _ _ Hs2). reflexivity.
    + rewrite (getattr_setattr _ _ _ _ _ Hs1). reflexivity.
Qed.

(** Without a client configuration the attribute error of the lookup is
    turned into the client error. *)
Lemma delete_root_cert_no_config (gateway gateway_name cert_name : pyval) :
  getattr gateway "vpn_client_configuration" = Ok PNone ->
  exists fmt, delete_vnet_gateway_root_cert gateway gateway_name cert_name =
              Raise (CLIError fmt [cert_name; gateway_name]).
Proof.
  intros H. unfold delete_vnet_gateway_root_cert. rewrite H. simpl.
  eexists. reflexivity.
Qed.

(** None of the attribute, iteration and upsert steps raises a client
    error of its own. *)
Lemma no_cli_bind {A B} (m : result A) (k : A -> result B) :
  no_cli m -> (forall a, no_cli (k a)) -> no_cli (bind m k).
Proof.
  destruct m as [a | e]; simpl; intros Hm Hk; [apply Hk | exact Hm].
Qed.

Lemma no_cli_getattr (x : pyval) (k : string) : no_cli (getattr x k).
Proof. destruct x; simpl; trivial. destruct (lookup k d); simpl; trivial. Qed.

Lemma no_cli_setattr (x : pyval) (k : string) (v : pyval) : no_cli (setattr x k v).
Proof. destruct x; simpl; trivial. Qed.

Lemma no_cli_iter (x : pyval) : no_cli (iter x).
Proof. destruct x; simpl; trivial. Qed.

Lemma no_cli_list_remove (x : pyval) (l : list pyval) : no_cli (list_remove x l).
Proof.
  induction l as [|y l IH]; simpl; trivial.
  destruct (py_eqb y x); simpl; trivial.
  destruct (list_remove x l) as [r | e]; simpl in *; trivial.
Qed.

Lemma no_cli_upsert (l : list pyval) (obj : pyval) (k : string) (v : pyval) :
  no_cli (_upsert l obj k v).
Proof.
  unfold _upsert.
  destruct (truthy _); simpl; trivial.
  apply no_cli_bind; [apply no_cli_list_remove | intros; simpl; trivial].
Qed.

Lemma no_cli_upsert_attr (parent : pyval) (attr : string) (obj : pyval)
    (k : string) (v : pyval) : no_cli (upsert_attr parent attr obj k v).
Proof.
  unfold upsert_attr.
  apply no_cli_bind; [apply no_cli_getattr | intros c].
  apply no_cli_bind; [apply no_cli_iter | intros l].
  apply no_cli_bind; [apply no_cli_upsert | intros r].
  apply no_cli_bind; [apply no_cli_setattr | intros p; simpl; trivial].
Qed.

(** X4: [create_ag_url_path_map_rule] raises its client error exactly when the
    gateway's list of URL path maps has no map with the given name. *)
Lemma url_path_map_rule_lookup
    (ag url_path_map_name item_name paths address_pool http_settings : pyval)
    (l : list pyval) :
  getattr ag "url_path_maps" = Ok (PList l) ->
  Forall has_name l ->
  (Forall (fun x => getattr x "name" <> Ok url_path_map_name) l /\
   exists fmt, create_ag_url_path_map_rule ag url_path_map_name item_name paths
                 address_pool http_settings =
               Raise (CLIError fmt [url_path_map_name]))
  \/
  (Exists (fun x => getattr x "name" = Ok url_path_map_name) l /\
   no_cli (create_ag_url_path_map_rule ag url_path_map_name item_name paths
             address_pool http_settings)).
Proof.
  intros Hmaps Hnames.
  unfold create_ag_url_path_map_rule. rewrite Hmaps. simpl.
  destruct (first_where_name url_path_map_name l Hnames)
    as [[Hnone Hall] | (before & m & after & -> & Hm & Hb & Hfound)].
  - left. split; [exact Hall |]. rewrite Hnone. simpl. eexists. reflexivity.
  - right. split.
    + apply Exists_app. right. left. exact Hm.
    + rewrite Hfound. simpl.
      apply no_cli_bind.
      { destruct (truthy address_pool); simpl; trivial.
        apply no_cli_bind; [apply no_cli_getattr | intros d].
        apply no_cli_bind; [apply no_cli_getattr | intros i; simpl; trivial]. }
      intros pool. apply no_cli_bind.
      { destruct (truthy http_settings); simpl; trivial.
        apply no_cli_bind; [apply no_cli_getattr | intros d].
        apply no_cli_bind; [apply no_cli_getattr | intros i; simpl; trivial]. }
      intros settings.
      apply no_cli_bind; [apply no_cli_upsert_attr | intros r].
      apply no_cli_bind; [apply no_cli_setattr | intros a; simpl; trivial].
Qed.

(** C3: the lookup of [delete_vnet_gateway_root_cert] misses the case of a
    client configuration whose list of root certificates is [None], the
    case its sibling [create_vnet_gateway_root_cert] guards against: no
    root certificate named [cert_name] exists, and the command raises a
    [TypeError] instead of the client error. *)
Theorem delete_root_cert_none_list_type_error :
  let config := PObj "VpnClientConfiguration"
                  [("vpn_client_address_pool",
                      PObj "AddressSpace" [("address_prefixes", PList [PStr "10.1.0.0/24"])]);
                   ("vpn_client_root_certificates", PNone);
                   ("vpn_client_revoked_certificates", PNone)] in
  let gateway := PObj "VirtualNetworkGateway"
                   [("name", PStr "gw1"); ("vpn_client_configuration", config)] in
  delete_vnet_gateway_root_cert gateway (PStr "gw1") (PStr "root1") = Raise TypeError.
Proof. reflexivity. Qed.

(** ** The express-route peering guard *)

(** The loop over the existing peerings raises exactly when one of them
    already uses the VLAN id. *)
Lemma check_vlan_free_spec (vlan_id : pyval) (peerings : list pyval) :
  Forall is_peering peerings ->
  (Exists (fun p => getattr p "vlan_id" = Ok vlan_id) peerings /\
   exists n, check_vlan_free vlan_id peerings =
             Raise (CLIError "VLAN ID '{}' already in use by peering '{}'" [vlan_id; n]))
  \/
  (Forall (fun p => getattr p "vlan_id" <> Ok vlan_id) peerings /\
   check_vlan_free vlan_id peerings = Ok tt).
Proof.
  induction 1 as [|p l (v & n & Hv & Hn) _ IH].
  - right. split; [constructor | reflexivity].
  - simpl. rewrite Hv. simpl.
    destruct (py_eqb v vlan_id) eqn:E.
    + apply py_eqb_eq in E. subst v. left. split.
      * left. exact Hv.
      * rewrite Hn. simpl. exists n. reflexivity.
    + apply py_eqb_neq in E.
      destruct IH as [[Hex Hraise] | [Hall Hok]].
      * left. split; [right; exact Hex | exact Hraise].
      * right. split; [| exact Hok].
        constructor; [rewrite Hv; congruence | exact Hall].
Qed.

(** C10: on a fetched circuit, [create_express_route_peering] raises a
    client error, and so submits nothing, when the requested peering type
    is MicrosoftPeering and the circuit's SKU tier is Standard, and when
    the requested VLAN id is the VLAN id of an existing peering; in every
    other case it submits the constructed peering. *)
Theorem create_express_route_peering_guard
    (circuit sku tier : pyval) (peerings : list pyval)
    (peering_type peer_asn vlan_id primary_peer_address_prefix
     secondary_peer_address_prefix shared_key advertised_public_prefixes
     customer_asn routing_registry_name : pyval) :
  getattr circuit "sku" = Ok sku ->
  getattr sku "tier" = Ok tier ->
  getattr circuit "peerings" = Ok (PList peerings) ->
  Forall is_peering peerings ->
  let run := create_express_route_peering circuit peering_type peer_asn vlan_id
               primary_peer_address_prefix secondary_peer_address_prefix
               shared_key advertised_public_prefixes customer_asn
               routing_registry_name in
  let standard_microsoft := peering_type = microsoft_peering /\ tier = sku_standard in
  let vlan_in_use := Exists (fun p => getattr p "vlan_id" = Ok vlan_id) peerings in
  (standard_microsoft \/ vlan_in_use -> exists fmt args, run = Raise (CLIError fmt args))
  /\
  (~ standard_microsoft -> ~ vlan_in_use ->
   run = Ok (ExpressRouteCircuitPeering peering_type peer_asn vlan_id
               primary_peer_address_prefix secondary_peer_address_prefix shared_key
               (if py_eqb peering_type microsoft_peering
                then ExpressRouteCircuitPeeringConfig advertised_public_prefixes
                       customer_asn routing_registry_name
                else PNone))).
Proof.
  intros Hsku Htier Hpeerings Hwf run standard_microsoft vlan_in_use.
  subst run standard_microsoft vlan_in_use.
  unfold create_express_route_peering.
  destruct (py_eqb peering_type microsoft_peering) eqn:Etype.
  - rewrite Hsku. simpl. rewrite Htier. simpl.
    apply py_eqb_eq in Etype.
    destruct (py_eqb tier sku_standard) eqn:Etier.
    + apply py_eqb_eq in Etier. split.
      * intros _. eexists; eexists. reflexivity.
      * intros Hnot. exfalso. apply Hnot. split; assumption.
    + apply py_eqb_neq in Etier. rewrite Hpeerings. simpl.
      destruct (check_vlan_free_spec vlan_id peerings Hwf)
        as [[Hex (n & Hraise)] | [Hall Hok]].
      * rewrite Hraise. simpl. split.
        -- intros _. eexists; eexists. reflexivity.
        -- intros _ Hfree. contradiction.
      * rewrite Hok. simpl. split.
        -- intros [[_ Hstd] | Hex]; [contradiction |].
           exfalso. apply Exists_exists in Hex. destruct Hex as (p & Hin & Hp).
           rewrite Forall_forall in Hall. exact (Hall p Hin Hp).
        -- intros _ _. reflexivity.
  - simpl. apply py_eqb_neq in Etype. rewrite Hpeerings. simpl.
    destruct (check_vlan_free_spec vlan_id peerings Hwf)
      as [[Hex (n & Hraise)] | [Hall Hok]].
    + rewrite Hraise. simpl. split.
      * intros _. eexists; eexists. reflexivity.
      * intros _ Hfree. contradiction.
    + rewrite Hok. simpl. split.
      * intros [[Hms _] | Hex]; [contradiction |].
        exfalso. apply Exists_exists in Hex. destruct Hex as (p & Hin & Hp).
        rewrite Forall_forall in Hall. exact (Hall p Hin Hp).
      * intros _ _. reflexivity.
Qed.

Lemma create_express_route_peering_guard_witness :
  let sku := PObj "ExpressRouteCircuitSku"
               [("name", PStr "Standard_MeteredData"); ("tier", PStr "Standard")] in
  let existing := PObj "ExpressRouteCircuitPeering"
                    [("name", PStr "AzurePrivatePeering"); ("vlan_id", PInt 100)] in
  let circuit := PObj "ExpressRouteCircuit"
                   [("name", PStr "circuit1"); ("sku", sku);
                    ("peerings", PList [existing])] in
  (exists fmt args,
      create_express_route_peering circuit microsoft_peering (PInt 65000) (PInt 200)
        (PStr "10.0.0.0/30") (PStr "10.0.0.4/30") PNone PNone PNone PNone
      = Raise (CLIError fmt args))
  /\
  (exists fmt args,
      create_express_route_peering circuit (PStr "AzurePublicPeering") (PInt 65000)
        (PInt 100) (PStr "10.0.0.0/30") (PStr "10.0.0.4/30") PNone PNone PNone PNone
      = Raise (CLIError fmt args))
  /\
  create_express_route_peering circuit (PStr "AzurePublicPeering") (PInt 65000)
    (PInt 200) (PStr "10.0.0.0/30") (PStr "10.0.0.4/30") PNone PNone PNone PNone
  = Ok (ExpressRouteCircuitPeering (PStr "AzurePublicPeering") (PInt 65000) (PInt 200)
          (PStr "10.0.0.0/30") (PStr "10.0.0.4/30") PNone PNone).
Proof.
  cbv zeta.
  set (sku := PObj "ExpressRouteCircuitSku"
                [("name", PStr "Standard_MeteredData"); ("tier", PStr "Standard")]).
  set (existing := PObj "ExpressRouteCircuitPeering"
                     [("name", PStr "AzurePrivatePeering"); ("vlan_id", PInt 100)]).
  set (circuit := PObj "ExpressRouteCircuit"
                    [("name", PStr "circuit1"); ("sku", sku);
                     ("peerings", PList [existing])]).
  assert (Hwf : Forall is_peering [existing]).
  { constructor; [| constructor].
    exists (PInt 100), (PStr "AzurePrivatePeering"). split; reflexivity. }
  split; [| split].
  - apply (create_express_route_peering_guard circuit sku (PStr "Standard") [existing]
             microsoft_peering (PInt 65000) (PInt 200) (PStr "10.0.0.0/30")
             (PStr "10.0.0.4/30") PNone PNone PNone PNone
             eq_refl eq_refl eq_refl Hwf).
    left. split; reflexivity.
  - apply (create_express_route_peering_guard circuit sku (PStr "Standard") [existing]
             (PStr "AzurePublicPeering") (PInt 65000) (PInt 100) (PStr "10.0.0.0/30")
             (PStr "10.0.0.4/30") PNone PNone PNone PNone
             eq_refl eq_refl eq_refl Hwf).
    right. left. reflexivity.
  - apply (create_express_route_peering_guard circuit sku (PStr "Standard") [existing]
             (PStr "AzurePublicPeering") (PInt 65000) (PInt 200) (PStr "10.0.0.0/30")
             (PStr "10.0.0.4/30") PNone PNone PNone PNone
             eq_refl eq_refl eq_refl Hwf).
    + intros [H _]. discriminate H.
    + intros H. inversion H as [? ? Hv | ? ? Hv]; [discriminate Hv | inversion Hv].
Defined.

(** ** Splitting TXT record text *)




Example split_every_pairs : split_every 1 "abcde" = ["ab"; "cd"; "e"].
Proof. reflexivity. Qed.

Example split_every_exact : split_every 1 "abcd" = ["ab"; "cd"].
Proof. reflexivity. Qed.

Example add_dns_txt_record_short :
  add_dns_txt_record ["v=spf1 "; "include:example.com \\~all"] =
  Ok (TxtRecord (PList [PStr "v=spf1 include:example.com ~all"])).
Proof. reflexivity. Qed.


(** ** Removing DNS records *)

(** Two strings with the same characters in a different order count as
    matching lists. *)
Example lists_match_reordered_text :
  lists_match (PStr "10.0.0.21") (PStr "10.0.0.12") = true.
Proof. reflexivity. Qed.

Example lists_match_reordered_list :
  lists_match (PList [PStr "a"; PStr "b"]) (PList [PStr "b"; PStr "a"]) = true.
Proof. reflexivity. Qed.

Example lists_match_number : lists_match (PInt 10) (PInt 10) = false.
Proof. reflexivity. Qed.

(** C8: [_remove_record] asked to remove the address 10.0.0.21 from a
    record set that only holds 10.0.0.12.  No stored record equals the
    given one field by field, but [lists_match] compares the two address
    strings as multisets of characters, so the stored record is taken for a
    match: no client error is raised and, the list being empty afterwards,
    the record set is deleted. *)
Theorem remove_record_matches_reordered_address
    (py_repr : pyval -> string) (sentinel_str : string) :
  let record_set :=
    PObj "RecordSet"
      [("id", PNone); ("name", PStr "www");
       ("type", PStr "Microsoft.Network/dnszones/A"); ("etag", PNone);
       ("ttl", PInt 3600);
       ("arecords", PList [ARecord (PStr "10.0.0.12")]); ("aaaa_records", PNone);
       ("mx_records", PNone); ("ns_records", PNone); ("ptr_records", PNone);
       ("srv_records", PNone); ("txt_records", PNone); ("cname_record", PNone);
       ("soa_record", PNone)] in
  dict_matches_filter py_repr sentinel_str
    [("ipv4_address", PStr "10.0.0.12")] [("ipv4_address", PStr "10.0.0.21")] = true
  /\
  _remove_record py_repr sentinel_str record_set (ARecord (PStr "10.0.0.21"))
                 (PStr "a") false true = Ok Deleted.
Proof. split; reflexivity. Qed.

(** A record set whose list property is [None] makes the removal fail with
    a [TypeError] rather than the client error. *)
Lemma remove_record_none_list
    (py_repr : pyval -> string) (sentinel_str : string)
    (record_set record : pyval) (keep : bool) :
  getattr record_set "arecords" = Ok PNone ->
  _remove_record py_repr sentinel_str record_set record (PStr "a") keep true
  = Raise TypeError.
Proof.
  intros H. unfold _remove_record. simpl. rewrite H. simpl. rewrite H. reflexivity.
Qed.

(** When the fields are compared as rendered strings only, the removal of a
    record that is not stored raises the client error and one that is
    stored, alone, deletes the record set. *)
Example remove_record_absent_address (py_repr : pyval -> string) (sentinel_str : string) :
  _remove_record py_repr sentinel_str
    (PObj "RecordSet" [("name", PStr "www"); ("ttl", PInt 3600);
                       ("arecords", PList [ARecord (PStr "10.0.0.12")])])
    (ARecord (PStr "10.0.0.99")) (PStr "a") false true
  = Raise (CLIError "Record {} not found." [ARecord (PStr "10.0.0.99")]).
Proof. reflexivity. Qed.

(** ** Building record sets

    Facts about the steps of the import that hold for every input. *)

Lemma is_list_type_scalar (record_set_type : string) :
  is_list_type record_set_type = false <->
  lower record_set_type = "soa" \/ lower record_set_type = "cname".
Proof.
  unfold is_list_type. rewrite negb_false_iff, orb_true_iff, !String.eqb_eq.
  reflexivity.
Qed.

(** A scalar type overwrites the property with the record. *)
Lemma add_record_scalar (record_set record record_type : pyval) (prop : string) :
  _type_to_property_name record_type = Ok prop ->
  is_obj record_set ->
  exists record_set',
    _add_record record_set record record_type false = Ok record_set' /\
    getattr record_set' prop = Ok record /\
    forall k, k <> prop -> getattr record_set' k = getattr record_set k.
Proof.
  intros Hprop Hobj. unfold _add_record. rewrite Hprop. simpl.
  destruct (setattr_obj record_set prop record Hobj) as (rs' & Hset & _).
  exists rs'. split; [exact Hset |]. split.
  - rewrite (getattr_setattr _ _ _ _ _ Hset), String.eqb_refl. reflexivity.
  - intros k Hk. rewrite (getattr_setattr _ _ _ _ _ Hset).
    apply String.eqb_neq in Hk. rewrite Hk. reflexivity.
Qed.

(** A list type appends the record to the list of the property, starting a
    new list when the property is still [None]. *)
Lemma add_record_list (record_set record record_type : pyval) (prop : string)
    (held : pyval) (l : list pyval) :
  _type_to_property_name record_type = Ok prop ->
  getattr record_set prop = Ok held ->
  (held = PNone /\ l = []) \/ held = PList l ->
  exists record_set',
    _add_record record_set record record_type true = Ok record_set' /\
    getattr record_set' prop = Ok (PList (l ++ [record])) /\
    forall k, k <> prop -> getattr record_set' k = getattr record_set k.
Proof.
  intros Hprop Hheld Hshape. unfold _add_record. rewrite Hprop. simpl.
  rewrite Hheld. simpl.
  pose proof (getattr_is_obj _ _ _ Hheld) as Hobj.
  destruct Hshape as [[-> ->] | ->].
  - rewrite py_eqb_refl.
    destruct (setattr_obj record_set prop (PList []) Hobj) as (rs1 & Hs1 & Hobj1).
    rewrite Hs1. simpl.
    rewrite (getattr_setattr _ _ _ _ _ Hs1), String.eqb_refl. simpl.
    destruct (setattr_obj rs1 prop (PList [record]) Hobj1) as (rs2 & Hs2 & _).
    exists rs2. split; [exact Hs2 |]. split.
    + rewrite (getattr_setattr _ _ _ _ _ Hs2), String.eqb_refl. reflexivity.
    + intros k Hk. apply String.eqb_neq in Hk.
      rewrite (getattr_setattr _ _ _ _ _ Hs2), Hk.
      rewrite (getattr_setattr _ _ _ _ _ Hs1), Hk. reflexivity.
  - destruct (py_eqb (PList l) PNone) eqn:E;
      [apply py_eqb_eq in E; discriminate |].
    simpl. rewrite Hheld.
    destruct (setattr_obj record_set prop (PList (l ++ [record])) Hobj)
      as (rs' & Hset & _).
    exists rs'. split; [exact Hset |]. split.
    + rewrite (getattr_setattr _ _ _ _ _ Hset), String.eqb_refl. reflexivity.
    + intros k Hk. apply String.eqb_neq in Hk.
      rewrite (getattr_setattr _ _ _ _ _ Hset), Hk. reflexivity.
Qed.

(** A record set that is neither the root SOA nor the root NS set is
    submitted under its lower-cased type, and under ['@'] when its name is
    the origin. *)
Lemma prepare_record_set_renames_origin
    (origin : string) (root_soa root_ns rs name : pyval) (ts prop : string) :
  getattr rs "type" = Ok (PStr ts) ->
  getattr rs "name" = Ok name ->
  _type_to_property_name (PStr (lower ts)) = Ok prop ->
  lower ts <> "soa" -> lower ts <> "ns" ->
  exists rs',
    prepare_record_set origin root_soa root_ns rs = Ok rs' /\
    getattr rs' "type" = Ok (PStr (lower ts)) /\
    getattr rs' "name" = Ok (if py_eqb name (PStr origin) then PStr "@" else name).
Proof.
  intros Ht Hn Hprop Hsoa Hns.
  pose proof (getattr_is_obj _ _ _ Ht) as Hobj.
  unfold prepare_record_set. rewrite Ht. simpl.
  destruct (setattr_obj rs "type" (PStr (lower ts)) Hobj) as (rs1 & Hs1 & Hobj1).
  rewrite Hs1. simpl.
  rewrite (getattr_setattr _ _ "name" "type" _ Hs1). simpl. rewrite Hn. simpl.
  destruct (setattr_obj rs1 "name"
              (if py_eqb name (PStr origin) then PStr "@" else name) Hobj1)
    as (rs2 & Hs2 & _).
  rewrite Hs2. simpl.
  assert (Ht2 : getattr rs2 "type" = Ok (PStr (lower ts))).
  { rewrite (getattr_setattr _ _ "type" "name" _ Hs2). simpl.
    rewrite (getattr_setattr _ _ "type" "type" _ Hs1). reflexivity. }
  assert (Hn2 : getattr rs2 "name" =
                Ok (if py_eqb name (PStr origin) then PStr "@" else name)).
  { rewrite (getattr_setattr _ _ "name" "name" _ Hs2). reflexivity. }
  rewrite Ht2. simpl. rewrite Hprop. simpl. rewrite Hn2. simpl.
  assert (E1 : py_eqb (PStr (lower ts)) (PStr "soa") = false).
  { apply py_eqb_neq. congruence. }
  assert (E2 : py_eqb (PStr (lower ts)) (PStr "ns") = false).
  { apply py_eqb_neq. congruence. }
  rewrite E1, E2, !andb_false_r.
  exists rs2. auto.
Qed.

(** ** Exporting records

    Facts about the steps of the export on a zone object in which the
    record-set name holds a dictionary of record types. *)

Lemma zone_get_set (zone : zone_obj) (k : pyval) (e : zone_entry) :
  zone_get (zone_set zone k e) k = Some e.
Proof.
  induction zone as [|[k' e'] zone IH]; simpl.
  - rewrite py_eqb_refl. reflexivity.
  - destruct (py_eqb k k') eqn:E; simpl.
    + rewrite py_eqb_refl. reflexivity.
    + rewrite E. exact IH.
Qed.

Lemma zone_set_set (zone : zone_obj) (k : pyval) (e1 e2 : zone_entry) :
  zone_set (zone_set zone k e1) k e2 = zone_set zone k e2.
Proof.
  induction zone as [|[k' e'] zone IH]; simpl.
  - rewrite py_eqb_refl. reflexivity.
  - destruct (py_eqb k k') eqn:E; simpl.
    + rewrite py_eqb_refl. reflexivity.
    + rewrite E, IH. reflexivity.
Qed.

Lemma types_get_set (by_type : list (string * list dict)) (t : string) (l : list dict) :
  types_get (types_set by_type t l) t = Some l.
Proof.
  induction by_type as [|[t' l'] by_type IH]; simpl.
  - rewrite String.eqb_refl. reflexivity.
  - destruct (String.eqb t t') eqn:E; simpl.
    + rewrite String.eqb_refl. reflexivity.
    + rewrite E. exact IH.
Qed.

Lemma types_set_set (by_type : list (string * list dict)) (t : string)
    (l1 l2 : list dict) :
  types_set (types_set by_type t l1) t l2 = types_set by_type t l2.
Proof.
  induction by_type as [|[t' l'] by_type IH]; simpl.
  - rewrite String.eqb_refl. reflexivity.
  - destruct (String.eqb t t') eqn:E; simpl.
    + rewrite String.eqb_refl. reflexivity.
    + rewrite E, IH. reflexivity.
Qed.

(** One record adds one field dictionary, the record set's TTL followed by
    the fields of its type, at the end of the list of its type. *)
Lemma export_record_appends
    (record_set record_set_name record ttl : pyval) (record_type : string)
    (zone : zone_obj) (by_type : list (string * list dict)) (fields : dict) :
  zone_get zone record_set_name = Some (ZRecords by_type) ->
  getattr record_set "ttl" = Ok ttl ->
  record_fields record_type record = Ok (fields, None) ->
  export_record record_set record_set_name record_type zone record =
  Ok (zone_set zone record_set_name
        (ZRecords
           (types_set by_type record_type
              ((match types_get by_type record_type with
                | Some l => l
                | None => []
                end) ++ [("ttl", ttl) :: fields])))).
Proof.
  intros Hzone Httl Hfields.
  unfold export_record. rewrite Httl. simpl.
  unfold zone_item. rewrite Hzone. simpl.
  destruct (types_get by_type record_type) as [l |] eqn:Hget; simpl.
  - rewrite Hfields. simpl. rewrite Hzone. simpl. rewrite Hget. simpl.
    reflexivity.
  - rewrite Hfields. simpl. rewrite zone_get_set. simpl.
    rewrite types_get_set. simpl. rewrite zone_set_set, types_set_set.
    reflexivity.
Qed.

(** The fields per record type. *)
Example record_fields_mx (p h : pyval) :
  record_fields "mx" (MxRecord p h) = Ok ([("preference", p); ("host", h)], None).
Proof. reflexivity. Qed.

Example record_fields_srv (p w po t : pyval) :
  record_fields "srv" (SrvRecord p w po t) =
  Ok ([("priority", p); ("weight", w); ("port", po); ("target", t)], None).
Proof. reflexivity. Qed.

Example record_fields_txt :
  record_fields "txt" (TxtRecord (PList [PStr "v=spf1"; PStr "-all"])) =
  Ok ([("txt", PStr "v=spf1 -all")], None).
Proof. reflexivity. Qed.

Example record_fields_cname (c : pyval) :
  record_fields "cname" (CnameRecord c) = Ok ([("alias", c)], None).
Proof. reflexivity. Qed.

(** ** Zone import *)

(** Entries of one name and type are gathered in one record set whose TTL
    is that of the first entry; list types accumulate. *)
Example import_groups_entries :
  build_record_sets "example.com"
    [("www", [("a", PMany [[("type", PStr "a"); ("name", PStr "www");
                             ("ttl", PInt 300); ("ip", PStr "1.2.3.4")];
                            [("type", PStr "a"); ("name", PStr "www");
                             ("ttl", PInt 600); ("ip", PStr "1.2.3.5")]])])]
  = Ok ("example.com",
        [("wwwa",
          PObj "RecordSet"
            [("id", PNone); ("name", PStr "www"); ("type", PStr "a"); ("etag", PNone);
             ("ttl", PInt 300);
             ("arecords", PList [ARecord (PStr "1.2.3.4"); ARecord (PStr "1.2.3.5")]);
             ("aaaa_records", PNone); ("mx_records", PNone); ("ns_records", PNone);
             ("ptr_records", PNone); ("srv_records", PNone); ("txt_records", PNone);
             ("cname_record", PNone); ("soa_record", PNone)])]).
Proof. reflexivity. Qed.

(** A CNAME record is stored as a scalar property, and the record set named
    like the origin is submitted as ['@']. *)
Example import_scalar_and_origin :
  import_zone "example.com" PNone PNone
    [("example.com.", [("cname", POne [("type", PStr "cname"); ("name", PStr "example.com.");
                                       ("ttl", PInt 300); ("alias", PStr "other.org.")])])]
  = Ok [PObj "RecordSet"
          [("id", PNone); ("name", PStr "@"); ("type", PStr "cname"); ("etag", PNone);
           ("ttl", PInt 300); ("arecords", PNone); ("aaaa_records", PNone);
           ("mx_records", PNone); ("ns_records", PNone); ("ptr_records", PNone);
           ("srv_records", PNone); ("txt_records", PNone);
           ("cname_record", CnameRecord (PStr "other.org.")); ("soa_record", PNone)]].
Proof. reflexivity. Qed.


(** ** Zone export *)

Example export_single_a_record (datetime : string) :
  export_zone "rg" "example.com." datetime
    [PObj "RecordSet"
       [("name", PStr "www"); ("type", PStr "Microsoft.Network/dnszones/A");
        ("ttl", PInt 3600); ("arecords", PList [ARecord (PStr "1.2.3.4")])]]
  = Ok [(PStr "$origin", ZScalar (PStr "example.com."));
        (PStr "resource-group", ZScalar (PStr "rg"));
        (PStr "zone-name", ZScalar (PStr "example.com"));
        (PStr "datetime", ZScalar (PStr datetime));
        (PStr "www", ZRecords [("a", [[("ttl", PInt 3600); ("ip", PStr "1.2.3.4")]])])].
Proof. reflexivity. Qed.

Example export_soa_sets_ttl (datetime : string) :
  export_zone "rg" "example.com" datetime
    [PObj "RecordSet"
       [("name", PStr "@"); ("type", PStr "Microsoft.Network/dnszones/SOA");
        ("ttl", PInt 3600);
        ("soa_record", SoaRecord (PStr "ns1.example.com") (PStr "admin.example.com.")
                                 (PInt 1) (PInt 3600) (PInt 300) (PInt 2419200)
                                 (PInt 300))];
     PObj "RecordSet"
       [("name", PStr "empty"); ("type", PStr "Microsoft.Network/dnszones/A");
        ("ttl", PInt 3600); ("arecords", PList [])]]
  = Ok [(PStr "$origin", ZScalar (PStr "example.com."));
        (PStr "resource-group", ZScalar (PStr "rg"));
        (PStr "zone-name", ZScalar (PStr "example.com"));
        (PStr "datetime", ZScalar (PStr datetime));
        (PStr "@", ZRecords
           [("soa", [[("ttl", PInt 3600);
                      ("mname", PStr "ns1.example.com.");
                      ("rname", PStr "admin.example.com.");
                      ("serial", PInt 1); ("refresh", PInt 3600); ("retry", PInt 300);
                      ("expire", PInt 2419200); ("minimum", PInt 300)]])]);
        (PStr "$ttl", ZScalar (PInt 300))].
Proof. reflexivity. Qed.

(** C5: a record set named [datetime], a valid record-set name, holding one
    A record.  The name is also the key under which the zone object keeps
    the export time, a string, so the record cannot be added under it: the
    export raises a [TypeError], whatever the time text is. *)
Theorem export_zone_record_set_named_datetime (datetime : string) :
  export_zone "rg" "example.com" datetime
    [PObj "RecordSet"
       [("name", PStr "datetime"); ("type", PStr "Microsoft.Network/dnszones/A");
        ("ttl", PInt 3600); ("arecords", PList [ARecord (PStr "1.2.3.4")])]]
  = Raise TypeError.
Proof.
  cbv - [str_contains].
  destruct (str_contains "a" datetime); reflexivity.
Qed.

(** ** The export/import round trip *)






(** * Further properties *)

(** ** Upserting twice, creating and deleting *)

(** X1: Upserting the object just upserted changes nothing: on a collection with
    at most one entry per name, a second [_upsert] of the same object under
    the same name returns the collection of the first, with the
    replacement warning. *)
Theorem upsert_twice_same_collection (l l1 : list pyval) (obj n : pyval)
    (log1 : list log_event) :
  Forall is_obj l -> names_unique l -> is_obj obj ->
  getattr_default obj "name" PNone = n ->
  _upsert l obj "name" n = Ok (l1, log1) ->
  _upsert l1 obj "name" n =
  Ok (l1, [Warning "Item '%s' already exists. Replacing with new values." n]).
Proof.
  intros Hobj Huniq Ho Hn Hfirst.
  assert (Hshape : exists rest,
             l1 = rest ++ [obj] /\
             Forall (fun x => py_eqb (getattr_default x "name" PNone) n = false) rest).
  { destruct (first_hit_split "name" n l)
      as [Hmiss | (before & m & after & -> & Hb & Hm)].
    - rewrite (upsert_miss "name" n l obj Hmiss) in Hfirst.
      injection Hfirst as <- _. exists l. split; [reflexivity | exact Hmiss].
    - assert (Hm_obj : is_obj m).
      { apply Forall_app in Hobj. destruct Hobj as [_ H]. inversion H; assumption. }
      rewrite (upsert_hit "name" n before after m obj Hm_obj Hb Hm) in Hfirst.
      injection Hfirst as <- _. exists (before ++ after).
      split; [rewrite app_assoc; reflexivity |].
      apply py_eqb_eq in Hm.
      unfold names_unique in Huniq. rewrite map_app in Huniq. simpl in Huniq.
      rewrite Hm in Huniq. apply NoDup_remove_2 in Huniq.
      apply Forall_forall. intros x Hx. apply py_eqb_neq. intros Hxn.
      apply Huniq. rewrite <- map_app. apply in_map_iff. exists x.
      split; [exact Hxn | exact Hx]. }
  destruct Hshape as (rest & -> & Hrest).
  rewrite (upsert_hit "name" n rest [] obj obj Ho Hrest).
  - reflexivity.
  - apply py_eqb_eq. exact Hn.
Qed.

Lemma upsert_twice_same_collection_witness :
  let a := PObj "Probe" [("name", PStr "p"); ("port", PInt 80)] in
  let c := PObj "Probe" [("name", PStr "q"); ("port", PInt 81)] in
  let obj := PObj "Probe" [("name", PStr "p"); ("port", PInt 82)] in
  _upsert [c; obj] obj "name" (PStr "p") =
  Ok ([c; obj],
      [Warning "Item '%s' already exists. Replacing with new values." (PStr "p")]).
Proof.
  cbv zeta.
  apply (upsert_twice_same_collection
           [PObj "Probe" [("name", PStr "p"); ("port", PInt 80)];
            PObj "Probe" [("name", PStr "q"); ("port", PInt 81)]]
           _ _ (PStr "p")
           [Warning "Item '%s' already exists. Replacing with new values." (PStr "p")]).
  - repeat constructor.
  - unfold names_unique. simpl. constructor.
    + simpl. intros [E | []]. discriminate E.
    + constructor; [intros [] | constructor].
  - exact I.
  - reflexivity.
  - reflexivity.
Defined.

Lemma split_at_tail (l before after : list pyval) (x c : pyval) :
  l ++ [x] = before ++ c :: after ->
  (after = [] /\ before = l /\ c = x) \/ In c l.
Proof.
  revert l. induction before as [|b before IH]; intros [|y l] H; simpl in H.
  - injection H as <- <-. left. auto.
  - injection H as <- _. right. left. reflexivity.
  - injection H as _ H. destruct before; discriminate H.
  - injection H as <- H. destruct (IH l H) as [(-> & -> & ->) | Hin].
    + left. auto.
    + right. right. exact Hin.
Qed.

(** X2: Creating a root certificate under a name no certificate has and then
    deleting the certificate of that name gives the list of certificates
    back. *)
Theorem create_then_delete_root_cert
    (gateway config gateway_name public_cert_data cert_name : pyval)
    (l : list pyval) :
  getattr gateway "vpn_client_configuration" = Ok config ->
  getattr config "vpn_client_root_certificates" = Ok (PList l) ->
  Forall has_name l ->
  Forall (fun x => getattr x "name" <> Ok cert_name) l ->
  exists created log deleted config',
    create_vnet_gateway_root_cert gateway gateway_name public_cert_data cert_name
      = Ok (created, log) /\
    delete_vnet_gateway_root_cert created gateway_name cert_name = Ok deleted /\
    getattr deleted "vpn_client_configuration" = Ok config' /\
    getattr config' "vpn_client_root_certificates" = Ok (PList l).
Proof.
  intros Hcfg Hcerts Hnames Hfresh.
  pose proof (getattr_is_obj _ _ _ Hcerts) as Hcobj.
  pose proof (getattr_is_obj _ _ _ Hcfg) as Hgobj.
  set (cert := VpnClientRootCertificate cert_name public_cert_data).
  assert (Hmiss : Forall (fun x => py_eqb (getattr_default x "name" PNone) cert_name
                                   = false) l).
  { apply Forall_forall. intros x Hx.
    rewrite Forall_forall in Hnames, Hfresh.
    destruct (Hnames x Hx) as (v & Hv). specialize (Hfresh x Hx).
    apply py_eqb_neq. intros E. apply Hfresh. rewrite Hv. f_equal.
    destruct x; simpl in *; try discriminate.
    destruct (lookup "name" d); [| discriminate]. congruence. }
  destruct (setattr_obj config "vpn_client_root_certificates" (PList (l ++ [cert])) Hcobj)
    as (config1 & Hs1 & Hc1obj).
  destruct (setattr_obj gateway "vpn_client_configuration" config1 Hgobj)
    as (created & Hs2 & Hcrobj).
  assert (Hcreate : create_vnet_gateway_root_cert gateway gateway_name public_cert_data
                      cert_name = Ok (created, [])).
  { unfold create_vnet_gateway_root_cert. rewrite Hcfg. simpl.
    rewrite (truthy_obj config Hcobj). simpl. rewrite Hcerts. simpl.
    destruct (py_eqb (PList l) PNone) eqn:E; [apply py_eqb_eq in E; discriminate |].
    simpl. unfold upsert_attr. rewrite Hcerts. simpl.
    rewrite (upsert_miss "name" cert_name l _ Hmiss). simpl.
    fold cert. rewrite Hs1. simpl. rewrite Hs2. reflexivity. }
  assert (Hcfg1 : getattr created "vpn_client_configuration" = Ok config1).
  { rewrite (getattr_setattr _ _ _ _ _ Hs2). reflexivity. }
  assert (Hcerts1 : getattr config1 "vpn_client_root_certificates"
                    = Ok (PList (l ++ [cert]))).
  { rewrite (getattr_setattr _ _ _ _ _ Hs1). reflexivity. }
  assert (Hnames1 : Forall has_name (l ++ [cert])).
  { apply Forall_app. split; [exact Hnames |].
    constructor; [exists cert_name; reflexivity | constructor]. }
  destruct (delete_root_cert_from_list created config1 gateway_name cert_name
              (l ++ [cert]) Hcfg1 Hcerts1 Hnames1)
    as [[Hall _] | (before & c & after & gw' & cfg' & Hsplit & Hc & Hb & Hdel & Hg & Hl)].
  - exfalso. apply Forall_app in Hall. destruct Hall as [_ Hall].
    inversion Hall as [|? ? Hbad _]; subst. apply Hbad. reflexivity.
  - exists created, [], gw', cfg'.
    split; [exact Hcreate |]. split; [exact Hdel |]. split; [exact Hg |].
    rewrite Hl. f_equal. f_equal.
    destruct (split_at_tail l before after cert c Hsplit) as [(-> & -> & _) | Hin].
    + apply app_nil_r.
    + exfalso. rewrite Forall_forall in Hfresh. exact (Hfresh c Hin Hc).
Qed.

Lemma create_then_delete_root_cert_witness :
  let old := VpnClientRootCertificate (PStr "root0") (PStr "MIIC") in
  let config := PObj "VpnClientConfiguration"
                  [("vpn_client_address_pool", PNone);
                   ("vpn_client_root_certificates", PList [old]);
                   ("vpn_client_revoked_certificates", PNone)] in
  let gateway := PObj "VirtualNetworkGateway"
                   [("name", PStr "gw1"); ("vpn_client_configuration", config)] in
  exists created log deleted config',
    create_vnet_gateway_root_cert gateway (PStr "gw1") (PStr "MIID") (PStr "root1")
      = Ok (created, log) /\
    delete_vnet_gateway_root_cert created (PStr "gw1") (PStr "root1") = Ok deleted /\
    getattr deleted "vpn_client_configuration" = Ok config' /\
    getattr config' "vpn_client_root_certificates" = Ok (PList [old]).
Proof.
  cbv zeta.
  eapply (create_then_delete_root_cert _ _ (PStr "gw1") (PStr "MIID") (PStr "root1")
            [VpnClientRootCertificate (PStr "root0") (PStr "MIIC")]).
  - reflexivity.
  - reflexivity.
  - constructor; [exists (PStr "root0"); reflexivity | constructor].
  - constructor; [discriminate | constructor].
Defined.

Lemma delete_root_cert_from_list_witness :
  let old := VpnClientRootCertificate (PStr "root0") (PStr "MIIC") in
  let config := PObj "VpnClientConfiguration"
                  [("vpn_client_address_pool", PNone);
                   ("vpn_client_root_certificates", PList [old]);
                   ("vpn_client_revoked_certificates", PNone)] in
  let gateway := PObj "VirtualNetworkGateway"
                   [("name", PStr "gw1"); ("vpn_client_configuration", config)] in
  (Forall (fun x => getattr x "name" <> Ok (PStr "root9")) [old] /\
   exists fmt, delete_vnet_gateway_root_cert gateway (PStr "gw1") (PStr "root9") =
               Raise (CLIError fmt [PStr "root9"; PStr "gw1"]))
  \/
  (exists before cert after gateway' config',
      [old] = before ++ cert :: after /\
      getattr cert "name" = Ok (PStr "root9") /\
      Forall (fun y => getattr y "name" <> Ok (PStr "root9")) before /\
      delete_vnet_gateway_root_cert gateway (PStr "gw1") (PStr "root9") = Ok gateway' /\
      getattr gateway' "vpn_client_configuration" = Ok config' /\
      getattr config' "vpn_client_root_certificates" = Ok (PList (before ++ after))).
Proof.
  cbv zeta.
  eapply (delete_root_cert_from_list _ _ (PStr "gw1") (PStr "root9")
            [VpnClientRootCertificate (PStr "root0") (PStr "MIIC")]).
  - reflexivity.
  - reflexivity.
  - constructor; [exists (PStr "root0"); reflexivity | constructor].
Defined.

Lemma url_path_map_rule_lookup_witness :
  let map1 := PObj "ApplicationGatewayUrlPathMap"
                [("name", PStr "map1"); ("path_rules", PList [])] in
  let ag := PObj "ApplicationGateway"
              [("name", PStr "ag1"); ("url_path_maps", PList [map1])] in
  (Forall (fun x => getattr x "name" <> Ok (PStr "map2")) [map1] /\
   exists fmt, create_ag_url_path_map_rule ag (PStr "map2") (PStr "rule1")
                 (PList [PStr "/images/*"]) (PStr "pool1") (PStr "settings1") =
               Raise (CLIError fmt [PStr "map2"]))
  \/
  (Exists (fun x => getattr x "name" = Ok (PStr "map2")) [map1] /\
   no_cli (create_ag_url_path_map_rule ag (PStr "map2") (PStr "rule1")
             (PList [PStr "/images/*"]) (PStr "pool1") (PStr "settings1"))).
Proof.
  cbv zeta.
  apply (url_path_map_rule_lookup _ (PStr "map2") (PStr "rule1")
           (PList [PStr "/images/*"]) (PStr "pool1") (PStr "settings1")
           [PObj "ApplicationGatewayUrlPathMap"
              [("name", PStr "map1"); ("path_rules", PList [])]]).
  - reflexivity.
  - constructor; [exists (PStr "map1"); reflexivity | constructor].
Defined.

(** ** Generators and comprehensions *)

(** When the condition evaluates on every element, the generator either
    runs out with the condition false everywhere, or stops at the first
    element on which it is true. *)
Lemma first_where_total (p : pyval -> result bool) (l : list pyval) :
  Forall (fun x => exists b, p x = Ok b) l ->
  (first_where p l = Ok None /\ Forall (fun x => p x = Ok false) l)
  \/
  (exists before x after,
      l = before ++ x :: after /\
      p x = Ok true /\
      Forall (fun y => p y = Ok false) before /\
      first_where p l = Ok (Some (before, x, after))).
Proof.
  induction 1 as [|x l (b & Hb) _ IH].
  - left. split; [reflexivity | apply Forall_nil].
  - simpl. rewrite Hb. destruct b.
    + right. exists [], x, l.
      split; [reflexivity |]. split; [exact Hb |].
      split; [apply Forall_nil | reflexivity].
    + destruct IH as [[IH1 IH2] | (before & y & after & -> & Hy & Hbf & IH)].
      * left. rewrite IH1. split; [reflexivity | apply Forall_cons; assumption].
      * right. exists (x :: before), y, after. rewrite IH.
        split; [reflexivity |]. split; [exact Hy |].
        split; [apply Forall_cons; assumption | reflexivity].
Qed.

(** A comprehension whose condition evaluates everywhere keeps exactly the
    elements on which it is true, in order. *)
Lemma keep_where_total (p : pyval -> result bool) (l : list pyval) :
  Forall (fun x => exists b, p x = Ok b) l ->
  exists kept,
    keep_where p l = Ok kept /\
    Forall (fun x => p x = Ok true) kept /\
    (forall x, In x kept <-> In x l /\ p x = Ok true) /\
    (Forall (fun x => p x = Ok true) l -> kept = l).
Proof.
  induction 1 as [|x l (b & Hb) _ (kept & IH1 & IH2 & IH3 & IH4)].
  - exists []. split; [reflexivity |]. split; [apply Forall_nil |].
    split; [intros x; simpl; tauto | reflexivity].
  - simpl. rewrite Hb. simpl. rewrite IH1. simpl. destruct b.
    + exists (x :: kept). split; [reflexivity |].
      split; [apply Forall_cons; assumption |]. split.
      * intros y. simpl. rewrite IH3. split.
        -- intros [<- | [Hy Hp]]; auto.
        -- intros [[<- | Hy] Hp]; auto.
      * intros Hall. inversion Hall; subst. f_equal. auto.
    + exists kept. split; [reflexivity |]. split; [exact IH2 |]. split.
      * intros y. simpl. rewrite IH3. split.
        -- intros [Hy Hp]; auto.
        -- intros [[<- | Hy] Hp]; [congruence | auto].
      * intros Hall. inversion Hall; subst. congruence.
Qed.

Lemma getattr_default_of_getattr (x : pyval) (k : string) (v dflt : pyval) :
  getattr x k = Ok v -> getattr_default x k dflt = v.
Proof.
  destruct x; simpl; try discriminate.
  destruct (lookup k d); [congruence | discriminate].
Qed.

Lemma name_lower_equals_text (n : string) (x : pyval) (s : string) :
  getattr x "name" = Ok (PStr s) ->
  name_lower_equals (PStr n) x = Ok (String.eqb (lower s) (lower n)).
Proof. intros H. unfold name_lower_equals. rewrite H. reflexivity. Qed.

Lemma id_differs_value (v : pyval) (x i : pyval) :
  getattr x "id" = Ok i -> id_differs v x = Ok (negb (py_eqb i v)).
Proof. intros H. unfold id_differs. rewrite H. reflexivity. Qed.

(** ** Address pools and NAT rules of an IP configuration *)

(** X6: [remove_nic_ip_config_address_pool] looks the configuration up by name
    without regard to case.  It raises the client error when there is none;
    otherwise it submits the interface with that configuration's pools
    reduced to those whose id differs from the given one, a missing pool
    list counting as empty, and the other configurations untouched. *)
Theorem remove_address_pool_spec
    (nic : pyval) (ip_config_name : string) (backend_address_pool : pyval)
    (configs : list pyval) :
  getattr nic "ip_configurations" = Ok (PList configs) ->
  Forall has_text_name configs ->
  Forall (fun c => exists pools,
              getattr c "load_balancer_backend_address_pools" = Ok pools /\
              (pools = PNone \/ exists items, pools = PList items /\ Forall has_id items))
         configs ->
  (Forall (fun c => forall s, getattr c "name" = Ok (PStr s) ->
                              lower s <> lower ip_config_name) configs /\
   remove_nic_ip_config_address_pool nic (PStr ip_config_name) backend_address_pool =
   Raise (CLIError "IP configuration {} not found." [PStr ip_config_name]))
  \/
  (exists before c after s nic' c' kept,
      configs = before ++ c :: after /\
      getattr c "name" = Ok (PStr s) /\ lower s = lower ip_config_name /\
      remove_nic_ip_config_address_pool nic (PStr ip_config_name) backend_address_pool
        = Ok nic' /\
      getattr nic' "ip_configurations" = Ok (PList (before ++ c' :: after)) /\
      getattr c' "load_balancer_backend_address_pools" = Ok (PList kept) /\
      Forall (fun x => getattr x "id" <> Ok backend_address_pool) kept /\
      (forall x, In x kept <->
                 In x (match getattr_default c "load_balancer_backend_address_pools" PNone
                       with PList items => items | _ => [] end) /\
                 getattr x "id" <> Ok backend_address_pool)).
Proof.
  intros Hget Hnames Hpools.
  unfold remove_nic_ip_config_address_pool. rewrite Hget. simpl.
  assert (Htot : Forall (fun x => exists b, name_lower_equals (PStr ip_config_name) x = Ok b)
                        configs).
  { eapply Forall_impl; [| exact Hnames]. intros x (s & Hs).
    eexists. apply (name_lower_equals_text _ _ _ Hs). }
  destruct (first_where_total _ configs Htot)
    as [[Hnone Hall] | (before & c & after & -> & Hc & Hb & Hfound)].
  - left. rewrite Hnone. simpl. split; [| reflexivity].
    rewrite Forall_forall in Hall |- *. intros c Hin s Hs Heq.
    specialize (Hall c Hin). rewrite (name_lower_equals_text _ _ _ Hs) in Hall.
    injection Hall as Hall. apply String.eqb_neq in Hall. contradiction.
  - right. rewrite Hfound. simpl.
    apply Forall_app in Hnames. destruct Hnames as [_ Hnames].
    inversion Hnames as [|? ? (s & Hs) _]; subst.
    apply Forall_app in Hpools. destruct Hpools as [_ Hpools].
    inversion Hpools as [|? ? (pools & Hp & Hshape) _]; subst.
    rewrite (name_lower_equals_text _ _ _ Hs) in Hc. injection Hc as Hc.
    apply String.eqb_eq in Hc.
    rewrite Hp. simpl.
    assert (Hitems : exists items,
               iter (or_empty pools) = Ok items /\ Forall has_id items /\
               match getattr_default c "load_balancer_backend_address_pools" PNone
               with PList i => i | _ => [] end = items).
    { assert (Hd : getattr_default c "load_balancer_backend_address_pools" PNone = pools).
      { apply getattr_default_of_getattr. exact Hp. }
      rewrite Hd.
      destruct Hshape as [-> | (items & -> & Hids)].
      - exists []. repeat split. apply Forall_nil.
      - exists items. split; [| split; [exact Hids | reflexivity]].
        unfold or_empty. destruct items; reflexivity. }
    destruct Hitems as (items & Hiter & Hids & Hview). rewrite Hiter. simpl.
    assert (Htot2 : Forall (fun x => exists b, id_differs backend_address_pool x = Ok b)
                           items).
    { eapply Forall_impl; [| exact Hids]. intros x (i & Hi).
      eexists. apply (id_differs_value _ _ _ Hi). }
    destruct (keep_where_total _ items Htot2) as (kept & Hkeep & Hkept & Hin & _).
    rewrite Hkeep. simpl.
    destruct (setattr_obj c "load_balancer_backend_address_pools" (PList kept)
                (getattr_is_obj _ _ _ Hs)) as (c' & Hs1 & _).
    rewrite Hs1. simpl.
    destruct (setattr_obj nic "ip_configurations" (PList (before ++ c' :: after))
                (getattr_is_obj _ _ _ Hget)) as (nic' & Hs2 & _).
    rewrite Hs2.
    assert (Hdiff : forall x, In x items ->
               (id_differs backend_address_pool x = Ok true <->
                getattr x "id" <> Ok backend_address_pool)).
    { intros x Hx. rewrite Forall_forall in Hids. destruct (Hids x Hx) as (i & Hi).
      rewrite (id_differs_value _ _ _ Hi), Hi. split.
      - intros E. injection E as E. apply negb_true_iff, py_eqb_neq in E. congruence.
      - intros E. f_equal. apply negb_true_iff, py_eqb_neq. congruence. }
    exists before, c, after, s, nic', c', kept.
    split; [reflexivity |]. split; [exact Hs |]. split; [exact Hc |].
    split; [reflexivity |].
    split; [rewrite (getattr_setattr _ _ _ _ _ Hs2); reflexivity |].
    split; [rewrite (getattr_setattr _ _ _ _ _ Hs1); reflexivity |].
    split.
    + apply Forall_forall. intros x Hx. apply Hin in Hx. destruct Hx as [Hx Hpx].
      apply (Hdiff x Hx). exact Hpx.
    + intros x. rewrite Hview, Hin. split.
      * intros [Hx Hpx]. split; [exact Hx | apply (Hdiff x Hx); exact Hpx].
      * intros [Hx Hpx]. split; [exact Hx | apply (Hdiff x Hx); exact Hpx].
Qed.

Lemma remove_address_pool_spec_witness :
  let pool1 := PObj "BackendAddressPool" [("id", PStr "/pools/p1"); ("name", PStr "p1")] in
  let pool2 := PObj "BackendAddressPool" [("id", PStr "/pools/p2"); ("name", PStr "p2")] in
  let config := PObj "NetworkInterfaceIPConfiguration"
                  [("name", PStr "IpConfig1");
                   ("load_balancer_backend_address_pools", PList [pool1; pool2])] in
  let nic := PObj "NetworkInterface"
               [("name", PStr "nic1"); ("ip_configurations", PList [config])] in
  remove_nic_ip_config_address_pool nic (PStr "ipconfig1") (PStr "/pools/p1") =
  Ok (PObj "NetworkInterface"
        [("name", PStr "nic1");
         ("ip_configurations",
            PList [PObj "NetworkInterfaceIPConfiguration"
                     [("name", PStr "IpConfig1");
                      ("load_balancer_backend_address_pools", PList [pool2])]])])
  /\
  ((Forall (fun c => forall s, getattr c "name" = Ok (PStr s) ->
                               lower s <> lower "ipconfig1") [config] /\
    remove_nic_ip_config_address_pool nic (PStr "ipconfig1") (PStr "/pools/p1") =
    Raise (CLIError "IP configuration {} not found." [PStr "ipconfig1"]))
   \/
   (exists before c after s nic' c' kept,
       [config] = before ++ c :: after /\
       getattr c "name" = Ok (PStr s) /\ lower s = lower "ipconfig1" /\
       remove_nic_ip_config_address_pool nic (PStr "ipconfig1") (PStr "/pools/p1")
         = Ok nic' /\
       getattr nic' "ip_configurations" = Ok (PList (before ++ c' :: after)) /\
       getattr c' "load_balancer_backend_address_pools" = Ok (PList kept) /\
       Forall (fun x => getattr x "id" <> Ok (PStr "/pools/p1")) kept /\
       (forall x, In x kept <->
                  In x (match getattr_default c "load_balancer_backend_address_pools" PNone
                        with PList items => items | _ => [] end) /\
                  getattr x "id" <> Ok (PStr "/pools/p1")))).
Proof.
  cbv zeta. split; [reflexivity |].
  eapply (remove_address_pool_spec _ "ipconfig1" (PStr "/pools/p1")).
  - reflexivity.
  - constructor; [exists "IpConfig1"; reflexivity | constructor].
  - constructor; [| constructor].
    eexists. split; [reflexivity |]. right. eexists. split; [reflexivity |].
    constructor; [exists (PStr "/pools/p1"); reflexivity |].
    constructor; [exists (PStr "/pools/p2"); reflexivity | constructor].
Defined.

(** X7: The two removal commands treat missing lists differently.  Without a
    list of IP configurations the NAT-rule removal reports the configuration
    as not found while the pool removal fails with a [TypeError]; with a
    configuration whose list is missing, the pool removal submits an empty
    list (see above) while the NAT-rule removal fails with a [TypeError]. *)
Theorem remove_commands_missing_lists :
  (forall nic ip_config_name v,
      getattr nic "ip_configurations" = Ok PNone ->
      remove_nic_ip_config_inbound_nat_rule nic ip_config_name v =
        Raise (CLIError "IP configuration {} not found." [ip_config_name]) /\
      remove_nic_ip_config_address_pool nic ip_config_name v = Raise TypeError)
  /\
  (forall nic configs ip_config_name v,
      getattr nic "ip_configurations" = Ok (PList configs) ->
      Forall has_text_name configs ->
      Forall (fun c => getattr c "load_balancer_inbound_nat_rules" = Ok PNone) configs ->
      Exists (fun c => exists s, getattr c "name" = Ok (PStr s) /\
                                 lower s = lower ip_config_name) configs ->
      remove_nic_ip_config_inbound_nat_rule nic (PStr ip_config_name) v = Raise TypeError).
Proof.
  split.
  - intros nic n v H. unfold remove_nic_ip_config_inbound_nat_rule,
      remove_nic_ip_config_address_pool. rewrite H. split; reflexivity.
  - intros nic configs n v Hget Hnames Hrules Hex.
    unfold remove_nic_ip_config_inbound_nat_rule. rewrite Hget. simpl.
    assert (Hor : or_empty (PList configs) = PList configs).
    { unfold or_empty. destruct configs; [inversion Hex | reflexivity]. }
    rewrite Hor. simpl.
    assert (Htot : Forall (fun x => exists b, name_lower_equals (PStr n) x = Ok b) configs).
    { eapply Forall_impl; [| exact Hnames]. intros x (s & Hs).
      eexists. apply (name_lower_equals_text _ _ _ Hs). }
    destruct (first_where_total _ configs Htot)
      as [[_ Hall] | (before & c & after & -> & _ & _ & Hfound)].
    + exfalso. apply Exists_exists in Hex. destruct Hex as (c & Hin & s & Hs & Heq).
      rewrite Forall_forall in Hall. specialize (Hall c Hin).
      rewrite (name_lower_equals_text _ _ _ Hs) in Hall. injection Hall as Hall.
      apply String.eqb_neq in Hall. contradiction.
    + rewrite Hfound. simpl.
      apply Forall_app in Hrules. destruct Hrules as [_ Hrules].
      inversion Hrules as [|? ? Hr _]; subst. rewrite Hr. reflexivity.
Qed.

Lemma remove_commands_missing_lists_witness :
  let config := PObj "NetworkInterfaceIPConfiguration"
                  [("name", PStr "ipconfig1");
                   ("load_balancer_backend_address_pools", PNone);
                   ("load_balancer_inbound_nat_rules", PNone)] in
  let nic := PObj "NetworkInterface"
               [("name", PStr "nic1"); ("ip_configurations", PList [config])] in
  let bare := PObj "NetworkInterface"
                [("name", PStr "nic2"); ("ip_configurations", PNone)] in
  (remove_nic_ip_config_inbound_nat_rule bare (PStr "ipconfig1") (PStr "/rules/r1") =
     Raise (CLIError "IP configuration {} not found." [PStr "ipconfig1"]) /\
   remove_nic_ip_config_address_pool bare (PStr "ipconfig1") (PStr "/rules/r1") =
     Raise TypeError)
  /\
  remove_nic_ip_config_inbound_nat_rule nic (PStr "IPCONFIG1") (PStr "/rules/r1") =
    Raise TypeError.
Proof.
  cbv zeta. destruct remove_commands_missing_lists as [H1 H2]. split.
  - apply H1. reflexivity.
  - eapply H2.
    + reflexivity.
    + constructor; [exists "ipconfig1"; reflexivity | constructor].
    + constructor; [reflexivity | constructor].
    + left. exists "ipconfig1". split; reflexivity.
Defined.

(** X8: [add_nic_ip_config_address_pool] and [add_nic_ip_config_inbound_nat_rule]
    never reach a working fallback on service models: when no configuration
    has the name, the attribute error of the lookup is caught but the
    fallback assignment raises it again; when the configuration's list is
    missing, the upsert fails with a [TypeError], which the handler does
    not catch. *)
Theorem add_to_ip_config_failures (attr : string) (obj : pyval) :
  (forall nic configs ip_config_name key_value,
      getattr nic "ip_configurations" = Ok (PList configs) ->
      Forall has_text_name configs ->
      Forall (fun c => forall s, getattr c "name" = Ok (PStr s) ->
                                 lower s <> lower ip_config_name) configs ->
      add_to_nic_ip_config attr obj nic (PStr ip_config_name) key_value =
        Raise AttributeError)
  /\
  (forall nic configs ip_config_name key_value,
      getattr nic "ip_configurations" = Ok (PList configs) ->
      Forall has_text_name configs ->
      Forall (fun c => getattr c attr = Ok PNone) configs ->
      Exists (fun c => exists s, getattr c "name" = Ok (PStr s) /\
                                 lower s = lower ip_config_name) configs ->
      add_to_nic_ip_config attr obj nic (PStr ip_config_name) key_value =
        Raise TypeError).
Proof.
  split.
  - intros nic configs n key Hget Hnames Hdiff.
    unfold add_to_nic_ip_config.
    rewrite Hget. simpl.
    assert (Htot : Forall (fun x => exists b, name_lower_equals (PStr n) x = Ok b) configs).
    { eapply Forall_impl; [| exact Hnames]. intros x (s & Hs).
      eexists. apply (name_lower_equals_text _ _ _ Hs). }
    destruct (first_where_total _ configs Htot)
      as [[Hnone _] | (before & c & after & -> & Hc & _ & _)].
    + rewrite Hnone. reflexivity.
    + exfalso. apply Forall_app in Hnames. destruct Hnames as [_ Hnames].
      inversion Hnames as [|? ? (s & Hs) _]; subst.
      apply Forall_app in Hdiff. destruct Hdiff as [_ Hdiff].
      inversion Hdiff as [|? ? Hd _]; subst.
      rewrite (name_lower_equals_text _ _ _ Hs) in Hc. injection Hc as Hc.
      apply String.eqb_eq in Hc. exact (Hd s Hs Hc).
  - intros nic configs n key Hget Hnames Hpools Hex.
    unfold add_to_nic_ip_config.
    rewrite Hget. simpl.
    assert (Htot : Forall (fun x => exists b, name_lower_equals (PStr n) x = Ok b) configs).
    { eapply Forall_impl; [| exact Hnames]. intros x (s & Hs).
      eexists. apply (name_lower_equals_text _ _ _ Hs). }
    destruct (first_where_total _ configs Htot)
      as [[_ Hall] | (before & c & after & -> & _ & _ & Hfound)].
    + exfalso. apply Exists_exists in Hex. destruct Hex as (c & Hin & s & Hs & Heq).
      rewrite Forall_forall in Hall. specialize (Hall c Hin).
      rewrite (name_lower_equals_text _ _ _ Hs) in Hall. injection Hall as Hall.
      apply String.eqb_neq in Hall. contradiction.
    + rewrite Hfound. simpl.
      apply Forall_app in Hpools. destruct Hpools as [_ Hpools].
      inversion Hpools as [|? ? Hp _]; subst.
      unfold upsert_attr. rewrite Hp. reflexivity.
Qed.

Lemma add_to_ip_config_failures_witness :
  let config := PObj "NetworkInterfaceIPConfiguration"
                  [("name", PStr "ipconfig1");
                   ("load_balancer_backend_address_pools", PNone);
                   ("load_balancer_inbound_nat_rules", PNone)] in
  let nic := PObj "NetworkInterface"
               [("name", PStr "nic1"); ("ip_configurations", PList [config])] in
  add_nic_ip_config_address_pool nic (PStr "other") (PStr "/pools/p1") =
    Raise AttributeError
  /\
  add_nic_ip_config_inbound_nat_rule nic (PStr "ipconfig1") (PStr "/rules/r1") =
    Raise TypeError.
Proof.
  cbv zeta. split.
  - eapply (proj1 (add_to_ip_config_failures "load_balancer_backend_address_pools"
                     (BackendAddressPool (PStr "/pools/p1")))).
    + reflexivity.
    + constructor; [exists "ipconfig1"; reflexivity | constructor].
    + constructor; [| constructor].
      intros s Hs. injection Hs as <-. discriminate.
  - eapply (proj2 (add_to_ip_config_failures "load_balancer_inbound_nat_rules"
                     (InboundNatRule (PStr "/rules/r1")))).
    + reflexivity.
    + constructor; [exists "ipconfig1"; reflexivity | constructor].
    + constructor; [reflexivity | constructor].
    + left. exists "ipconfig1". split; reflexivity.
Defined.

(** ** Rules of a URL path map *)

Lemma name_lower_differs_text (n : string) (x : pyval) (s : string) :
  getattr x "name" = Ok (PStr s) ->
  name_lower_differs (PStr n) x = Ok (negb (String.eqb (lower s) (lower n))).
Proof.
  intros H. unfold name_lower_differs. rewrite (name_lower_equals_text _ _ _ H).
  reflexivity.
Qed.

(** X5: [delete_ag_url_path_map_rule] raises the client error when the gateway
    has no URL path map of the given name.  Otherwise it submits the gateway
    with the first such map keeping exactly the rules whose name differs,
    case ignored, from the given rule name; the other maps are untouched,
    and deleting a rule that does not exist changes no rule. *)
Theorem delete_url_path_map_rule_spec
    (ag url_path_map_name : pyval) (item_name : string) (maps : list pyval) :
  getattr ag "url_path_maps" = Ok (PList maps) ->
  Forall has_name maps ->
  Forall (fun m => exists rules, getattr m "path_rules" = Ok (PList rules) /\
                                 Forall has_text_name rules) maps ->
  (Forall (fun m => getattr m "name" <> Ok url_path_map_name) maps /\
   exists fmt, delete_ag_url_path_map_rule ag url_path_map_name (PStr item_name) =
               Raise (CLIError fmt [url_path_map_name]))
  \/
  (exists before m after rules ag' m' kept,
      maps = before ++ m :: after /\
      getattr m "name" = Ok url_path_map_name /\
      Forall (fun y => getattr y "name" <> Ok url_path_map_name) before /\
      getattr m "path_rules" = Ok (PList rules) /\
      delete_ag_url_path_map_rule ag url_path_map_name (PStr item_name) = Ok ag' /\
      getattr ag' "url_path_maps" = Ok (PList (before ++ m' :: after)) /\
      getattr m' "path_rules" = Ok (PList kept) /\
      (forall k, k <> "path_rules" -> getattr m' k = getattr m k) /\
      (forall r, In r kept <->
                 In r rules /\
                 forall s, getattr r "name" = Ok (PStr s) -> lower s <> lower item_name) /\
      (Forall (fun r => forall s, getattr r "name" = Ok (PStr s) ->
                                  lower s <> lower item_name) rules ->
       kept = rules)).
Proof.
  intros Hget Hnames Hrules.
  unfold delete_ag_url_path_map_rule. rewrite Hget. simpl.
  destruct (first_where_name url_path_map_name maps Hnames)
    as [[Hnone Hall] | (before & m & after & -> & Hm & Hb & Hfound)].
  - left. split; [exact Hall |]. rewrite Hnone. simpl. eexists. reflexivity.
  - right. rewrite Hfound. simpl.
    apply Forall_app in Hrules. destruct Hrules as [_ Hrules].
    inversion Hrules as [|? ? (rules & Hr & Htext) _]; subst.
    rewrite Hr. simpl.
    assert (Htot : Forall (fun x => exists b, name_lower_differs (PStr item_name) x = Ok b)
                          rules).
    { eapply Forall_impl; [| exact Htext]. intros x (s & Hs).
      eexists. apply (name_lower_differs_text _ _ _ Hs). }
    destruct (keep_where_total _ rules Htot) as (kept & Hkeep & _ & Hin & Hsame).
    rewrite Hkeep. simpl.
    destruct (setattr_obj m "path_rules" (PList kept) (getattr_is_obj _ _ _ Hr))
      as (m' & Hs1 & _).
    rewrite Hs1. simpl.
    destruct (setattr_obj ag "url_path_maps" (PList (before ++ m' :: after))
                (getattr_is_obj _ _ _ Hget)) as (ag' & Hs2 & _).
    rewrite Hs2.
    assert (Hdiff : forall r, In r rules ->
               (name_lower_differs (PStr item_name) r = Ok true <->
                forall s, getattr r "name" = Ok (PStr s) -> lower s <> lower item_name)).
    { intros r Hin_r. rewrite Forall_forall in Htext.
      destruct (Htext r Hin_r) as (s & Hs).
      rewrite (name_lower_differs_text _ _ _ Hs). split.
      - intros E s' Hs'. rewrite Hs in Hs'. injection Hs' as <-.
        injection E as E. apply negb_true_iff, String.eqb_neq in E. exact E.
      - intros E. f_equal. apply negb_true_iff, String.eqb_neq. exact (E s Hs). }
    exists before, m, after, rules, ag', m', kept.
    split; [reflexivity |]. split; [exact Hm |]. split; [exact Hb |].
    split; [exact Hr |]. split; [reflexivity |].
    split; [rewrite (getattr_setattr _ _ _ _ _ Hs2); reflexivity |].
    split; [rewrite (getattr_setattr _ _ _ _ _ Hs1); reflexivity |].
    split.
    { intros k Hk. rewrite (getattr_setattr _ _ _ _ _ Hs1).
      apply String.eqb_neq in Hk. rewrite Hk. reflexivity. }
    split.
    + intros r. rewrite Hin. split.
      * intros [Hr_in Hp]. split; [exact Hr_in | apply (Hdiff r Hr_in); exact Hp].
      * intros [Hr_in Hp]. split; [exact Hr_in | apply (Hdiff r Hr_in); exact Hp].
    + intros Hall. apply Hsame. apply Forall_forall. intros r Hr_in.
      apply (Hdiff r Hr_in). rewrite Forall_forall in Hall. exact (Hall r Hr_in).
Qed.

Lemma delete_url_path_map_rule_spec_witness :
  let rule1 := PObj "ApplicationGatewayPathRule"
                 [("name", PStr "Images"); ("paths", PList [PStr "/images/*"])] in
  let rule2 := PObj "ApplicationGatewayPathRule"
                 [("name", PStr "video"); ("paths", PList [PStr "/video/*"])] in
  let map1 := PObj "ApplicationGatewayUrlPathMap"
                [("name", PStr "map1"); ("path_rules", PList [rule1; rule2])] in
  let ag := PObj "ApplicationGateway"
              [("name", PStr "ag1"); ("url_path_maps", PList [map1])] in
  delete_ag_url_path_map_rule ag (PStr "map1") (PStr "images") =
  Ok (PObj "ApplicationGateway"
        [("name", PStr "ag1");
         ("url_path_maps",
            PList [PObj "ApplicationGatewayUrlPathMap"
                     [("name", PStr "map1"); ("path_rules", PList [rule2])]])])
  /\
  ((Forall (fun m => getattr m "name" <> Ok (PStr "map1")) [map1] /\
    exists fmt, delete_ag_url_path_map_rule ag (PStr "map1") (PStr "images") =
                Raise (CLIError fmt [PStr "map1"]))
   \/
   (exists before m after rules ag' m' kept,
       [map1] = before ++ m :: after /\
       getattr m "name" = Ok (PStr "map1") /\
       Forall (fun y => getattr y "name" <> Ok (PStr "map1")) before /\
       getattr m "path_rules" = Ok (PList rules) /\
       delete_ag_url_path_map_rule ag (PStr "map1") (PStr "images") = Ok ag' /\
       getattr ag' "url_path_maps" = Ok (PList (before ++ m' :: after)) /\
       getattr m' "path_rules" = Ok (PList kept) /\
       (forall k, k <> "path_rules" -> getattr m' k = getattr m k) /\
       (forall r, In r kept <->
                  In r rules /\
                  forall s, getattr r "name" = Ok (PStr s) -> lower s <> lower "images") /\
       (Forall (fun r => forall s, getattr r "name" = Ok (PStr s) ->
                                   lower s <> lower "images") rules ->
        kept = rules))).
Proof.
  cbv zeta. split; [reflexivity |].
  eapply (delete_url_path_map_rule_spec _ (PStr "map1") "images").
  - reflexivity.
  - constructor; [exists (PStr "map1"); reflexivity | constructor].
  - constructor; [| constructor].
    eexists. split; [reflexivity |].
    constructor; [exists "Images"; reflexivity |].
    constructor; [exists "video"; reflexivity | constructor].
Defined.

(** ** BGP settings *)

Lemma assign_nested_if_given_attr (instance : pyval) (outer name : string)
    (arg o : pyval) :
  getattr instance outer = Ok o -> is_obj o ->
  exists instance' o',
    assign_nested_if_given instance outer name arg = Ok instance' /\
    getattr instance' outer = Ok o' /\ is_obj o' /\
    (forall k, getattr o' k =
               if String.eqb k name
               then (if py_eqb arg PNone then getattr o k else Ok arg)
               else getattr o k) /\
    (forall k, k <> outer -> getattr instance' k = getattr instance k).
Proof.
  intros Hget Hobj. unfold assign_nested_if_given.
  destruct (py_eqb arg PNone).
  - exists instance, o. split; [reflexivity |]. split; [exact Hget |].
    split; [exact Hobj |]. split; [| reflexivity].
    intros k. destruct (String.eqb k name); reflexivity.
  - rewrite Hget. simpl.
    destruct (setattr_obj o name arg Hobj) as (o' & Hs1 & Hobj').
    rewrite Hs1. simpl.
    destruct (setattr_obj instance outer o' (getattr_is_obj _ _ _ Hget))
      as (i' & Hs2 & _).
    exists i', o'. split; [exact Hs2 |].
    split; [rewrite (getattr_setattr _ _ _ _ _ Hs2), String.eqb_refl; reflexivity |].
    split; [exact Hobj' |]. split.
    + intros k. apply (getattr_setattr _ _ k name _ Hs1).
    + intros k Hk. rewrite (getattr_setattr _ _ _ _ _ Hs2).
      apply String.eqb_neq in Hk. rewrite Hk. reflexivity.
Qed.

Lemma assign_nested_without_outer (instance : pyval) (outer name : string)
    (arg : pyval) :
  getattr instance outer = Ok PNone ->
  assign_nested_if_given instance outer name arg =
  if py_eqb arg PNone then Ok instance else Raise AttributeError.
Proof.
  intros H. unfold assign_nested_if_given.
  destruct (py_eqb arg PNone); [reflexivity |]. rewrite H. reflexivity.
Qed.

(** X9: [_validate_bgp_peering] does nothing when none of the three arguments
    is truthy, even with an argument such as the number 0 that is not
    [None].  Otherwise, existing settings are updated selectively; without
    settings a truthy ASN creates them from the three arguments; and
    without settings and without a truthy ASN the client error is raised. *)
Theorem validate_bgp_peering_cases
    (instance settings asn bgp_peering_address peer_weight : pyval) :
  getattr instance "bgp_settings" = Ok settings ->
  settings = PNone \/ is_obj settings ->
  let given := truthy asn || truthy bgp_peering_address || truthy peer_weight in
  let run := _validate_bgp_peering instance asn bgp_peering_address peer_weight in
  (given = false -> run = Ok instance)
  /\
  (given = true -> settings = PNone -> truthy asn = false ->
   exists fmt, run = Raise (CLIError fmt []))
  /\
  (given = true -> settings = PNone -> truthy asn = true ->
   exists instance',
     run = Ok instance' /\
     getattr instance' "bgp_settings" =
       Ok (BgpSettings asn bgp_peering_address peer_weight) /\
     forall k, k <> "bgp_settings" -> getattr instance' k = getattr instance k)
  /\
  (given = true -> is_obj settings ->
   exists instance' settings',
     run = Ok instance' /\
     getattr instance' "bgp_settings" = Ok settings' /\
     (forall k, getattr settings' k =
                updated_attr [("asn", asn); ("peer_weight", peer_weight);
                              ("bgp_peering_address", bgp_peering_address)]
                             settings k) /\
     forall k, k <> "bgp_settings" -> getattr instance' k = getattr instance k).
Proof.
  intros Hget Hshape given run. subst given run.
  unfold _validate_bgp_peering.
  destruct (truthy asn || truthy bgp_peering_address || truthy peer_weight) eqn:Hgiven.
  2: { split; [reflexivity |]. repeat split; discriminate. }
  split; [discriminate |].
  rewrite Hget. simpl.
  split; [| split].
  - intros _ -> Hasn. rewrite py_eqb_refl. simpl. rewrite Hasn.
    eexists. reflexivity.
  - intros _ -> Hasn. rewrite py_eqb_refl. simpl. rewrite Hasn.
    destruct (setattr_obj instance "bgp_settings"
                (BgpSettings asn bgp_peering_address peer_weight)
                (getattr_is_obj _ _ _ Hget)) as (i' & Hs & _).
    exists i'. split; [exact Hs |].
    split; [rewrite (getattr_setattr _ _ _ _ _ Hs); reflexivity |].
    intros k Hk. rewrite (getattr_setattr _ _ _ _ _ Hs).
    apply String.eqb_neq in Hk. rewrite Hk. reflexivity.
  - intros _ Hobj.
    assert (E : py_eqb settings PNone = false).
    { apply py_eqb_neq. intros ->. exact Hobj. }
    rewrite E. simpl.
    destruct (assign_nested_if_given_attr instance "bgp_settings" "asn" asn settings
                Hget Hobj) as (i1 & s1 & R1 & G1 & O1 & A1 & F1).
    rewrite R1. simpl.
    destruct (assign_nested_if_given_attr i1 "bgp_settings" "peer_weight" peer_weight s1
                G1 O1) as (i2 & s2 & R2 & G2 & O2 & A2 & F2).
    rewrite R2. simpl.
    destruct (assign_nested_if_given_attr i2 "bgp_settings" "bgp_peering_address"
                bgp_peering_address s2 G2 O2) as (i3 & s3 & R3 & G3 & O3 & A3 & F3).
    exists i3, s3. split; [exact R3 |]. split; [exact G3 |]. split.
    + intros k. rewrite A3, A2, A1. unfold updated_attr. simpl.
      destruct (String.eqb k "asn") eqn:E1.
      { apply String.eqb_eq in E1. subst k. simpl. reflexivity. }
      destruct (String.eqb k "peer_weight") eqn:E2.
      { apply String.eqb_eq in E2. subst k. simpl. reflexivity. }
      destruct (String.eqb k "bgp_peering_address") eqn:E3; reflexivity.
    + intros k Hk. rewrite (F3 k Hk), (F2 k Hk), (F1 k Hk). reflexivity.
Qed.

Lemma validate_bgp_peering_cases_witness :
  let bare := PObj "LocalNetworkGateway"
                [("name", PStr "lgw"); ("bgp_settings", PNone)] in
  let configured := PObj "LocalNetworkGateway"
                      [("name", PStr "lgw");
                       ("bgp_settings", BgpSettings (PInt 65000) (PStr "10.0.0.1") (PInt 5))] in
  _validate_bgp_peering configured (PInt 0) PNone PNone = Ok configured
  /\
  (exists fmt, _validate_bgp_peering bare PNone (PStr "10.0.0.2") PNone =
               Raise (CLIError fmt [])).
Proof.
  cbv zeta. split.
  - apply (validate_bgp_peering_cases
             (PObj "LocalNetworkGateway"
                [("name", PStr "lgw");
                 ("bgp_settings", BgpSettings (PInt 65000) (PStr "10.0.0.1") (PInt 5))])
             (BgpSettings (PInt 65000) (PStr "10.0.0.1") (PInt 5))
             (PInt 0) PNone PNone eq_refl (or_intror I)).
    reflexivity.
  - apply (validate_bgp_peering_cases
             (PObj "LocalNetworkGateway" [("name", PStr "lgw"); ("bgp_settings", PNone)])
             PNone PNone (PStr "10.0.0.2") PNone
             eq_refl (or_introl eq_refl)); reflexivity.
Defined.

(** ** Updating an express-route peering *)

(** X10: On a peering without Microsoft peering configuration,
    [update_express_route_peering] raises the client error exactly when
    advertised prefixes or a customer ASN are given; a routing registry
    name alone is accepted and written to the peering itself.  With a
    configuration object no client error is raised. *)
Theorem update_express_route_peering_config
    (instance config peer_asn primary_peer_address_prefix
     secondary_peer_address_prefix vlan_id shared_key advertised_public_prefixes
     customer_asn routing_registry_name : pyval) :
  getattr instance "microsoft_peering_config" = Ok config ->
  let run := update_express_route_peering instance peer_asn
               primary_peer_address_prefix secondary_peer_address_prefix vlan_id
               shared_key advertised_public_prefixes customer_asn
               routing_registry_name in
  (config = PNone ->
   advertised_public_prefixes <> PNone \/ customer_asn <> PNone ->
   exists fmt, run = Raise (CLIError fmt []))
  /\
  (config = PNone ->
   advertised_public_prefixes = PNone -> customer_asn = PNone ->
   exists instance',
     run = Ok instance' /\
     getattr instance' "microsoft_peering_config" = Ok PNone /\
     (routing_registry_name <> PNone ->
      getattr instance' "routing_registry_name" = Ok routing_registry_name))
  /\
  (is_obj config -> no_cli run).
Proof.
  intros Hcfg run. subst run.
  pose proof (getattr_is_obj _ _ _ Hcfg) as Hobj.
  unfold update_express_route_peering.
  destruct (assign_if_given_attr instance "peer_asn" peer_asn Hobj)
    as (i1 & R1 & O1 & A1). rewrite R1. simpl.
  destruct (assign_if_given_attr i1 "primary_peer_address_prefix"
              primary_peer_address_prefix O1) as (i2 & R2 & O2 & A2).
  rewrite R2. simpl.
  destruct (assign_if_given_attr i2 "secondary_peer_address_prefix"
              secondary_peer_address_prefix O2) as (i3 & R3 & O3 & A3).
  rewrite R3. simpl.
  destruct (assign_if_given_attr i3 "vlan_id" vlan_id O3) as (i4 & R4 & O4 & A4).
  rewrite R4. simpl.
  destruct (assign_if_given_attr i4 "shared_key" shared_key O4) as (i5 & R5 & O5 & A5).
  rewrite R5. simpl.
  assert (Hcfg5 : getattr i5 "microsoft_peering_config" = Ok config).
  { rewrite A5, A4, A3, A2, A1. simpl. exact Hcfg. }
  clear R1 R2 R3 R4 R5 A1 A2 A3 A4 A5.
  split; [| split].
  - intros -> Hgiven.
    rewrite (assign_nested_without_outer i5 _ _ _ Hcfg5).
    destruct (py_eqb advertised_public_prefixes PNone) eqn:E1; cbn [bind].
    + rewrite (assign_nested_without_outer i5 _ _ _ Hcfg5).
      destruct (py_eqb customer_asn PNone) eqn:E2; cbn [bind].
      * apply py_eqb_eq in E1, E2. destruct Hgiven; contradiction.
      * eexists. reflexivity.
    + eexists. reflexivity.
  - intros -> -> ->.
    rewrite (assign_nested_without_outer i5 _ _ _ Hcfg5), py_eqb_refl. cbn [bind].
    rewrite (assign_nested_without_outer i5 _ _ _ Hcfg5), py_eqb_refl. cbn [bind].
    destruct (assign_if_given_attr i5 "routing_registry_name" routing_registry_name O5)
      as (i6 & R6 & O6 & A6).
    rewrite R6. simpl. exists i6. split; [reflexivity |]. split.
    + rewrite A6. simpl. exact Hcfg5.
    + intros Hr. rewrite A6. simpl.
      apply py_eqb_neq in Hr. rewrite Hr. reflexivity.
  - intros Hcobj.
    destruct (assign_nested_if_given_attr i5 "microsoft_peering_config"
                "advertised_public_prefixes" advertised_public_prefixes config
                Hcfg5 Hcobj) as (i6 & c6 & R6 & G6 & O6 & _ & _).
    rewrite R6. simpl.
    destruct (assign_nested_if_given_attr i6 "microsoft_peering_config"
                "customer_asn" customer_asn c6 G6 O6) as (i7 & c7 & R7 & G7 & _ & _ & _).
    rewrite R7. simpl.
    destruct (assign_if_given_attr i7 "routing_registry_name" routing_registry_name
                (getattr_is_obj _ _ _ G7)) as (i8 & R8 & _ & _).
    rewrite R8. simpl. exact I.
Qed.

Lemma update_express_route_peering_config_witness :
  let peering := PObj "ExpressRouteCircuitPeering"
                   [("name", PStr "AzurePrivatePeering"); ("peer_asn", PInt 100);
                    ("vlan_id", PInt 200); ("microsoft_peering_config", PNone)] in
  exists fmt,
    update_express_route_peering peering PNone PNone PNone PNone PNone PNone
                                 (PInt 65001) PNone
    = Raise (CLIError fmt []).
Proof.
  cbv zeta.
  apply (update_express_route_peering_config
           (PObj "ExpressRouteCircuitPeering"
              [("name", PStr "AzurePrivatePeering"); ("peer_asn", PInt 100);
               ("vlan_id", PInt 200); ("microsoft_peering_config", PNone)])
           PNone PNone PNone PNone PNone PNone PNone (PInt 65001) PNone eq_refl).
  - reflexivity.
  - right. discriminate.
Defined.

(** ** Revoked certificates *)

(** X11: [create_vnet_gateway_revoked_cert] demands address prefixes: a gateway
    without client configuration is given a fresh, empty one and therefore
    always ends in the client error, as does a configuration whose address
    pool is missing or has no prefixes.  Nothing is submitted. *)
Theorem revoked_cert_requires_address_prefixes
    (gateway config thumbprint cert_name : pyval) :
  getattr gateway "vpn_client_configuration" = Ok config ->
  (truthy config = false ->
   exists fmt, create_vnet_gateway_revoked_cert gateway thumbprint cert_name =
               Raise (CLIError fmt []))
  /\
  (forall pool,
      getattr config "vpn_client_address_pool" = Ok pool ->
      truthy pool = false \/
      (exists prefixes, getattr pool "address_prefixes" = Ok prefixes /\
                        truthy prefixes = false) ->
      exists fmt, create_vnet_gateway_revoked_cert gateway thumbprint cert_name =
                  Raise (CLIError fmt [])).
Proof.
  intros Hcfg.
  pose proof (getattr_is_obj _ _ _ Hcfg) as Hgobj.
  unfold create_vnet_gateway_revoked_cert, _prep_cert_create.
  rewrite Hcfg. cbn [bind]. split.
  - intros Hfalse. rewrite Hfalse. cbn [negb].
    destruct (setattr_obj gateway "vpn_client_configuration" VpnClientConfiguration Hgobj)
      as (g1 & Hs & _).
    rewrite Hs. cbn [bind].
    rewrite (getattr_setattr _ _ _ _ _ Hs), String.eqb_refl. cbn [bind].
    simpl. eexists. reflexivity.
  - intros pool Hpool Hunset.
    pose proof (getattr_is_obj _ _ _ Hpool) as Hcobj.
    rewrite (truthy_obj config Hcobj). cbn [negb bind]. rewrite Hcfg. cbn [bind].
    rewrite Hpool. cbn [bind].
    destruct Hunset as [Hp | (prefixes & Hpre & Hp)].
    + rewrite Hp. simpl. eexists. reflexivity.
    + destruct (truthy pool); simpl.
      * rewrite Hpre. simpl. rewrite Hp. simpl. eexists. reflexivity.
      * eexists. reflexivity.
Qed.

Lemma revoked_cert_requires_address_prefixes_witness :
  let gateway := PObj "VirtualNetworkGateway"
                   [("name", PStr "gw1"); ("vpn_client_configuration", PNone)] in
  exists fmt, create_vnet_gateway_revoked_cert gateway (PStr "AB12") (PStr "cert1") =
              Raise (CLIError fmt []).
Proof.
  cbv zeta.
  apply (proj1 (revoked_cert_requires_address_prefixes
                  (PObj "VirtualNetworkGateway"
                     [("name", PStr "gw1"); ("vpn_client_configuration", PNone)])
                  PNone (PStr "AB12") (PStr "cert1") eq_refl)).
  reflexivity.
Defined.

(** X12: With address prefixes set, [create_vnet_gateway_revoked_cert] submits a
    configuration whose revoked list holds exactly one certificate of the
    given name, the new one, and at most one per name; a missing root or
    revoked list is submitted as an empty list, never as [None]. *)
Theorem create_revoked_cert_success
    (gateway config pool prefixes revoked root thumbprint cert_name : pyval)
    (l : list pyval) :
  getattr gateway "vpn_client_configuration" = Ok config ->
  getattr config "vpn_client_address_pool" = Ok pool ->
  truthy pool = true ->
  getattr pool "address_prefixes" = Ok prefixes ->
  truthy prefixes = true ->
  getattr config "vpn_client_revoked_certificates" = Ok revoked ->
  (revoked = PNone /\ l = []) \/ revoked = PList l ->
  Forall is_obj l -> names_unique l ->
  getattr config "vpn_client_root_certificates" = Ok root ->
  exists gateway' log config' l',
    create_vnet_gateway_revoked_cert gateway thumbprint cert_name = Ok (gateway', log) /\
    getattr gateway' "vpn_client_configuration" = Ok config' /\
    getattr config' "vpn_client_revoked_certificates" = Ok (PList l') /\
    filter (named cert_name) l' = [VpnClientRevokedCertificate cert_name thumbprint] /\
    names_unique l' /\
    getattr config' "vpn_client_root_certificates" =
      Ok (if py_eqb root PNone then PList [] else root).
Proof.
  intros Hcfg Hpool Htp Hpre Htpre Hrev Hshape Hobj Hu Hroot.
  pose proof (getattr_is_obj _ _ _ Hcfg) as Hgobj.
  pose proof (getattr_is_obj _ _ _ Hpool) as Hcobj.
  unfold create_vnet_gateway_revoked_cert, _prep_cert_create.
  rewrite Hcfg. cbn [bind]. rewrite (truthy_obj config Hcobj). cbn [negb bind].
  rewrite Hcfg. cbn [bind]. rewrite Hpool. cbn [bind].
  rewrite Htp. cbn [negb]. rewrite Hpre. cbn [bind]. rewrite Htpre. cbn [negb bind].
  rewrite Hrev. cbn [bind].
  assert (Hstep1 : exists c1,
             (if py_eqb revoked PNone
              then setattr config "vpn_client_revoked_certificates" (PList [])
              else Ok config) = Ok c1 /\
             getattr c1 "vpn_client_revoked_certificates" = Ok (PList l) /\
             getattr c1 "vpn_client_root_certificates" = Ok root).
  { destruct Hshape as [[-> ->] | ->].
    - rewrite py_eqb_refl.
      destruct (setattr_obj config "vpn_client_revoked_certificates" (PList []) Hcobj)
        as (c1 & Hs & _).
      exists c1. split; [exact Hs |].
      rewrite !(getattr_setattr _ _ _ _ _ Hs). simpl. split; [reflexivity | exact Hroot].
    - destruct (py_eqb (PList l) PNone) eqn:E; [apply py_eqb_eq in E; discriminate |].
      exists config. auto. }
  destruct Hstep1 as (c1 & -> & Hrev1 & Hroot1). cbn [bind].
  rewrite Hroot1. cbn [bind].
  assert (Hstep2 : exists c2,
             (if py_eqb root PNone
              then setattr c1 "vpn_client_root_certificates" (PList [])
              else Ok c1) = Ok c2 /\
             getattr c2 "vpn_client_revoked_certificates" = Ok (PList l) /\
             getattr c2 "vpn_client_root_certificates" =
               Ok (if py_eqb root PNone then PList [] else root)).
  { destruct (py_eqb root PNone).
    - destruct (setattr_obj c1 "vpn_client_root_certificates" (PList [])
                  (getattr_is_obj _ _ _ Hrev1)) as (c2 & Hs & _).
      exists c2. split; [exact Hs |].
      rewrite !(getattr_setattr _ _ _ _ _ Hs). simpl. split; [exact Hrev1 | reflexivity].
    - exists c1. auto. }
  destruct Hstep2 as (c2 & -> & Hrev2 & Hroot2). cbn [bind].
  destruct (setattr_obj gateway "vpn_client_configuration" c2 Hgobj) as (g2 & Hsg & Hg2obj).
  rewrite Hsg. cbn [bind fst snd].
  destruct (upsert_attr_unique c2 "vpn_client_revoked_certificates" l
              (VpnClientRevokedCertificate cert_name thumbprint) cert_name
              Hrev2 Hobj Hu eq_refl)
    as (c3 & log & l' & Hup & Hget3 & Hframe & Hfil & Hu').
  rewrite Hup. cbn [bind fst snd].
  destruct (setattr_obj g2 "vpn_client_configuration" c3 Hg2obj) as (g3 & Hs3 & _).
  rewrite Hs3.
  exists g3, log, c3, l'.
  split; [reflexivity |].
  split; [rewrite (getattr_setattr _ _ _ _ _ Hs3); reflexivity |].
  split; [exact Hget3 |]. split; [exact Hfil |]. split; [exact Hu' |].
  rewrite Hframe; [exact Hroot2 | discriminate].
Qed.

Lemma create_revoked_cert_success_witness :
  let pool := PObj "AddressSpace" [("address_prefixes", PList [PStr "10.1.0.0/24"])] in
  let config := PObj "VpnClientConfiguration"
                  [("vpn_client_address_pool", pool);
                   ("vpn_client_root_certificates", PNone);
                   ("vpn_client_revoked_certificates", PNone)] in
  let gateway := PObj "VirtualNetworkGateway"
                   [("name", PStr "gw1"); ("vpn_client_configuration", config)] in
  exists gateway' log config' l',
    create_vnet_gateway_revoked_cert gateway (PStr "AB12") (PStr "cert1")
      = Ok (gateway', log) /\
    getattr gateway' "vpn_client_configuration" = Ok config' /\
    getattr config' "vpn_client_revoked_certificates" = Ok (PList l') /\
    filter (named (PStr "cert1")) l' =
      [VpnClientRevokedCertificate (PStr "cert1") (PStr "AB12")] /\
    names_unique l' /\
    getattr config' "vpn_client_root_certificates" = Ok (PList []).
Proof.
  cbv zeta.
  apply (create_revoked_cert_success
           (PObj "VirtualNetworkGateway"
              [("name", PStr "gw1");
               ("vpn_client_configuration",
                  PObj "VpnClientConfiguration"
                    [("vpn_client_address_pool",
                        PObj "AddressSpace"
                          [("address_prefixes", PList [PStr "10.1.0.0/24"])]);
                     ("vpn_client_root_certificates", PNone);
                     ("vpn_client_revoked_certificates", PNone)])])
           _ _ _ PNone PNone (PStr "AB12") (PStr "cert1") []
           eq_refl eq_refl eq_refl eq_refl eq_refl eq_refl
           (or_introl (conj eq_refl eq_refl)) (Forall_nil _) (NoDup_nil _) eq_refl).
Defined.

(** ** Record types and properties *)

Lemma lower_char_idempotent (c : ascii) : lower_char (lower_char c) = lower_char c.
Proof. destruct c as [[] [] [] [] [] [] [] []]; reflexivity. Qed.

Lemma lower_idempotent (s : string) : lower (lower s) = lower s.
Proof.
  induction s as [|c s IH]; simpl; [reflexivity |].
  rewrite lower_char_idempotent, IH. reflexivity.
Qed.

(** X14: [_type_to_property_name] does not depend on the case of the record type
    and only ever names one of the nine record properties of a record set;
    the types [spf] and [txt] share [txt_records]. *)
Theorem type_to_property_name_spec (s : string) :
  _type_to_property_name (PStr (lower s)) = _type_to_property_name (PStr s) /\
  (forall p, _type_to_property_name (PStr s) = Ok p -> In p record_properties) /\
  (lower s = "spf" \/ lower s = "txt" ->
   _type_to_property_name (PStr s) = Ok "txt_records").
Proof.
  split; [| split].
  - unfold _type_to_property_name. simpl. rewrite lower_idempotent. reflexivity.
  - intros p. unfold _type_to_property_name. simpl.
    repeat match goal with
           | |- context [String.eqb (lower s) ?k] =>
               destruct (String.eqb (lower s) k);
               [intros H; injection H as <-; simpl; tauto |]
           end.
    discriminate.
  - unfold _type_to_property_name. simpl. intros [-> | ->]; reflexivity.
Qed.

Lemma type_property_in (record_type : pyval) (prop : string) :
  _type_to_property_name record_type = Ok prop -> In prop record_properties.
Proof.
  destruct record_type; try discriminate. apply type_to_property_name_spec.
Qed.

(** ** Building records from entries *)

(** X15: For A, AAAA, CNAME, MX, NS, PTR and SRV records, and for TXT records of
    one string, the field dictionary [export_zone] writes for a record is
    read back by [_build_record] as that record.  For an SOA record it is
    not: the export names the fields [mname] and [rname] where
    [_build_record] reads [host] and [email], and the dictionary is refused
    with the missing-property error. *)
Theorem build_record_reads_exported_fields :
  (forall record_type record name ttl,
      plain_record record_type record ->
      exists fields,
        record_fields record_type record = Ok (fields, None) /\
        _build_record (("type", PStr record_type) :: ("name", name) ::
                       ("ttl", ttl) :: fields) = Ok record)
  /\
  (forall text name ttl,
      exists fields,
        record_fields "txt" (TxtRecord (PList [PStr text])) = Ok (fields, None) /\
        _build_record (("type", PStr "txt") :: ("name", name) :: ("ttl", ttl) :: fields)
        = Ok (TxtRecord (PList [PStr text])))
  /\
  (forall host email serial refresh retry expire minimum name ttl,
      exists fields,
        record_fields "soa"
          (SoaRecord (PStr host) (PStr email) serial refresh retry expire minimum)
        = Ok (fields, Some minimum) /\
        _build_record (("type", PStr "soa") :: ("name", name) :: ("ttl", ttl) :: fields)
        = Raise (CLIError "The {} record '{}' is missing a property.  {}"
                          [PStr "soa"; name; PStr "host"])).
Proof.
  split; [| split].
  - intros record_type record name ttl Hplain.
    destruct Hplain as [(-> & ip & ->) | [(-> & ip & ->) | [(-> & c & ->) |
                       [(-> & p & h & ->) | [(-> & h & ->) | [(-> & h & ->) |
                        (-> & p & w & po & t & ->)]]]]]];
      eexists; split; reflexivity.
  - intros text name ttl. eexists. split; reflexivity.
  - intros host email serial refresh retry expire minimum name ttl.
    eexists. split; reflexivity.
Qed.

Lemma build_record_reads_exported_fields_witness :
  exists fields,
    record_fields "mx" (MxRecord (PInt 10) (PStr "mail.example.com.")) = Ok (fields, None) /\
    _build_record (("type", PStr "mx") :: ("name", PStr "@") :: ("ttl", PInt 3600) :: fields)
    = Ok (MxRecord (PInt 10) (PStr "mail.example.com.")).
Proof.
  apply (proj1 build_record_reads_exported_fields).
  right. right. right. left. split; [reflexivity |]. eexists; eexists. reflexivity.
Defined.

(** X16: The only key errors [_build_record] lets through are those for the keys
    [type] and [name]: an entry without type fails before any field is
    read, a missing field is reported as a client error naming the record,
    and only when the entry has no name either does that report itself fail
    with a key error. *)
Theorem build_record_key_errors (data : dict) :
  (lookup "type" data = None -> _build_record data = Raise (KeyError "type")) /\
  (forall k, _build_record data = Raise (KeyError k) -> k = "type" \/ k = "name").
Proof.
  split.
  - intros H. unfold _build_record, dict_item. rewrite H. reflexivity.
  - intros k. unfold _build_record. unfold dict_item at 1.
    destruct (lookup "type" data) as [t |]; simpl.
    2: { intros H. injection H as <-. left. reflexivity. }
    destruct (as_str t) as [ts | e] eqn:Ht; simpl.
    2: { destruct t; simpl in Ht; try discriminate;
         injection Ht as <-; intros H; discriminate H. }
    match goal with
    | |- match ?b with _ => _ end = _ -> _ => destruct b as [r | e]
    end.
    + discriminate.
    + destruct e; try discriminate.
      unfold dict_item. destruct (lookup "name" data); simpl.
      * discriminate.
      * intros H. injection H as <-. right. reflexivity.
Qed.

Lemma type_to_property_name_spec_witness :
  _type_to_property_name (PStr "SPF") = Ok "txt_records" /\
  In "txt_records" record_properties.
Proof.
  destruct (type_to_property_name_spec "SPF") as (_ & Hin & Hspf).
  assert (H : _type_to_property_name (PStr "SPF") = Ok "txt_records").
  { apply Hspf. left. reflexivity. }
  split; [exact H | exact (Hin _ H)].
Defined.

Lemma build_record_key_errors_witness :
  _build_record [("ttl", PInt 300); ("ip", PStr "1.2.3.4")] = Raise (KeyError "type").
Proof.
  apply (proj1 (build_record_key_errors [("ttl", PInt 300); ("ip", PStr "1.2.3.4")])).
  reflexivity.
Defined.

(** ** Adding and removing records *)

Section Matching.

Variable py_repr : pyval -> string.
Variable sentinel_str : string.

Lemma lookup_present (k : string) (v : pyval) (d : dict) :
  In (k, v) d -> exists v', lookup k d = Some v'.
Proof.
  induction d as [|[k' v'] d IH]; simpl; intros H; [contradiction |].
  destruct (String.eqb k k') eqn:E; [eexists; reflexivity |].
  destruct H as [H | H]; [| exact (IH H)].
  injection H as -> _. rewrite String.eqb_refl in E. discriminate.
Qed.

(** Every attribute dictionary matches itself as a filter. *)
Lemma dict_matches_itself (d : dict) :
  dict_matches_filter py_repr sentinel_str d d = true.
Proof.
  unfold dict_matches_filter. apply forallb_forall. intros [k v] Hin. simpl.
  destruct (lookup_present k v d Hin) as (v' & ->).
  rewrite String.eqb_refl, orb_true_r. reflexivity.
Qed.

Lemma record_matches_itself (record : pyval) :
  is_obj record -> record_matches py_repr sentinel_str record record = true.
Proof.
  destruct record; simpl; try contradiction. intros _. apply dict_matches_itself.
Qed.

(** The comprehension of [_remove_record] keeps the stored records that are
    not taken for the given one. *)
Lemma keep_unmatched_filter (record : pyval) (l : list pyval) :
  is_obj record -> Forall is_obj l ->
  keep_unmatched py_repr sentinel_str record l =
  Ok (filter (fun r => negb (record_matches py_repr sentinel_str record r)) l).
Proof.
  intros Hrec. induction 1 as [|r l Hr _ IH]; simpl; [reflexivity |].
  destruct r; simpl in Hr; try contradiction.
  destruct record; simpl in Hrec; try contradiction.
  simpl. simpl in IH. rewrite IH. simpl.
  destruct (dict_matches_filter py_repr sentinel_str d d0); reflexivity.
Qed.

Lemma filter_length_le {A} (p : A -> bool) (l : list A) :
  List.length (filter p l) <= List.length l.
Proof.
  induction l as [|x l IH]; simpl; [lia |]. destruct (p x); simpl; lia.
Qed.

Lemma filter_drops_one {A} (p : A -> bool) (l : list A) (x : A) :
  In x l -> p x = false -> List.length (filter p l) < List.length l.
Proof.
  induction l as [|y l IH]; simpl; intros Hin Hp; [contradiction |].
  destruct Hin as [-> | Hin].
  - rewrite Hp. pose proof (filter_length_le p l). lia.
  - specialize (IH Hin Hp). destruct (p y); simpl; lia.
Qed.

(** X17: Removing a record that is stored never ends in the not-found error: the
    record matches itself, so the list gets shorter and no longer holds it;
    the record set is deleted when nothing is left and empty record sets
    are not kept, and updated with the remaining records otherwise. *)
Theorem remove_stored_record
    (record_set record record_type : pyval) (prop : string) (l : list pyval)
    (keep_empty_record_set : bool) :
  _type_to_property_name record_type = Ok prop ->
  getattr record_set prop = Ok (PList l) ->
  Forall is_obj l -> In record l ->
  exists kept,
    List.length kept < List.length l /\
    ~ In record kept /\
    (forall r, In r kept -> In r l) /\
    ((kept = [] /\ keep_empty_record_set = false /\
      _remove_record py_repr sentinel_str record_set record record_type
                     keep_empty_record_set true = Ok Deleted)
     \/
     (exists record_set',
         (kept <> [] \/ keep_empty_record_set = true) /\
         _remove_record py_repr sentinel_str record_set record record_type
                        keep_empty_record_set true = Ok (Updated record_set') /\
         getattr record_set' prop = Ok (PList kept) /\
         forall k, k <> prop -> getattr record_set' k = getattr record_set k)).
Proof.
  intros Hprop Hget Hobj Hin.
  assert (Hrec : is_obj record).
  { rewrite Forall_forall in Hobj. exact (Hobj record Hin). }
  set (kept := filter (fun r => negb (record_matches py_repr sentinel_str record r)) l).
  assert (Hself : negb (record_matches py_repr sentinel_str record record) = false).
  { rewrite (record_matches_itself record Hrec). reflexivity. }
  assert (Hlen : List.length kept < List.length l).
  { exact (filter_drops_one _ l record Hin Hself). }
  exists kept. split; [exact Hlen |]. split.
  { unfold kept. intros H. apply filter_In in H. destruct H as [_ H]. congruence. }
  split.
  { unfold kept. intros r H. apply filter_In in H. tauto. }
  unfold _remove_record. rewrite Hprop. cbn [bind]. rewrite Hget. cbn [bind].
  destruct (py_eqb (PList l) PNone) eqn:E; [apply py_eqb_eq in E; discriminate |].
  cbn [negb iter bind].
  rewrite (keep_unmatched_filter record l Hrec Hobj). fold kept. cbn [bind].
  destruct (Nat.eqb (List.length kept) (List.length l)) eqn:El;
    [apply Nat.eqb_eq in El; lia |].
  destruct (setattr_obj record_set prop (PList kept) (getattr_is_obj _ _ _ Hget))
    as (rs' & Hset & _).
  rewrite Hset. cbn [bind].
  rewrite (getattr_setattr _ _ _ _ _ Hset), String.eqb_refl. cbn [bind py_len].
  destruct kept as [|r0 kept'] eqn:Hk.
  - destruct keep_empty_record_set; simpl.
    + right. exists rs'. split; [right; reflexivity |]. split; [reflexivity |].
      split; [rewrite (getattr_setattr _ _ _ _ _ Hset), String.eqb_refl; reflexivity |].
      intros k Hne. rewrite (getattr_setattr _ _ _ _ _ Hset).
      apply String.eqb_neq in Hne. rewrite Hne. reflexivity.
    + left. auto.
  - right. exists rs'. split; [left; discriminate |]. split; [reflexivity |].
    split; [rewrite (getattr_setattr _ _ _ _ _ Hset), String.eqb_refl; reflexivity |].
    intros k Hne. rewrite (getattr_setattr _ _ _ _ _ Hset).
    apply String.eqb_neq in Hne. rewrite Hne. reflexivity.
Qed.

Lemma filter_keeps_all {A} (p : A -> bool) (l : list A) :
  Forall (fun x => p x = true) l -> filter p l = l.
Proof.
  induction 1 as [|x l Hx _ IH]; simpl; [reflexivity |]. rewrite Hx, IH. reflexivity.
Qed.

(** X18: Adding a record to a record set none of whose records is taken for it,
    and then removing that record, gives the stored records back: the
    record set is updated with the list it had, or deleted when it had no
    record and empty record sets are not kept.  [fetched] is [None] for a
    record set that does not exist yet. *)
Theorem add_then_remove_record
    (fetched : option pyval) (record record_type record_set_name held : pyval)
    (prop : string) (l : list pyval) (keep_empty_record_set : bool) :
  _type_to_property_name record_type = Ok prop ->
  getattr (fetched_or_new fetched record_type record_set_name) prop = Ok held ->
  (held = PNone /\ l = []) \/ held = PList l ->
  Forall is_obj l -> is_obj record ->
  Forall (fun r => record_matches py_repr sentinel_str record r = false) l ->
  exists added,
    _add_save_record fetched record record_type record_set_name true = Ok added /\
    getattr added prop = Ok (PList (l ++ [record])) /\
    ((l = [] /\ keep_empty_record_set = false /\
      _remove_record py_repr sentinel_str added record record_type
                     keep_empty_record_set true = Ok Deleted)
     \/
     (exists restored,
         (l <> [] \/ keep_empty_record_set = true) /\
         _remove_record py_repr sentinel_str added record record_type
                        keep_empty_record_set true = Ok (Updated restored) /\
         getattr restored prop = Ok (PList l) /\
         forall k, k <> prop ->
                   getattr restored k =
                   getattr (fetched_or_new fetched record_type record_set_name) k)).
Proof.
  intros Hprop Hheld Hshape Hobj Hrec Hnone.
  destruct (add_record_list _ record record_type prop held l Hprop Hheld Hshape)
    as (added & Hadd & Hget & Hframe).
  exists added. split; [exact Hadd |]. split; [exact Hget |].
  assert (Hobj' : Forall is_obj (l ++ [record])).
  { apply Forall_app. split; [exact Hobj | repeat constructor; exact Hrec]. }
  assert (Hkept : filter (fun r => negb (record_matches py_repr sentinel_str record r))
                         (l ++ [record]) = l).
  { rewrite filter_app. simpl. rewrite (record_matches_itself record Hrec). simpl.
    rewrite app_nil_r. apply filter_keeps_all.
    eapply Forall_impl; [| exact Hnone]. intros r Hr. simpl in Hr. rewrite Hr. reflexivity. }
  unfold _remove_record. rewrite Hprop. cbn [bind]. rewrite Hget. cbn [bind].
  destruct (py_eqb (PList (l ++ [record])) PNone) eqn:E;
    [apply py_eqb_eq in E; discriminate |].
  cbn [negb iter bind].
  rewrite (keep_unmatched_filter record _ Hrec Hobj'), Hkept. cbn [bind].
  destruct (Nat.eqb (List.length l) (List.length (l ++ [record]))) eqn:El.
  { apply Nat.eqb_eq in El. rewrite length_app in El. simpl in El. lia. }
  destruct (setattr_obj added prop (PList l) (getattr_is_obj _ _ _ Hget))
    as (rs' & Hset & _).
  rewrite Hset. cbn [bind].
  rewrite (getattr_setattr _ _ _ _ _ Hset), String.eqb_refl. cbn [bind py_len].
  assert (Hrest : getattr rs' prop = Ok (PList l) /\
                  forall k, k <> prop ->
                    getattr rs' k =
                    getattr (fetched_or_new fetched record_type record_set_name) k).
  { split; [rewrite (getattr_setattr _ _ _ _ _ Hset), String.eqb_refl; reflexivity |].
    intros k Hne. rewrite (getattr_setattr _ _ _ _ _ Hset).
    pose proof Hne as Hne'. apply String.eqb_neq in Hne'. rewrite Hne'.
    apply Hframe. exact Hne. }
  destruct l as [|r0 l'].
  - destruct keep_empty_record_set; simpl.
    + right. exists rs'. split; [right; reflexivity |]. split; [reflexivity | exact Hrest].
    + left. auto.
  - right. exists rs'. split; [left; discriminate |]. split; [reflexivity | exact Hrest].
Qed.

(** X19: A list-typed removal on a record set whose record property is [None]
    fails with a [TypeError]: the not-found check is skipped and the length
    of [None] is taken. *)
Theorem remove_record_missing_list
    (record_set record record_type : pyval) (prop : string)
    (keep_empty_record_set : bool) :
  _type_to_property_name record_type = Ok prop ->
  getattr record_set prop = Ok PNone ->
  _remove_record py_repr sentinel_str record_set record record_type
                 keep_empty_record_set true = Raise TypeError.
Proof.
  intros Hprop Hget. unfold _remove_record. rewrite Hprop. cbn [bind].
  rewrite Hget. cbn [bind]. rewrite py_eqb_refl. cbn [negb bind].
  rewrite Hget. reflexivity.
Qed.

End Matching.

Lemma remove_stored_record_witness :
  let record_set :=
    PObj "RecordSet"
      [("name", PStr "www"); ("ttl", PInt 3600);
       ("arecords", PList [ARecord (PStr "10.0.0.1"); ARecord (PStr "10.0.0.99")])] in
  _remove_record (fun _ => EmptyString) "<object>" record_set (ARecord (PStr "10.0.0.99"))
                 (PStr "a") false true
  = Ok (Updated (PObj "RecordSet"
                   [("name", PStr "www"); ("ttl", PInt 3600);
                    ("arecords", PList [ARecord (PStr "10.0.0.1")])]))
  /\
  exists kept,
    List.length kept < 2 /\ ~ In (ARecord (PStr "10.0.0.99")) kept.
Proof.
  cbv zeta. split; [reflexivity |].
  destruct (remove_stored_record (fun _ => EmptyString) "<object>"
              (PObj "RecordSet"
                 [("name", PStr "www"); ("ttl", PInt 3600);
                  ("arecords", PList [ARecord (PStr "10.0.0.1");
                                      ARecord (PStr "10.0.0.99")])])
              (ARecord (PStr "10.0.0.99")) (PStr "a") "arecords"
              [ARecord (PStr "10.0.0.1"); ARecord (PStr "10.0.0.99")] false
              eq_refl eq_refl)
    as (kept & Hlen & Hnot & _).
  - repeat constructor.
  - right. left. reflexivity.
  - exists kept. split; [exact Hlen | exact Hnot].
Defined.

Lemma add_then_remove_record_witness :
  exists added,
    _add_save_record None (ARecord (PStr "10.0.0.1")) (PStr "a") (PStr "www") true
      = Ok added /\
    getattr added "arecords" = Ok (PList [ARecord (PStr "10.0.0.1")]) /\
    _remove_record (fun _ => EmptyString) "<object>" added (ARecord (PStr "10.0.0.1")) (PStr "a")
                   false true = Ok Deleted.
Proof.
  destruct (add_then_remove_record (fun _ => EmptyString) "<object>" None
              (ARecord (PStr "10.0.0.1")) (PStr "a") (PStr "www") PNone "arecords" []
              false eq_refl eq_refl (or_introl (conj eq_refl eq_refl))
              (Forall_nil _) I (Forall_nil _))
    as (added & Hadd & Hget & [(_ & _ & Hdel) | (restored & [Hne | Hk] & _)]).
  - exists added. auto.
  - exfalso. apply Hne. reflexivity.
  - discriminate Hk.
Defined.

Lemma remove_record_missing_list_witness :
  _remove_record (fun _ => EmptyString) "<object>"
    (RecordSet (PStr "www") (PStr "Microsoft.Network/dnszones/MX") (PInt 3600))
    (MxRecord (PInt 10) (PStr "mail.example.com.")) (PStr "mx") true true
  = Raise TypeError.
Proof.
  apply (remove_record_missing_list (fun _ => EmptyString) "<object>" _ _ (PStr "mx") "mx_records").
  - reflexivity.
  - reflexivity.
Defined.

(** ** Updating the SOA record *)

Lemma assign_or_keep_attr (record : pyval) (name : string) (arg : pyval) :
  (exists v, getattr record name = Ok v) ->
  exists record',
    assign_or_keep record name arg = Ok record' /\
    forall k, getattr record' k =
              if String.eqb k name
              then (if truthy arg then Ok arg else getattr record k)
              else getattr record k.
Proof.
  intros (v0 & Hv0). unfold assign_or_keep.
  destruct (setattr_obj record name (if truthy arg then arg else v0)
              (getattr_is_obj _ _ _ Hv0)) as (r' & Hset & _).
  exists r'. split.
  - destruct (truthy arg); [| rewrite Hv0]; simpl; exact Hset.
  - intros k. rewrite (getattr_setattr _ _ k name _ Hset).
    destruct (String.eqb k name) eqn:E; [| reflexivity].
    apply String.eqb_eq in E. subst k.
    destruct (truthy arg); [reflexivity | symmetry; exact Hv0].
Qed.

(** X20: [update_dns_soa_record] overwrites a field of the SOA record only with
    a truthy argument: [None], an empty string and the number 0 all leave
    the field as it is.  The record is then stored as the [soa_record] of
    the record set given to [_add_save_record], whose other attributes it
    leaves alone. *)
Theorem update_dns_soa_record_fields
    (record_set record : pyval) (fetched : option pyval)
    (host email serial_number refresh_time retry_time expire_time minimum_ttl : pyval) :
  getattr record_set "soa_record" = Ok record ->
  (forall n, In n ["host"; "email"; "serial_number"; "refresh_time"; "retry_time";
                   "expire_time"; "minimum_ttl"] ->
             exists v, getattr record n = Ok v) ->
  is_obj (fetched_or_new fetched (PStr "soa") (PStr "@")) ->
  exists submitted_set record',
    update_dns_soa_record record_set fetched host email serial_number refresh_time
                          retry_time expire_time minimum_ttl = Ok submitted_set /\
    getattr submitted_set "soa_record" = Ok record' /\
    (forall k, getattr record' k =
               kept_or_given (soa_args host email serial_number refresh_time
                                       retry_time expire_time minimum_ttl) record k) /\
    (forall k, k <> "soa_record" ->
               getattr submitted_set k =
               getattr (fetched_or_new fetched (PStr "soa") (PStr "@")) k).
Proof.
  intros Hsoa Hattrs Hobj.
  unfold update_dns_soa_record. rewrite Hsoa. cbn [bind].
  destruct (assign_or_keep_attr record "host" host) as (r1 & R1 & A1).
  { apply Hattrs. simpl. tauto. }
  rewrite R1. cbn [bind].
  destruct (assign_or_keep_attr r1 "email" email) as (r2 & R2 & A2).
  { rewrite A1. simpl. apply Hattrs. simpl. tauto. }
  rewrite R2. cbn [bind].
  destruct (assign_or_keep_attr r2 "serial_number" serial_number) as (r3 & R3 & A3).
  { rewrite A2, A1. simpl. apply Hattrs. simpl. tauto. }
  rewrite R3. cbn [bind].
  destruct (assign_or_keep_attr r3 "refresh_time" refresh_time) as (r4 & R4 & A4).
  { rewrite A3, A2, A1. simpl. apply Hattrs. simpl. tauto. }
  rewrite R4. cbn [bind].
  destruct (assign_or_keep_attr r4 "retry_time" retry_time) as (r5 & R5 & A5).
  { rewrite A4, A3, A2, A1. simpl. apply Hattrs. simpl. tauto. }
  rewrite R5. cbn [bind].
  destruct (assign_or_keep_attr r5 "expire_time" expire_time) as (r6 & R6 & A6).
  { rewrite A5, A4, A3, A2, A1. simpl. apply Hattrs. simpl. tauto. }
  rewrite R6. cbn [bind].
  destruct (assign_or_keep_attr r6 "minimum_ttl" minimum_ttl) as (r7 & R7 & A7).
  { rewrite A6, A5, A4, A3, A2, A1. simpl. apply Hattrs. simpl. tauto. }
  rewrite R7. cbn [bind].
  destruct (add_record_scalar (fetched_or_new fetched (PStr "soa") (PStr "@")) r7
              (PStr "soa") "soa_record" eq_refl Hobj) as (rs' & Hadd & Hget & Hframe).
  exists rs', r7. split; [exact Hadd |]. split; [exact Hget |]. split; [| exact Hframe].
  intros k. rewrite A7, A6, A5, A4, A3, A2, A1. unfold kept_or_given, soa_args.
  cbn [lookup].
  repeat match goal with
         | |- context [String.eqb k ?n] =>
             let E := fresh "E" in
             destruct (String.eqb k n) eqn:E;
             [apply String.eqb_eq in E; subst k; simpl;
              repeat match goal with
                     | |- context [truthy ?a] => destruct (truthy a)
                     end; reflexivity |]
         end.
  reflexivity.
Qed.

Lemma update_dns_soa_record_fields_witness :
  let soa := SoaRecord (PStr "ns1.example.com.") (PStr "admin.example.com.")
                       (PInt 7) (PInt 3600) (PInt 300) (PInt 2419200) (PInt 300) in
  let record_set := PObj "RecordSet"
                      [("name", PStr "@"); ("type", PStr "Microsoft.Network/dnszones/SOA");
                       ("ttl", PInt 3600); ("soa_record", soa)] in
  exists submitted_set record',
    update_dns_soa_record record_set (Some record_set) PNone (PStr "") (PInt 0)
                          (PInt 7200) PNone PNone PNone = Ok submitted_set /\
    getattr submitted_set "soa_record" = Ok record' /\
    getattr record' "email" = Ok (PStr "admin.example.com.") /\
    getattr record' "serial_number" = Ok (PInt 7) /\
    getattr record' "refresh_time" = Ok (PInt 7200).
Proof.
  cbv zeta.
  set (soa := SoaRecord (PStr "ns1.example.com.") (PStr "admin.example.com.")
                        (PInt 7) (PInt 3600) (PInt 300) (PInt 2419200) (PInt 300)).
  set (record_set := PObj "RecordSet"
                       [("name", PStr "@"); ("type", PStr "Microsoft.Network/dnszones/SOA");
                        ("ttl", PInt 3600); ("soa_record", soa)]).
  destruct (update_dns_soa_record_fields record_set soa (Some record_set)
              PNone (PStr "") (PInt 0) (PInt 7200) PNone PNone PNone eq_refl)
    as (s & r & Hrun & Hget & Hfields & _).
  - intros n Hn. simpl in Hn.
    repeat (destruct Hn as [<- | Hn]; [eexists; reflexivity |]). contradiction.
  - exact I.
  - exists s, r. split; [exact Hrun |]. split; [exact Hget |].
    rewrite !Hfields. repeat split; reflexivity.
Defined.

(** ** The zone name in the export *)

Lemma rstrip_dot_app_dot (s : string) : rstrip_dot (s ++ ".") = rstrip_dot s.
Proof.
  induction s as [|c s IH]; simpl; [reflexivity |].
  rewrite IH. reflexivity.
Qed.

(** X21: A trailing dot on the zone name makes no difference to the export: the
    zone object is the same with and without it. *)
Theorem export_zone_trailing_dot
    (resource_group_name zone_name datetime : string) (record_sets : list pyval) :
  export_zone resource_group_name (zone_name ++ ".") datetime record_sets =
  export_zone resource_group_name zone_name datetime record_sets.
Proof.
  unfold export_zone. rewrite rstrip_dot_app_dot. reflexivity.
Qed.

(** ** What the import keeps of an entry *)

(** [_add_record] touches one record property and nothing else. *)
Lemma add_record_frame (record_set record record_type : pyval) (is_list : bool)
    (record_set' : pyval) :
  _add_record record_set record record_type is_list = Ok record_set' ->
  forall k, ~ In k record_properties -> getattr record_set' k = getattr record_set k.
Proof.
  unfold _add_record.
  destruct (_type_to_property_name record_type) as [prop | e] eqn:Hprop;
    cbn [bind]; [| discriminate].
  pose proof (type_property_in _ _ Hprop) as Hin.
  assert (Hne : forall k, ~ In k record_properties -> String.eqb k prop = false).
  { intros k Hk. apply String.eqb_neq. intros ->. contradiction. }
  destruct is_list.
  - destruct (getattr record_set prop) as [held | e] eqn:Hheld; cbn [bind];
      [| discriminate].
    destruct (py_eqb held PNone).
    + destruct (setattr record_set prop (PList [])) as [rs1 | e] eqn:Hs1; cbn [bind];
        [| discriminate].
      destruct (getattr rs1 prop) as [held1 | e]; cbn [bind]; [| discriminate].
      destruct held1; try discriminate.
      intros Hs2 k Hk.
      rewrite (getattr_setattr _ _ _ _ _ Hs2), (Hne k Hk),
              (getattr_setattr _ _ _ _ _ Hs1), (Hne k Hk). reflexivity.
    + cbn [bind]. rewrite Hheld. destruct held; try discriminate.
      intros Hs2 k Hk.
      rewrite (getattr_setattr _ _ _ _ _ Hs2), (Hne k Hk). reflexivity.
  - intros Hs k Hk.
    rewrite (getattr_setattr _ _ _ _ _ Hs), (Hne k Hk). reflexivity.
Qed.

(** X22: The TTL and the name of a record set are those of the first entry
    imported under its key: an entry added to an existing record set leaves
    them as they are, whatever its own TTL. *)
Theorem import_entry_keeps_first_ttl
    (record_set_name record_set_type : string) (record_sets record_sets' : record_set_dict)
    (entry : dict) (existing ttl name : pyval) :
  lookup (lower record_set_name ++ record_set_type)%string record_sets = Some existing ->
  is_obj existing ->
  getattr existing "ttl" = Ok ttl ->
  getattr existing "name" = Ok name ->
  import_entry record_set_name record_set_type record_sets entry = Ok record_sets' ->
  exists updated,
    lookup (lower record_set_name ++ record_set_type)%string record_sets' = Some updated /\
    getattr updated "ttl" = Ok ttl /\
    getattr updated "name" = Ok name.
Proof.
  intros Hlook Hobj Httl Hname. unfold import_entry.
  destruct (dict_item entry "ttl") as [entry_ttl | e]; cbn [bind]; [| discriminate].
  destruct (_build_record entry) as [record | e]; cbn [bind]; [| discriminate].
  rewrite Hlook. rewrite (truthy_obj existing Hobj). cbn [negb].
  destruct (_add_record existing record (PStr record_set_type)
              (is_list_type record_set_type)) as [updated | e] eqn:Hadd;
    cbn [bind]; [| discriminate].
  intros H. injection H as <-.
  exists updated. split; [rewrite lookup_store, String.eqb_refl; reflexivity |].
  split.
  - rewrite (add_record_frame _ _ _ _ _ Hadd "ttl"); [exact Httl |].
    simpl. intuition discriminate.
  - rewrite (add_record_frame _ _ _ _ _ Hadd "name"); [exact Hname |].
    simpl. intuition discriminate.
Qed.

Lemma import_entry_keeps_first_ttl_witness :
  let first := RecordSet (PStr "www") (PStr "a") (PInt 300) in
  exists record_sets' updated,
    import_entry "www" "a" [("wwwa", first)]
      [("type", PStr "a"); ("name", PStr "www"); ("ttl", PInt 86400);
       ("ip", PStr "1.2.3.5")] = Ok record_sets' /\
    lookup "wwwa" record_sets' = Some updated /\
    getattr updated "ttl" = Ok (PInt 300) /\
    getattr updated "name" = Ok (PStr "www").
Proof.
  cbv zeta.
  assert (Hrun : import_entry "www" "a"
                   [("wwwa", RecordSet (PStr "www") (PStr "a") (PInt 300))]
                   [("type", PStr "a"); ("name", PStr "www"); ("ttl", PInt 86400);
                    ("ip", PStr "1.2.3.5")]
                 = Ok [("wwwa",
                        PObj "RecordSet"
                          [("id", PNone); ("name", PStr "www"); ("type", PStr "a");
                           ("etag", PNone); ("ttl", PInt 300);
                           ("arecords", PList [ARecord (PStr "1.2.3.5")]);
                           ("aaaa_records", PNone); ("mx_records", PNone);
                           ("ns_records", PNone); ("ptr_records", PNone);
                           ("srv_records", PNone); ("txt_records", PNone);
                           ("cname_record", PNone); ("soa_record", PNone)])])
    by reflexivity.
  destruct (import_entry_keeps_first_ttl "www" "a"
              [("wwwa", RecordSet (PStr "www") (PStr "a") (PInt 300))] _ _
              (RecordSet (PStr "www") (PStr "a") (PInt 300)) (PInt 300) (PStr "www")
              eq_refl I eq_refl eq_refl Hrun) as (updated & H1 & H2 & H3).
  eexists. exists updated. split; [exact Hrun |]. auto.
Defined.

(** X23: At the zone root the NS records of the file are not submitted: the
    record set handed to the service is the root NS record set the service
    already holds, with only the TTL taken from the file and the type cut
    down to its last segment. *)
Theorem import_root_ns_keeps_service_records
    (origin : string) (root_soa root_ns rs ttl held : pyval) (ts root_type tail : string) :
  getattr rs "type" = Ok (PStr ts) -> lower ts = "ns" ->
  getattr rs "name" = Ok (PStr origin) ->
  getattr rs "ttl" = Ok ttl ->
  getattr root_ns "type" = Ok (PStr root_type) ->
  after_last_slash root_type = Some tail ->
  getattr root_ns "ns_records" = Ok held ->
  exists submitted_set,
    prepare_record_set origin root_soa root_ns rs = Ok submitted_set /\
    getattr submitted_set "ns_records" = Ok held /\
    getattr submitted_set "ttl" = Ok ttl /\
    getattr submitted_set "type" = Ok (PStr tail) /\
    forall k, k <> "ttl" -> k <> "type" ->
              getattr submitted_set k = getattr root_ns k.
Proof.
  intros Ht Hns Hn Httl Hrt Htail Hheld.
  pose proof (getattr_is_obj _ _ _ Ht) as Hobj.
  pose proof (getattr_is_obj _ _ _ Hrt) as Hrobj.
  unfold prepare_record_set. rewrite Ht. cbn [bind as_str]. rewrite Hns.
  destruct (setattr_obj rs "type" (PStr "ns") Hobj) as (rs1 & Hs1 & Hobj1).
  rewrite Hs1. cbn [bind].
  rewrite (getattr_setattr _ _ "name" "type" _ Hs1). simpl String.eqb. cbv iota.
  rewrite Hn. cbn [bind]. rewrite py_eqb_refl.
  destruct (setattr_obj rs1 "name" (PStr "@") Hobj1) as (rs2 & Hs2 & _).
  rewrite Hs2. cbn [bind].
  assert (Ht2 : getattr rs2 "type" = Ok (PStr "ns")).
  { rewrite (getattr_setattr _ _ "type" "name" _ Hs2). simpl.
    rewrite (getattr_setattr _ _ "type" "type" _ Hs1). reflexivity. }
  assert (Hn2 : getattr rs2 "name" = Ok (PStr "@")).
  { rewrite (getattr_setattr _ _ "name" "name" _ Hs2). reflexivity. }
  assert (Httl2 : getattr rs2 "ttl" = Ok ttl).
  { rewrite (getattr_setattr _ _ "ttl" "name" _ Hs2). simpl.
    rewrite (getattr_setattr _ _ "ttl" "type" _ Hs1). simpl. exact Httl. }
  rewrite Ht2. cbn [bind]. 
  change (_type_to_property_name (PStr "ns")) with (@Ok string "ns_records").
  cbn [bind]. rewrite Hn2. cbn [bind].
  change (py_eqb (PStr "@") (PStr "@") && py_eqb (PStr "ns") (PStr "soa")) with false.
  change (py_eqb (PStr "@") (PStr "@") && py_eqb (PStr "ns") (PStr "ns")) with true.
  cbv iota. rewrite Httl2. cbn [bind].
  destruct (setattr_obj root_ns "ttl" ttl Hrobj) as (n1 & Hn1 & Hn1obj).
  rewrite Hn1. cbn [bind].
  rewrite (getattr_setattr _ _ "type" "ttl" _ Hn1). simpl String.eqb. cbv iota.
  rewrite Hrt. cbn [bind as_str]. unfold rsplit_slash_1. rewrite Htail. cbn [bind].
  destruct (setattr_obj n1 "type" (PStr tail) Hn1obj) as (n2 & Hn2' & _).
  exists n2. split; [exact Hn2' |].
  split.
  { rewrite (getattr_setattr _ _ "ns_records" "type" _ Hn2'). simpl.
    rewrite (getattr_setattr _ _ "ns_records" "ttl" _ Hn1). simpl. exact Hheld. }
  split.
  { rewrite (getattr_setattr _ _ "ttl" "type" _ Hn2'). simpl.
    rewrite (getattr_setattr _ _ "ttl" "ttl" _ Hn1). reflexivity. }
  split.
  { rewrite (getattr_setattr _ _ "type" "type" _ Hn2'). reflexivity. }
  intros k Hk1 Hk2.
  rewrite (getattr_setattr _ _ k "type" _ Hn2').
  apply String.eqb_neq in Hk2. rewrite Hk2.
  rewrite (getattr_setattr _ _ k "ttl" _ Hn1).
  apply String.eqb_neq in Hk1. rewrite Hk1. reflexivity.
Qed.

Lemma import_root_ns_keeps_service_records_witness :
  let from_file := PObj "RecordSet"
                     [("name", PStr "example.com"); ("type", PStr "NS"); ("ttl", PInt 60);
                      ("ns_records", PList [NsRecord (PStr "ns1.other.org.")])] in
  let root_ns := PObj "RecordSet"
                   [("name", PStr "@"); ("type", PStr "Microsoft.Network/dnszones/NS");
                    ("ttl", PInt 172800);
                    ("ns_records", PList [NsRecord (PStr "ns1-01.azure-dns.com.")])] in
  exists submitted_set,
    prepare_record_set "example.com" PNone root_ns from_file = Ok submitted_set /\
    getattr submitted_set "ns_records" = Ok (PList [NsRecord (PStr "ns1-01.azure-dns.com.")]) /\
    getattr submitted_set "ttl" = Ok (PInt 60) /\
    getattr submitted_set "type" = Ok (PStr "NS").
Proof.
  cbv zeta.
  destruct (import_root_ns_keeps_service_records "example.com" PNone
              (PObj "RecordSet"
                 [("name", PStr "@"); ("type", PStr "Microsoft.Network/dnszones/NS");
                  ("ttl", PInt 172800);
                  ("ns_records", PList [NsRecord (PStr "ns1-01.azure-dns.com.")])])
              (PObj "RecordSet"
                 [("name", PStr "example.com"); ("type", PStr "NS"); ("ttl", PInt 60);
                  ("ns_records", PList [NsRecord (PStr "ns1.other.org.")])])
              (PInt 60) (PList [NsRecord (PStr "ns1-01.azure-dns.com.")])
              "NS" "Microsoft.Network/dnszones/NS" "NS"
              eq_refl eq_refl eq_refl eq_refl eq_refl eq_refl eq_refl)
    as (s & H1 & H2 & H3 & H4 & _).
  exists s. auto.
Defined.

(** X24: At the zone root the SOA record of the file is submitted under ['@']
    with its host replaced by the host of the SOA record the service
    holds; the other fields of the record are those of the file. *)
Theorem import_root_soa_takes_service_host
    (origin : string) (root_soa root_ns rs soa root_record host : pyval) (ts : string) :
  getattr rs "type" = Ok (PStr ts) -> lower ts = "soa" ->
  getattr rs "name" = Ok (PStr origin) ->
  getattr rs "soa_record" = Ok soa -> is_obj soa ->
  getattr root_soa "soa_record" = Ok root_record ->
  getattr root_record "host" = Ok host ->
  exists submitted_set soa',
    prepare_record_set origin root_soa root_ns rs = Ok submitted_set /\
    getattr submitted_set "name" = Ok (PStr "@") /\
    getattr submitted_set "type" = Ok (PStr "soa") /\
    getattr submitted_set "soa_record" = Ok soa' /\
    getattr soa' "host" = Ok host /\
    forall k, k <> "host" -> getattr soa' k = getattr soa k.
Proof.
  intros Ht Hsoa Hn Hrec Hsobj Hroot Hhost.
  pose proof (getattr_is_obj _ _ _ Ht) as Hobj.
  unfold prepare_record_set. rewrite Ht. cbn [bind as_str]. rewrite Hsoa.
  destruct (setattr_obj rs "type" (PStr "soa") Hobj) as (rs1 & Hs1 & Hobj1).
  rewrite Hs1. cbn [bind].
  rewrite (getattr_setattr _ _ "name" "type" _ Hs1). simpl String.eqb. cbv iota.
  rewrite Hn. cbn [bind]. rewrite py_eqb_refl.
  destruct (setattr_obj rs1 "name" (PStr "@") Hobj1) as (rs2 & Hs2 & Hobj2).
  rewrite Hs2. cbn [bind].
  assert (Ht2 : getattr rs2 "type" = Ok (PStr "soa")).
  { rewrite (getattr_setattr _ _ "type" "name" _ Hs2). simpl.
    rewrite (getattr_setattr _ _ "type" "type" _ Hs1). reflexivity. }
  assert (Hn2 : getattr rs2 "name" = Ok (PStr "@")).
  { rewrite (getattr_setattr _ _ "name" "name" _ Hs2). reflexivity. }
  assert (Hrec2 : getattr rs2 "soa_record" = Ok soa).
  { rewrite (getattr_setattr _ _ "soa_record" "name" _ Hs2). simpl.
    rewrite (getattr_setattr _ _ "soa_record" "type" _ Hs1). simpl. exact Hrec. }
  rewrite Ht2. cbn [bind].
  change (_type_to_property_name (PStr "soa")) with (@Ok string "soa_record").
  cbn [bind]. rewrite Hn2. cbn [bind].
  change (py_eqb (PStr "@") (PStr "@") && py_eqb (PStr "soa") (PStr "soa")) with true.
  cbv iota. rewrite Hroot. cbn [bind]. rewrite Hhost. cbn [bind].
  rewrite Hrec2. cbn [bind].
  destruct (setattr_obj soa "host" host Hsobj) as (soa' & Hs3 & _).
  rewrite Hs3. cbn [bind].
  destruct (setattr_obj rs2 "soa_record" soa' Hobj2) as (rs3 & Hs4 & Hobj3).
  rewrite Hs4. cbn [bind].
  destruct (setattr_obj rs3 "name" (PStr "@") Hobj3) as (rs4 & Hs5 & _).
  exists rs4, soa'. split; [exact Hs5 |].
  split; [rewrite (getattr_setattr _ _ "name" "name" _ Hs5); reflexivity |].
  split.
  { rewrite (getattr_setattr _ _ "type" "name" _ Hs5). simpl.
    rewrite (getattr_setattr _ _ "type" "soa_record" _ Hs4). simpl. exact Ht2. }
  split.
  { rewrite (getattr_setattr _ _ "soa_record" "name" _ Hs5). simpl.
    rewrite (getattr_setattr _ _ "soa_record" "soa_record" _ Hs4). reflexivity. }
  split; [rewrite (getattr_setattr _ _ "host" "host" _ Hs3); reflexivity |].
  intros k Hk. rewrite (getattr_setattr _ _ k "host" _ Hs3).
  apply String.eqb_neq in Hk. rewrite Hk. reflexivity.
Qed.

Lemma import_root_soa_takes_service_host_witness :
  let from_file := PObj "RecordSet"
                     [("name", PStr "example.com"); ("type", PStr "soa"); ("ttl", PInt 3600);
                      ("soa_record",
                         SoaRecord (PStr "ns1.old.org.") (PStr "admin.example.com.")
                                   (PInt 1) (PInt 3600) (PInt 300) (PInt 2419200)
                                   (PInt 300))] in
  let root_soa := PObj "RecordSet"
                    [("name", PStr "@");
                     ("soa_record",
                        SoaRecord (PStr "ns1-01.azure-dns.com.") (PStr "azuredns")
                                  (PInt 1) (PInt 3600) (PInt 300) (PInt 2419200)
                                  (PInt 300))] in
  exists submitted_set soa',
    prepare_record_set "example.com" root_soa PNone from_file = Ok submitted_set /\
    getattr submitted_set "name" = Ok (PStr "@") /\
    getattr submitted_set "soa_record" = Ok soa' /\
    getattr soa' "host" = Ok (PStr "ns1-01.azure-dns.com.") /\
    getattr soa' "email" = Ok (PStr "admin.example.com.").
Proof.
  cbv zeta.
  destruct (import_root_soa_takes_service_host "example.com"
              (PObj "RecordSet"
                 [("name", PStr "@");
                  ("soa_record",
                     SoaRecord (PStr "ns1-01.azure-dns.com.") (PStr "azuredns")
                               (PInt 1) (PInt 3600) (PInt 300) (PInt 2419200)
                               (PInt 300))])
              PNone
              (PObj "RecordSet"
                 [("name", PStr "example.com"); ("type", PStr "soa"); ("ttl", PInt 3600);
                  ("soa_record",
                     SoaRecord (PStr "ns1.old.org.") (PStr "admin.example.com.")
                               (PInt 1) (PInt 3600) (PInt 300) (PInt 2419200)
                               (PInt 300))])
              _ _ (PStr "ns1-01.azure-dns.com.") "soa"
              eq_refl eq_refl eq_refl eq_refl I eq_refl eq_refl)
    as (s & soa' & H1 & H2 & _ & H4 & H5 & H6).
  exists s, soa'. split; [exact H1 |]. split; [exact H2 |]. split; [exact H4 |].
  split; [exact H5 |]. rewrite H6; [reflexivity | discriminate].
Defined.

(** ** IP configurations of a network interface *)

Lemma upsert_result_shape (l : list pyval) (obj : pyval) (k : string) (v : pyval) :
  Forall is_obj l ->
  exists rest log,
    _upsert l obj k v = Ok (rest ++ [obj], log) /\ (forall x, In x rest -> In x l).
Proof.
  intros Hobj.
  destruct (first_hit_split k v l) as [Hmiss | (before & m & after & -> & Hb & Hm)].
  - exists l. eexists. split; [apply upsert_miss; exact Hmiss | auto].
  - exists (before ++ after). eexists. split.
    + rewrite <- app_assoc. apply upsert_hit; auto.
      apply Forall_app in Hobj. destruct Hobj as [_ H]. inversion H; assumption.
    + intros x Hx. apply in_app_or in Hx. apply in_or_app.
      destruct Hx; [left | right; right]; assumption.
Qed.

Lemma clear_primary_all (l : list pyval) :
  Forall is_obj l ->
  exists l',
    clear_primary l = Ok l' /\ Forall is_obj l' /\
    Forall (fun c => getattr c "primary" = Ok (PBool false)) l'.
Proof.
  induction 1 as [|x l Hx _ (l' & IH1 & IH2 & IH3)].
  - exists []. repeat split; constructor.
  - destruct (setattr_obj x "primary" (PBool false) Hx) as (x' & Hset & Hx').
    exists (x' :: l'). simpl. rewrite Hset. simpl. rewrite IH1. simpl.
    split; [reflexivity |]. split; [constructor; assumption |].
    constructor; [| exact IH3].
    rewrite (getattr_setattr _ _ _ _ _ Hset). reflexivity.
Qed.

(** X13: [create_nic_ip_config] with [make_primary] set submits the new
    configuration last and every configuration that was there before with
    [primary] false; without a subnet for an IPv4 configuration and
    without a primary configuration to take it from, the command ends in
    an uncaught [StopIteration]. *)
Theorem create_nic_ip_config_primary :
  (forall nic l ip_config_name subnet0 subnet public_ip_address pool_ids
          nat_rule_ids private_ip_address allocation version make_primary,
      getattr nic "ip_configurations" = Ok (PList l) ->
      Forall is_obj l ->
      default_subnet nic version subnet0 = Ok subnet ->
      truthy make_primary = true ->
      exists nic' log rest,
        create_nic_ip_config nic ip_config_name subnet0 public_ip_address
          pool_ids nat_rule_ids private_ip_address allocation version make_primary
          = Ok (nic', log) /\
        getattr nic' "ip_configurations" =
          Ok (PList (rest ++
                     [NetworkInterfaceIPConfiguration ip_config_name subnet
                        public_ip_address pool_ids nat_rule_ids private_ip_address
                        allocation version make_primary])) /\
        Forall (fun c => getattr c "primary" = Ok (PBool false)) rest)
  /\
  (forall nic l ip_config_name subnet0 public_ip_address pool_ids
          nat_rule_ids private_ip_address allocation make_primary,
      getattr nic "ip_configurations" = Ok (PList l) ->
      Forall (fun c => exists p, getattr c "primary" = Ok p /\ truthy p = false) l ->
      truthy subnet0 = false ->
      create_nic_ip_config nic ip_config_name subnet0 public_ip_address
        pool_ids nat_rule_ids private_ip_address allocation (PStr "ipv4") make_primary
      = Raise StopIteration).
Proof.
  split.
  - intros nic l ip_config_name subnet0 subnet public_ip_address pool_ids
           nat_rule_ids private_ip_address allocation version make_primary
           Hget Hobj Hsub Hmp.
    unfold create_nic_ip_config. rewrite Hsub. cbn [bind]. rewrite Hmp.
    rewrite Hget. cbn [bind iter].
    destruct (clear_primary_all l Hobj) as (l1 & Hc & Hobj1 & Hprim).
    rewrite Hc. cbn [bind].
    destruct (setattr_obj nic "ip_configurations" (PList l1)
                (getattr_is_obj _ _ _ Hget)) as (nic1 & Hset & Hn1obj).
    rewrite Hset. cbn [bind].
    unfold upsert_attr.
    rewrite (getattr_setattr _ _ _ _ _ Hset), String.eqb_refl. cbn [bind iter].
    destruct (upsert_result_shape l1
                (NetworkInterfaceIPConfiguration ip_config_name subnet
                   public_ip_address pool_ids nat_rule_ids private_ip_address
                   allocation version make_primary)
                "name" ip_config_name Hobj1) as (rest & log & Hup & Hsubset).
    rewrite Hup. cbn [bind fst snd].
    destruct (setattr_obj nic1 "ip_configurations"
                (PList (rest ++
                        [NetworkInterfaceIPConfiguration ip_config_name subnet
                           public_ip_address pool_ids nat_rule_ids private_ip_address
                           allocation version make_primary])) Hn1obj)
      as (nic2 & Hset2 & _).
    rewrite Hset2. exists nic2, log, rest.
    split; [reflexivity |].
    split; [rewrite (getattr_setattr _ _ _ _ _ Hset2); reflexivity |].
    apply Forall_forall. intros c Hc_in.
    rewrite Forall_forall in Hprim. apply Hprim. apply Hsubset. exact Hc_in.
  - intros nic l ip_config_name subnet0 public_ip_address pool_ids
           nat_rule_ids private_ip_address allocation make_primary Hget Hnone Hsub.
    unfold create_nic_ip_config, default_subnet.
    rewrite py_eqb_refl, Hsub. cbn [negb andb]. rewrite Hget. cbn [bind iter].
    assert (Hfw : first_where (fun x => p <- getattr x "primary" ;; Ok (truthy p)) l
                  = Ok None).
    { clear Hget. induction Hnone as [|c l (p & Hp & Hfalse) _ IH]; simpl.
      - reflexivity.
      - rewrite Hp. simpl. rewrite Hfalse. rewrite IH. reflexivity. }
    rewrite Hfw. reflexivity.
Qed.

Lemma create_nic_ip_config_primary_witness :
  let old := PObj "NetworkInterfaceIPConfiguration"
               [("name", PStr "ipconfig1"); ("primary", PBool true);
                ("subnet", PObj "Subnet" [("id", PStr "/subnets/s1")])] in
  let nic := PObj "NetworkInterface"
               [("name", PStr "nic1"); ("ip_configurations", PList [old])] in
  let empty := PObj "NetworkInterface"
                 [("name", PStr "nic2"); ("ip_configurations", PList [])] in
  (exists nic' log rest,
      create_nic_ip_config nic (PStr "ipconfig2") PNone PNone PNone PNone PNone
        (PStr "dynamic") (PStr "ipv4") (PBool true) = Ok (nic', log) /\
      getattr nic' "ip_configurations" =
        Ok (PList (rest ++
                   [NetworkInterfaceIPConfiguration (PStr "ipconfig2")
                      (PStr "/subnets/s1") PNone PNone PNone PNone (PStr "dynamic")
                      (PStr "ipv4") (PBool true)])) /\
      Forall (fun c => getattr c "primary" = Ok (PBool false)) rest)
  /\
  create_nic_ip_config empty (PStr "ipconfig2") PNone PNone PNone PNone PNone
    (PStr "dynamic") (PStr "ipv4") (PBool false) = Raise StopIteration.
Proof.
  cbv zeta. destruct create_nic_ip_config_primary as [H1 H2]. split.
  - eapply (H1 _ [PObj "NetworkInterfaceIPConfiguration"
                    [("name", PStr "ipconfig1"); ("primary", PBool true);
                     ("subnet", PObj "Subnet" [("id", PStr "/subnets/s1")])]]).
    + reflexivity.
    + repeat constructor.
    + reflexivity.
    + reflexivity.
  - eapply (H2 _ []).
    + reflexivity.
    + constructor.
    + reflexivity.
Defined.
